(** * SC4 Python Framework: the plugin host runtime manager

    A shallow embedding of [PythonManager] (src/cpp/python/PythonManager.h and
    its implementation) and of [CityWrapper] (the city facade handed to plugins),
    with the properties of plugin discovery, loading, dispatch and cheat
    routing that the design document states about them.

    C++ exceptions derived from [std::exception] are values of [Result];
    the embedded interpreter is an abstract interface ([Python]) whose
    operations thread an interpreter state; [std::unordered_map] is a
    [gmap] together with an unspecified enumeration order. *)

From Stdlib Require Import String Ascii ZArith List Bool Lia.
From stdpp Require Import gmap strings list fin_maps.

Local Open Scope string_scope.

(** ** Paths ([std::filesystem::path], Windows flavour) *)

Module Path.

(** Both separators are directory separators on the host platform.  The
    paths the manager handles are a directory joined with a file name, so a
    root name such as a drive letter is always followed by a separator. *)
Definition is_separator (c : ascii) : bool :=
  (Ascii.eqb c "/" || Ascii.eqb c "\")%bool.

Fixpoint has_separator (s : string) : bool :=
  match s with
  | EmptyString => false
  | String c r => (is_separator c || has_separator r)%bool
  end.

(** [path::filename()]: what follows the last directory separator. *)
Fixpoint filename (s : string) : string :=
  match s with
  | EmptyString => EmptyString
  | String _ r => if has_separator s then filename r else s
  end.

(** The suffix of [s] that starts at its rightmost period, if any. *)
Fixpoint from_last_dot (s : string) : option string :=
  match s with
  | EmptyString => None
  | String c r =>
      match from_last_dot r with
      | Some e => Some e
      | None => if Ascii.eqb c "." then Some s else None
      end
  end.

(** [path::extension()] of a file name: from the rightmost period to the
    end; the special names dot and dot-dot have none, and a period that is
    the first character of the name does not start an extension. *)
Definition extension_of_name (f : string) : string :=
  if (String.eqb f "." || String.eqb f "..")%bool then EmptyString
  else match f with
       | EmptyString => EmptyString
       | String _ r =>
           match from_last_dot r with
           | Some e => e
           | None => EmptyString
           end
       end.

Definition extension (p : string) : string := extension_of_name (filename p).

(** [path::stem()]: the file name without its extension. *)
Definition stem (p : string) : string :=
  let f := filename p in
  String.substring 0 (String.length f - String.length (extension_of_name f)) f.

End Path.

(** ** Exceptions

    Every [catch] of the manager is [catch (const std::exception& e)]; a
    computation either yields a value or throws such an exception, carried
    here by the text of [e.what()]. *)

Inductive Result (A : Type) : Type :=
| Ok (a : A)
| Throw (what : string).
Arguments Ok {A} a.
Arguments Throw {A} what.

Definition is_ok {A} (r : Result A) : bool :=
  match r with Ok _ => true | Throw _ => false end.

(** ** The embedded interpreter (what the manager uses of pybind11) *)

Inductive PyArg (O : Type) : Type :=
| ArgUInt (n : Z)
| ArgStr (s : string)
| ArgObj (o : O).
Arguments ArgUInt {O} n.
Arguments ArgStr {O} s.
Arguments ArgObj {O} o.

Class Python : Type := {
  PyState : Type;
  PyObject : Type;
  (** [py::scoped_interpreter()] and its destructor *)
  scoped_interpreter : PyState -> Result unit * PyState;
  finalize_interpreter : PyState -> PyState;
  (** [py::module::import(name)] *)
  module_import : string -> PyState -> Result PyObject * PyState;
  (** [py::hasattr(obj, name)] *)
  hasattr : PyObject -> string -> PyState -> bool * PyState;
  (** [obj.attr(name)], resolved *)
  getattr : PyObject -> string -> PyState -> Result PyObject * PyState;
  (** [callable(args..., py::arg(k) = v...)] *)
  call : PyObject -> list (PyArg PyObject) -> list (string * PyArg PyObject) ->
         PyState -> Result PyObject * PyState;
  (** [obj.attr(name)(args...)]: attribute lookup and call in one expression *)
  call_method : PyObject -> string -> list (PyArg PyObject) ->
                PyState -> Result PyObject * PyState;
  (** [obj.cast<bool>()] *)
  cast_bool : PyObject -> PyState -> Result bool * PyState;
  (** [py::list::insert(index, text)] *)
  list_insert : PyObject -> Z -> string -> PyState -> Result unit * PyState;
  (** [delete] of a heap-allocated [py::object] (drops one reference) *)
  dec_ref : PyObject -> PyState -> PyState
}.

(** ** The host city ([cISC4City] and the simulators reached through it)

    The host owns the city; the wrapper holds a pointer to it.  The model
    keeps the pointee as a value of type [City]. *)

Class SC4City : Type := {
  City : Type;
  (** [GetCityName(cIGZString&)]: [None] when the call returns false,
      [Some None] when the filled string has a null [ToChar()]. *)
  city_GetCityName : City -> option (option string);
  city_GetResidentialSimulator : City -> bool;
  city_GetBudgetSimulator : City -> bool;
  budget_GetTotalFunds : City -> Z;
  budget_SetTotalFunds : Z -> City -> bool * City;
  budget_DepositFunds : Z -> City -> bool * City;
  budget_WithdrawFunds : Z -> City -> bool * City;
  city_IsInCityTimeSimulationMode : City -> bool;
  city_ToggleSimulationMode : City -> City;
  city_GetBirthDate : City -> Z;
  city_Get24HourClock : City -> bool;
  city_GetPowerSimulator : City -> bool;
  city_GetPlumbingSimulator : City -> bool
}.

Definition to_uint32 (z : Z) : Z := z mod 2 ^ 32.
Definition to_int32 (z : Z) : Z := (z + 2 ^ 31) mod 2 ^ 32 - 2 ^ 31.

(** ** CityWrapper *)

Section CityWrapperDefs.
Context {host : SC4City}.

Record CityStats : Type := {
  residential_population : Z;
  commercial_population : Z;
  industrial_population : Z;
  total_jobs : Z;
  power_produced : Z;
  power_consumed : Z;
  water_produced : Z;
  water_consumed : Z
}.

(** [CityStats{}] *)
Definition zero_stats : CityStats :=
  {| residential_population := 0; commercial_population := 0;
     industrial_population := 0; total_jobs := 0;
     power_produced := 0; power_consumed := 0;
     water_produced := 0; water_consumed := 0 |}.

Record CityWrapper : Type := {
  city : option City;            (* cISC4City*, nullptr is None *)
  cachedStats : CityStats;
  statsCacheValid : bool
}.

(** [CityWrapper::CityWrapper()] *)
Definition new_CityWrapper : CityWrapper :=
  {| city := None; cachedStats := zero_stats; statsCacheValid := false |}.

Definition with_city (c : City) (w : CityWrapper) : CityWrapper :=
  {| city := Some c; cachedStats := cachedStats w;
     statsCacheValid := statsCacheValid w |}.

Definition IsValid (w : CityWrapper) : bool :=
  match city w with Some _ => true | None => false end.

Definition GetCityName (w : CityWrapper) : string :=
  match city w with
  | None => EmptyString
  | Some c =>
      match city_GetCityName c with
      | Some (Some nameStr) => nameStr
      | Some None => EmptyString
      | None => EmptyString
      end
  end.

Definition GetCityPopulation (w : CityWrapper) : Z :=
  match city w with
  | None => 0
  | Some c => if city_GetResidentialSimulator c then 0 else 0
  end.

Definition GetCityMoney (w : CityWrapper) : Z :=
  match city w with
  | None => 0
  | Some c =>
      if city_GetBudgetSimulator c
      then to_uint32 (Z.max 0 (budget_GetTotalFunds c))
      else 0
  end.

Definition SetCityMoney (amount : Z) (w : CityWrapper) : bool * CityWrapper :=
  match city w with
  | None => (false, w)
  | Some c =>
      if city_GetBudgetSimulator c
      then let (r, c') := budget_SetTotalFunds amount c in (r, with_city c' w)
      else (false, w)
  end.

(** [amount] is an [int32_t]; its negation is taken in 32 bits before the
    widening cast. *)
Definition AddCityMoney (amount : Z) (w : CityWrapper) : bool * CityWrapper :=
  match city w with
  | None => (false, w)
  | Some c =>
      if city_GetBudgetSimulator c
      then
        if (0 <=? amount)%Z
        then let (r, c') := budget_DepositFunds amount c in (r, with_city c' w)
        else let (r, c') := budget_WithdrawFunds (to_int32 (- amount)) c in
             (r, with_city c' w)
      else (false, w)
  end.

Definition GetMayorMode (w : CityWrapper) : bool :=
  match city w with
  | None => false
  | Some c => city_IsInCityTimeSimulationMode c
  end.

Definition SetMayorMode (enabled : bool) (w : CityWrapper) : bool * CityWrapper :=
  match city w with
  | None => (false, w)
  | Some c =>
      let currentMode := GetMayorMode w in
      if negb (Bool.eqb currentMode enabled)
      then (true, with_city (city_ToggleSimulationMode c) w)
      else (true, w)
  end.

Definition GetCityDate (w : CityWrapper) : Z :=
  match city w with
  | None => 0
  | Some c => city_GetBirthDate c
  end.

Definition GetCityTime (w : CityWrapper) : Z :=
  match city w with
  | None => 0
  | Some c => if city_Get24HourClock c then 0 else 0
  end.

Definition InvalidateStatsCache (w : CityWrapper) : CityWrapper :=
  {| city := city w; cachedStats := cachedStats w; statsCacheValid := false |}.

Definition UpdateCityReference (w : CityWrapper) : CityWrapper :=
  InvalidateStatsCache w.

(** The cache is [mutable]: refreshing it changes the wrapper. *)
Definition UpdateStatsCache (w : CityWrapper) : CityWrapper :=
  match city w with
  | None => {| city := city w; cachedStats := zero_stats; statsCacheValid := true |}
  | Some c =>
      {| city := city w;
         cachedStats :=
           {| residential_population := GetCityPopulation w;
              commercial_population := 0;
              industrial_population := 0;
              total_jobs := 0;
              power_produced := power_produced (cachedStats w);
              power_consumed := power_consumed (cachedStats w);
              water_produced := water_produced (cachedStats w);
              water_consumed := water_consumed (cachedStats w) |};
         statsCacheValid := true |}
  end.

Definition GetCityStats (w : CityWrapper) : CityStats * CityWrapper :=
  let w' := if statsCacheValid w then w else UpdateStatsCache w in
  (cachedStats w', w').

End CityWrapperDefs.

(** ** Directory enumeration and [std::unordered_map] enumeration order *)

(** One [std::filesystem::directory_entry] as the discovery loop observes
    it.  Each query the loop makes may throw instead of answering: the
    status query behind [is_regular_file()] (a [filesystem_error]), the
    conversion of the native file name or of the whole path to a narrow
    string ([string()], on a name outside the code page), and the step of
    the iterator past the entry.  [None] is a query that answers; [Some
    what] one that throws, with the text of the exception. *)
Record directory_entry : Type := {
  path : string;                     (* [entry.path()] *)
  is_regular_file : bool;            (* [entry.is_regular_file()], where it answers *)
  status_throws : option string;     (* [entry.is_regular_file()] *)
  filename_throws : option string;   (* [entry.path().filename().string()] *)
  string_throws : option string;     (* [entry.path().string()] *)
  increment_throws : option string   (* [++it] past the entry *)
}.

(** An entry whose every query answers. *)
Definition plain_entry (p : string) (regular : bool) : directory_entry :=
  {| path := p; is_regular_file := regular; status_throws := None;
     filename_throws := None; string_throws := None; increment_throws := None |}.

(** A range-for over a [std::unordered_map] visits every element once, in
    an order the container chooses. *)
Record BucketOrder : Type := {
  enumerate : forall V : Type, gmap string V -> list (string * V);
  enumerate_perm : forall (V : Type) (m : gmap string V),
      enumerate V m ≡ₚ map_to_list m
}.
Arguments enumerate _ {V} _.

(** ** PythonManager *)

Section ManagerDefs.
Context {python : Python} {host : SC4City}.
Variable order : BucketOrder.

Record PluginInfo : Type := {
  filepath : string;
  name : string;
  instance_ptr : option PyObject;   (* void*, nullptr is None *)
  loaded : bool
}.

(** The members of the class, then the part of the process state its
    methods read and write: the interpreter, the PythonScripts directory
    and its location, and a record of every plugin handler invocation
    (plugin name, method name), oldest first. *)
Record PythonManager : Type := {
  pythonInitialized : bool;
  interpreter : bool;               (* unique_ptr, engaged or not *)
  loadedPlugins : gmap string PluginInfo;
  cityWrapper : CityWrapper;
  lastError : string;
  py : PyState;
  pluginsDirectory : string;
  pluginsDirectoryListing : option (list directory_entry);
  invocations : list (string * string)
}.

(** [PythonManager::PythonManager()] in a process whose interpreter state
    is [σ] and whose scripts directory is [dir], listed as [listing]. *)
Definition new_PythonManager (σ : PyState) (dir : string)
    (listing : option (list directory_entry)) : PythonManager :=
  {| pythonInitialized := false; interpreter := false; loadedPlugins := ∅;
     cityWrapper := new_CityWrapper; lastError := EmptyString; py := σ;
     pluginsDirectory := dir; pluginsDirectoryListing := listing;
     invocations := [] |}.

Definition set_pythonInitialized (b : bool) (s : PythonManager) : PythonManager :=
  {| pythonInitialized := b; interpreter := interpreter s;
     loadedPlugins := loadedPlugins s; cityWrapper := cityWrapper s;
     lastError := lastError s; py := py s;
     pluginsDirectory := pluginsDirectory s;
     pluginsDirectoryListing := pluginsDirectoryListing s;
     invocations := invocations s |}.

Definition set_interpreter (b : bool) (s : PythonManager) : PythonManager :=
  {| pythonInitialized := pythonInitialized s; interpreter := b;
     loadedPlugins := loadedPlugins s; cityWrapper := cityWrapper s;
     lastError := lastError s; py := py s;
     pluginsDirectory := pluginsDirectory s;
     pluginsDirectoryListing := pluginsDirectoryListing s;
     invocations := invocations s |}.

Definition set_loadedPlugins (m : gmap string PluginInfo) (s : PythonManager)
    : PythonManager :=
  {| pythonInitialized := pythonInitialized s; interpreter := interpreter s;
     loadedPlugins := m; cityWrapper := cityWrapper s;
     lastError := lastError s; py := py s;
     pluginsDirectory := pluginsDirectory s;
     pluginsDirectoryListing := pluginsDirectoryListing s;
     invocations := invocations s |}.

Definition set_cityWrapper (w : CityWrapper) (s : PythonManager) : PythonManager :=
  {| pythonInitialized := pythonInitialized s; interpreter := interpreter s;
     loadedPlugins := loadedPlugins s; cityWrapper := w;
     lastError := lastError s; py := py s;
     pluginsDirectory := pluginsDirectory s;
     pluginsDirectoryListing := pluginsDirectoryListing s;
     invocations := invocations s |}.

Definition set_lastError (e : string) (s : PythonManager) : PythonManager :=
  {| pythonInitialized := pythonInitialized s; interpreter := interpreter s;
     loadedPlugins := loadedPlugins s; cityWrapper := cityWrapper s;
     lastError := e; py := py s;
     pluginsDirectory := pluginsDirectory s;
     pluginsDirectoryListing := pluginsDirectoryListing s;
     invocations := invocations s |}.

Definition set_py (σ : PyState) (s : PythonManager) : PythonManager :=
  {| pythonInitialized := pythonInitialized s; interpreter := interpreter s;
     loadedPlugins := loadedPlugins s; cityWrapper := cityWrapper s;
     lastError := lastError s; py := σ;
     pluginsDirectory := pluginsDirectory s;
     pluginsDirectoryListing := pluginsDirectoryListing s;
     invocations := invocations s |}.

Definition set_invocations (l : list (string * string)) (s : PythonManager)
    : PythonManager :=
  {| pythonInitialized := pythonInitialized s; interpreter := interpreter s;
     loadedPlugins := loadedPlugins s; cityWrapper := cityWrapper s;
     lastError := lastError s; py := py s;
     pluginsDirectory := pluginsDirectory s;
     pluginsDirectoryListing := pluginsDirectoryListing s;
     invocations := l |}.

(** *** Code that may throw, and code that has caught everything *)

Definition Exn (A : Type) : Type := PythonManager -> Result A * PythonManager.
Definition Total (A : Type) : Type := PythonManager -> A * PythonManager.

Definition ret {A} (a : A) : Exn A := fun s => (Ok a, s).

Definition bind {A B} (m : Exn A) (k : A -> Exn B) : Exn B :=
  fun s => match m s with
           | (Ok a, s') => k a s'
           | (Throw e, s') => (Throw e, s')
           end.

(** [try { body } catch (const std::exception& e) { handler }] *)
Definition try_catch {A} (body : Exn A) (handler : string -> Total A) : Total A :=
  fun s => match body s with
           | (Ok a, s') => (a, s')
           | (Throw e, s') => handler e s'
           end.

Definition in_python {A} (op : PyState -> Result A * PyState) : Exn A :=
  fun s => let (r, σ) := op (py s) in (r, set_py σ s).

Definition in_python_total {A} (op : PyState -> A * PyState) : Exn A :=
  fun s => let (r, σ) := op (py s) in (Ok r, set_py σ s).

Definition no_throw {A} (m : Total A) : Exn A :=
  fun s => let (a, s') := m s in (Ok a, s').

Definition update (f : PythonManager -> PythonManager) : Exn unit :=
  fun s => (Ok tt, f s).


Notation "'let*' x ':=' m 'in' k" := (bind m (fun x => k))
  (at level 10, x name, m at level 100, k at level 200).
Notation "m ';;' k" := (bind m (fun _ => k))
  (at level 100, k at level 200, right associativity).

(** *** Errors *)

Definition SetError (error : string) (s : PythonManager) : PythonManager :=
  set_lastError error s.

Definition GetLastError (s : PythonManager) : string := lastError s.

Definition IsPythonInitialized (s : PythonManager) : bool := pythonInitialized s.

(** *** Start-up *)

Definition GetPluginsDirectory (s : PythonManager) : string := pluginsDirectory s.

Definition SetupPythonPaths : Total bool :=
  try_catch
    (let* sys := in_python (module_import "sys") in
     let* path := in_python (getattr sys "path") in
     let* scriptsDir := (fun s => ret (GetPluginsDirectory s) s) in
     in_python (list_insert path 0 scriptsDir) ;;
     ret true)
    (fun e s => (false, SetError ("Failed to setup Python paths: " +:+ e) s)).

Definition SetupPythonEnvironment : Total bool :=
  try_catch
    (let* sys := in_python (module_import "sys") in
     let* path := in_python (getattr sys "path") in
     ret true)
    (fun e s => (false, s)).

Definition LoadPythonBootstrap : Total bool :=
  try_catch
    (let* pluginLoader := in_python (module_import "plugin_loader") in
     ret true)
    (fun e s => (false, SetError ("Failed to load plugin loader: " +:+ e) s)).

Definition SetupPythonLogging : Total bool :=
  try_catch
    (let* sc4_logger := in_python (module_import "sc4_logger") in
     let* setup_function := in_python (getattr sc4_logger "setup_python_logging") in
     in_python (call setup_function [] []) ;;
     ret true)
    (fun e s => (false, s)).

(** [interpreter = std::make_unique<py::scoped_interpreter>()]: the new
    interpreter is constructed first, and the assignment follows only if
    the construction returns.  pybind11 refuses to construct an
    interpreter while one is alive (its constructor throws
    [std::runtime_error] with this text when [Py_IsInitialized()]), and the
    one the manager holds is alive: only [Shutdown] and the destructor
    release it.  When the manager holds none, the construction is the
    interface's [scoped_interpreter]. *)
Definition make_interpreter : Exn unit :=
  fun s =>
    if interpreter s
    then (Throw "The interpreter is already running", s)
    else (in_python scoped_interpreter ;; update (set_interpreter true)) s.

Definition Initialize : Total bool :=
  fun s =>
    if pythonInitialized s then (true, s)
    else
      try_catch
        (make_interpreter ;;
         let* native :=
           no_throw (try_catch
                       (in_python (module_import "sc4_native") ;; ret true)
                       (fun e s => (false, SetError "Failed to import native module" s))) in
         if negb native then ret false
         else
           let* paths := no_throw SetupPythonPaths in
           if negb paths
           then update (SetError "Failed to setup Python paths") ;; ret false
           else
             no_throw SetupPythonEnvironment ;;
             let* bootstrap := no_throw LoadPythonBootstrap in
             if negb bootstrap
             then update (SetError "Failed to load Python bootstrap code") ;; ret false
             else
               no_throw SetupPythonLogging ;;
               update (set_pythonInitialized true) ;;
               ret true)
        (fun e s => (false, SetError ("Python initialization failed: " +:+ e) s))
        s.

(** *** Calling into plugins *)

Definition record_invocation (pluginName method : string) : Exn unit :=
  update (fun s => set_invocations (invocations s ++ [(pluginName, method)]) s).

(** [plugin->attr(method)(args...)], entered in the invocation record. *)
Definition invoke (pluginName : string) (plugin : PyObject) (method : string)
    (args : list (PyArg PyObject)) : Exn PyObject :=
  record_invocation pluginName method ;;
  in_python (call_method plugin method args).

Definition CallPluginMethod (pluginName method : string) : Total bool :=
  fun s =>
    match loadedPlugins s !! pluginName with
    | None => (false, s)
    | Some info =>
        match loaded info, instance_ptr info with
        | true, Some plugin =>
            try_catch
              (let* has := in_python_total (hasattr plugin method) in
               (if has then invoke pluginName plugin method [] ;; ret tt
                else ret tt) ;;
               ret true)
              (fun e s' => (false, s'))
              s
        | _, _ => (false, s)
        end
    end.

Fixpoint CallAllPlugins_loop (method : string)
    (entries : list (string * PluginInfo)) (allSucceeded : bool) : Total bool :=
  fun s =>
    match entries with
    | [] => (allSucceeded, s)
    | (name, plugin) :: rest =>
        if loaded plugin
        then
          let (ok, s') := CallPluginMethod name method s in
          CallAllPlugins_loop method rest (if ok then allSucceeded else false) s'
        else CallAllPlugins_loop method rest allSucceeded s
    end.

Definition CallAllPlugins (method : string) : Total bool :=
  fun s => CallAllPlugins_loop method (enumerate order (loadedPlugins s)) true s.

(** *** Cheats *)

(** The range-for of [HandleCheat]; [Ok true] is the [return true] taken
    inside the loop, [Ok false] is falling out of the loop. *)
Fixpoint HandleCheat_loop (cheatCommand : PyObject)
    (entries : list (string * PluginInfo)) : Exn bool :=
  match entries with
  | [] => ret false
  | (pluginName, plugin) :: rest =>
      match loaded plugin, instance_ptr plugin with
      | true, Some pluginObj =>
          let* has := in_python_total (hasattr pluginObj "handle_cheat") in
          if has
          then
            let* result :=
              invoke pluginName pluginObj "handle_cheat" [ArgObj cheatCommand] in
            let* claimed := in_python (cast_bool result) in
            if claimed then ret true
            else HandleCheat_loop cheatCommand rest
          else HandleCheat_loop cheatCommand rest
      | _, _ => HandleCheat_loop cheatCommand rest
      end
  end.

(** Building the [CheatCommand] object handed to the plugins. *)
Definition make_CheatCommand (cheatID : Z) (cheatText : string) : Exn PyObject :=
  let* sc4_types := in_python (module_import "sc4_types") in
  let* CheatCommand := in_python (getattr sc4_types "CheatCommand") in
  in_python (call CheatCommand []
               [("cheat_id", ArgUInt cheatID); ("text", ArgStr cheatText)]).

Definition HandleCheat (cheatID : Z) (cheatText : string) : Total bool :=
  fun s =>
    if negb (pythonInitialized s) then (false, s)
    else
      try_catch
        (let* cheatCommand := make_CheatCommand cheatID cheatText in
         fun s' => HandleCheat_loop cheatCommand (enumerate order (loadedPlugins s')) s')
        (fun e s' => (false, s'))
        s.

(** *** Generic messages *)

Fixpoint HandleMessage_loop (sc4Message : PyObject)
    (entries : list (string * PluginInfo)) : Exn unit :=
  match entries with
  | [] => ret tt
  | (pluginName, plugin) :: rest =>
      match loaded plugin, instance_ptr plugin with
      | true, Some pluginObj =>
          let* has := in_python_total (hasattr pluginObj "handle_message") in
          if has
          then
            let* result :=
              invoke pluginName pluginObj "handle_message" [ArgObj sc4Message] in
            let* handled := in_python (cast_bool result) in
            HandleMessage_loop sc4Message rest
          else HandleMessage_loop sc4Message rest
      | _, _ => HandleMessage_loop sc4Message rest
      end
  end.

(** [pMessage] is [None] for a null pointer, else its three data words. *)
Definition HandleMessage (messageType : Z) (pMessage : option (Z * Z * Z))
    : Total bool :=
  fun s =>
    if negb (pythonInitialized s) then (false, s)
    else
      try_catch
        (let* sc4_types := in_python (module_import "sc4_types") in
         let* SC4Message := in_python (getattr sc4_types "SC4Message") in
         let messageArgs :=
           ("message_type", ArgUInt messageType) ::
           match pMessage with
           | Some (d1, d2, d3) =>
               [("data1", ArgUInt d1); ("data2", ArgUInt d2); ("data3", ArgUInt d3)]
           | None => []
           end in
         let* sc4Message := in_python (call SC4Message [] messageArgs) in
         (fun s' => HandleMessage_loop sc4Message (enumerate order (loadedPlugins s')) s') ;;
         ret true)
        (fun e s' => (false, s'))
        s.

(** *** Discovery *)

(** [filename[0] == '_'] *)
Definition starts_with_underscore (filename : string) : bool :=
  match filename with
  | String c _ => Ascii.eqb c "_"
  | EmptyString => false
  end.

(** The body of the loop on one entry: the vector as the body leaves it,
    and whether the body ran to its end or threw. *)
Definition DiscoverPluginFiles_body (entry : directory_entry)
    (pluginFiles : list string) : Result unit * list string :=
  match status_throws entry with
  | Some what => (Throw what, pluginFiles)
  | None =>
      if (is_regular_file entry && String.eqb (Path.extension (path entry)) ".py")%bool
      then
        match filename_throws entry with
        | Some what => (Throw what, pluginFiles)
        | None =>
            let filename := Path.filename (path entry) in
            if negb (starts_with_underscore filename)
            then
              match string_throws entry with
              | Some what => (Throw what, pluginFiles)
              | None => (Ok tt, (pluginFiles ++ [path entry])%list)
              end
            else (Ok tt, pluginFiles)
        end
      else (Ok tt, pluginFiles)
  end.

(** The range-for: body, then the step of the iterator, entry by entry.  An
    exception leaves the loop with the vector as it stands. *)
Fixpoint DiscoverPluginFiles_loop (entries : list directory_entry)
    (pluginFiles : list string) : Result unit * list string :=
  match entries with
  | [] => (Ok tt, pluginFiles)
  | entry :: rest =>
      match DiscoverPluginFiles_body entry pluginFiles with
      | (Throw what, pluginFiles') => (Throw what, pluginFiles')
      | (Ok _, pluginFiles') =>
          match increment_throws entry with
          | Some what => (Throw what, pluginFiles')
          | None => DiscoverPluginFiles_loop rest pluginFiles'
          end
      end
  end.

(** The listing is [None] when no entry is examined at all: [exists]
    answers false, or it or the construction of the iterator throws, and
    the vector is returned empty.  The [catch] around the loop logs the
    exception and falls through to the [return]: what was gathered before
    the exception is returned. *)
Definition DiscoverPluginFiles (s : PythonManager) : list string :=
  match pluginsDirectoryListing s with
  | None => []
  | Some entries =>
      match DiscoverPluginFiles_loop entries [] with
      | (Ok _, pluginFiles) => pluginFiles
      | (Throw what, pluginFiles) => pluginFiles
      end
  end.

(** *** Loading and unloading *)

Definition LoadPlugin (filepath : string) : Total bool :=
  try_catch
    (let pluginName := Path.stem filepath in
     fun s =>
       match loadedPlugins s !! pluginName with
       | Some _ => ret true s
       | None =>
           (let* pluginModule := in_python (module_import pluginName) in
            let info := {| filepath := filepath; name := pluginName;
                           instance_ptr := None; loaded := true |} in
            update (fun s' =>
                      set_loadedPlugins (<[pluginName := info]> (loadedPlugins s')) s') ;;
            ret true) s
       end)
    (fun e s =>
       (false, SetError ("Failed to load plugin " +:+ filepath +:+ ": " +:+ e) s)).

Fixpoint LoadPlugins_loop (pluginFiles : list string) (allLoaded : bool)
    : Total bool :=
  fun s =>
    match pluginFiles with
    | [] => (allLoaded, s)
    | filepath :: rest =>
        let (ok, s') := LoadPlugin filepath s in
        LoadPlugins_loop rest (if ok then allLoaded else false) s'
    end.

(** Neither discovery nor [LoadPlugin] lets an exception out, so the
    handler around the loop has nothing to catch. *)
Definition LoadPlugins : Total bool :=
  fun s =>
    if negb (pythonInitialized s)
    then (false, SetError "Python not initialized" s)
    else LoadPlugins_loop (DiscoverPluginFiles s) true s.

Definition released (plugin : PluginInfo) : PluginInfo :=
  {| filepath := filepath plugin; name := name plugin;
     instance_ptr := None; loaded := false |}.

Fixpoint UnloadPlugins_loop (entries : list (string * PluginInfo))
    (s : PythonManager) : PythonManager :=
  match entries with
  | [] => s
  | (pluginName, plugin) :: rest =>
      match loaded plugin, instance_ptr plugin with
      | true, Some obj =>
          let (_, s1) := CallPluginMethod pluginName "shutdown" s in
          let s2 := set_py (dec_ref obj (py s1)) s1 in
          let s3 := set_loadedPlugins
                      (<[pluginName := released plugin]> (loadedPlugins s2)) s2 in
          UnloadPlugins_loop rest s3
      | _, _ => UnloadPlugins_loop rest s
      end
  end.

Definition UnloadPlugins (s : PythonManager) : PythonManager :=
  let s' := UnloadPlugins_loop (enumerate order (loadedPlugins s)) s in
  set_loadedPlugins ∅ s'.

Definition ReloadPlugins : Total bool :=
  fun s => LoadPlugins (UnloadPlugins s).

Definition UnloadPlugin (pluginName : string) (s : PythonManager) : PythonManager :=
  match loadedPlugins s !! pluginName with
  | None => s
  | Some plugin =>
      let (_, s1) := CallPluginMethod pluginName "shutdown" s in
      let s2 := match instance_ptr plugin with
                | Some obj => set_py (dec_ref obj (py s1)) s1
                | None => s1
                end in
      set_loadedPlugins (delete pluginName (loadedPlugins s2)) s2
  end.

Definition Shutdown (s : PythonManager) : PythonManager :=
  if negb (pythonInitialized s) then s
  else
    let s1 := UnloadPlugins s in
    let s2 := if interpreter s1
              then set_interpreter false (set_py (finalize_interpreter (py s1)) s1)
              else s1 in
    set_pythonInitialized false s2.

(** *** City events *)

Definition OnCityInit : Total bool :=
  fun s =>
    if negb (pythonInitialized s) then (true, s)
    else
      let s' := set_cityWrapper (UpdateCityReference (cityWrapper s)) s in
      CallAllPlugins "on_city_init" s'.

Definition OnCityShutdown : Total bool :=
  fun s =>
    if negb (pythonInitialized s) then (true, s)
    else CallAllPlugins "on_city_shutdown" s.

End ManagerDefs.

(** ** A scripted interpreter and a small host city

    Concrete instances of the two interfaces, on which the manager runs by
    computation.  A script says which modules import and what each method
    of each plugin instance does when called. *)

Module Scripted.

Inductive obj : Type :=
| Module_ (n : string)
| Member (owner attr : string)
| Instance_ (n : string)
| Bound (inst method : string)
| Value (b : bool)
| NoneObj
| Text (s : string).

Inductive behaviour : Type :=
| Returns (v : obj)
| Raises (what : string).

Record script : Type := {
  starts : bool;
  importable : string -> bool;
  methods : string -> string -> option behaviour
}.

Definition do_import (sc : script) (n : string) (k : nat) : Result obj * nat :=
  if importable sc n then (Ok (Module_ n), S k)
  else (Throw ("ModuleNotFoundError: " +:+ n), S k).

Definition do_hasattr (sc : script) (o : obj) (a : string) (k : nat) : bool * nat :=
  match o with
  | Instance_ i => (bool_decide (is_Some (methods sc i a)), k)
  | Module_ _ => (true, k)
  | _ => (false, k)
  end.

Definition do_getattr (sc : script) (o : obj) (a : string) (k : nat)
    : Result obj * nat :=
  match o with
  | Instance_ i =>
      match methods sc i a with
      | Some _ => (Ok (Bound i a), k)
      | None => (Throw ("AttributeError: " +:+ a), k)
      end
  | Module_ n => (Ok (Member n a), k)
  | _ => (Throw ("AttributeError: " +:+ a), k)
  end.

Definition do_call (sc : script) (f : obj) (args : list (PyArg obj))
    (kwargs : list (string * PyArg obj)) (k : nat) : Result obj * nat :=
  match f with
  | Bound i m =>
      match methods sc i m with
      | Some (Returns v) => (Ok v, S k)
      | Some (Raises e) => (Throw e, S k)
      | None => (Throw "TypeError: not callable", S k)
      end
  | Member n a => (Ok (Instance_ a), S k)
  | _ => (Throw "TypeError: not callable", S k)
  end.

Definition do_call_method (sc : script) (o : obj) (m : string)
    (args : list (PyArg obj)) (k : nat) : Result obj * nat :=
  match o with
  | Instance_ i =>
      match methods sc i m with
      | Some (Returns v) => (Ok v, S k)
      | Some (Raises e) => (Throw e, S k)
      | None => (Throw ("AttributeError: " +:+ m), k)
      end
  | _ => (Throw ("AttributeError: " +:+ m), k)
  end.

(** As pybind11 casts to [bool]: the two booleans and [None] convert,
    anything without a truth slot is a cast error. *)
Definition do_cast_bool (o : obj) (k : nat) : Result bool * nat :=
  match o with
  | Value b => (Ok b, k)
  | NoneObj => (Ok false, k)
  | _ => (Throw "Unable to cast Python instance to C++ type", k)
  end.

Definition python (sc : script) : Python :=
  {| PyState := nat;
     PyObject := obj;
     scoped_interpreter :=
       fun k => if starts sc then (Ok tt, S k)
                else (Throw "The interpreter is already running", k);
     finalize_interpreter := fun k => k;
     module_import := do_import sc;
     hasattr := do_hasattr sc;
     getattr := do_getattr sc;
     call := do_call sc;
     call_method := do_call_method sc;
     cast_bool := do_cast_bool;
     list_insert := fun _ _ _ k => (Ok tt, k);
     dec_ref := fun _ k => k |}.

(** A host city that is its treasury and its simulation-mode flag. *)
Definition city : SC4City :=
  {| City := Z * bool;
     city_GetCityName := fun _ => Some (Some "Testville");
     city_GetResidentialSimulator := fun _ => true;
     city_GetBudgetSimulator := fun _ => true;
     budget_GetTotalFunds := fun c => fst c;
     budget_SetTotalFunds := fun a c => (true, (a, snd c));
     budget_DepositFunds := fun a c => (true, (fst c + a, snd c)%Z);
     budget_WithdrawFunds := fun a c => (true, (fst c - a, snd c)%Z);
     city_IsInCityTimeSimulationMode := fun c => snd c;
     city_ToggleSimulationMode := fun c => (fst c, negb (snd c));
     city_GetBirthDate := fun _ => 2000%Z;
     city_Get24HourClock := fun _ => true;
     city_GetPowerSimulator := fun _ => true;
     city_GetPlumbingSimulator := fun _ => true |}.

(** The container's order taken to be the order of [map_to_list]. *)
Definition order : BucketOrder :=
  {| enumerate := fun V m => map_to_list m;
     enumerate_perm := fun V m => reflexivity (map_to_list m) |}.

(** A fresh manager in a process running script [sc]. *)
Definition manager (sc : script) (listing : option (list directory_entry))
    : @PythonManager (python sc) city :=
  @new_PythonManager (python sc) city 0 "C:\SC4\PythonScripts" listing.

End Scripted.

(** ** The logger (src/cpp/utils/Logger.cpp) *)

Module Logger.

(** [spdlog::level::level_enum], in increasing severity. *)
Inductive level : Type := trace | debug | info | warn | err | critical | off.

Definition rank (l : level) : nat :=
  match l with
  | trace => 0 | debug => 1 | info => 2 | warn => 3
  | err => 4 | critical => 5 | off => 6
  end.

Inductive sink : Type :=
| msvc_sink
| basic_file_sink (filename : string).

(** A [spdlog::logger]; a fresh one logs from [info] up, with the default
    pattern, and never flushes on its own. *)
Record logger : Type := {
  name : string;
  sinks : list sink;
  log_level : level;
  pattern : option string;
  flush_level : level
}.

Definition new_logger (n : string) (ss : list sink) : logger :=
  {| name := n; sinks := ss; log_level := info; pattern := None; flush_level := off |}.

Definition set_level (l : level) (lg : logger) : logger :=
  {| name := name lg; sinks := sinks lg; log_level := l;
     pattern := pattern lg; flush_level := flush_level lg |}.

Definition set_pattern (p : string) (lg : logger) : logger :=
  {| name := name lg; sinks := sinks lg; log_level := log_level lg;
     pattern := Some p; flush_level := flush_level lg |}.

Definition flush_on (l : level) (lg : logger) : logger :=
  {| name := name lg; sinks := sinks lg; log_level := log_level lg;
     pattern := pattern lg; flush_level := l |}.

(** What the process offers the logger: the environment variable, the two
    file-system operations that may throw, and the joining of paths. *)
Record platform : Type := {
  USERPROFILE : option string;
  create_directories : string -> Result unit;
  open_log_file : string -> Result unit;
  join : string -> string -> string
}.

(** The two static members, and every line handed to the sinks so far: the
    sinks it went to, its level and its text. *)
Record state : Type := {
  s_logger : option logger;
  s_initialized : bool;
  written : list (list sink * level * string)
}.

Definition initial : state :=
  {| s_logger := None; s_initialized := false; written := [] |}.

(** [lg->log(l, text)]: dropped below the logger's level. *)
Definition log (lg : logger) (l : level) (text : string)
    (w : list (list sink * level * string)) : list (list sink * level * string) :=
  if (rank (log_level lg) <=? rank l)%nat then (w ++ [(sinks lg, l, text)])%list else w.

Definition log_directory (env : platform) (userProfile : string) : string :=
  join env (join env userProfile "Documents") "SimCity 4".

Definition log_path (env : platform) (userProfile : string) : string :=
  join env (log_directory env userProfile) "SC4PythonFramework.log".

(** The sinks built in the [try] block, or the exception that ended it. *)
Definition build_sinks (env : platform) (userProfile : string) : Result (list sink) :=
  if String.eqb userProfile EmptyString then Ok [msvc_sink]
  else
    match create_directories env (log_directory env userProfile) with
    | Throw e => Throw e
    | Ok _ =>
        match open_log_file env (log_path env userProfile) with
        | Throw e => Throw e
        | Ok _ => Ok [msvc_sink; basic_file_sink (log_path env userProfile)]
        end
    end.

Definition Initialize (env : platform) (st : state) : state :=
  if (s_initialized st && bool_decide (is_Some (s_logger st)))%bool then st
  else
    let userProfile := match USERPROFILE env with
                       | Some value => value
                       | None => EmptyString
                       end in
    match build_sinks env userProfile with
    | Ok ss =>
        let lg := flush_on debug
                    (set_pattern "[%Y-%m-%d %H:%M:%S.%e] [%n] [%l] %v"
                       (set_level debug (new_logger "SC4PythonFramework" ss))) in
        let w1 := log lg info "SC4PythonFramework logger initialized" (written st) in
        let w2 := if String.eqb userProfile EmptyString then w1
                  else log lg info ("Logging to file: " +:+ log_path env userProfile) w1 in
        {| s_logger := Some lg; s_initialized := true; written := w2 |}
    | Throw e =>
        let lg := set_level debug (new_logger "SC4PythonFramework" [msvc_sink]) in
        {| s_logger := Some lg; s_initialized := true;
           written := log lg err ("Failed to initialize file logging: " +:+ e)
                        (written st) |}
    end.

Definition Get (env : platform) (st : state) : option logger * state :=
  let st' := if negb (s_initialized st) then Initialize env st else st in
  (s_logger st', st').

Definition Shutdown (st : state) : state :=
  match s_logger st with
  | Some lg =>
      {| s_logger := None; s_initialized := false;
         written := log lg info "SC4PythonFramework logger shutting down" (written st) |}
  | None =>
      {| s_logger := None; s_initialized := false; written := written st |}
  end.

(** [LOG_INFO(text)] and its siblings: [Logger::Get()->log(l, text)].  The
    result is [None] when [Get] hands back a null pointer, which the macro
    dereferences. *)
Definition LOG (l : level) (text : string) (env : platform) (st : state)
    : option state :=
  match Get env st with
  | (Some lg, st') =>
      Some {| s_logger := s_logger st'; s_initialized := s_initialized st';
              written := log lg l text (written st') |}
  | (None, _) => None
  end.

(** [sc4_native.log_message(message, level)] *)
Definition log_message (message : string) (lvl : Z) (env : platform) (st : state)
    : state :=
  match Get env st with
  | (None, st') => st'
  | (Some lg, st') =>
      let l := if (lvl =? 0)%Z then debug
               else if (lvl =? 1)%Z then info
               else if (lvl =? 2)%Z then warn
               else if (lvl =? 3)%Z then err
               else if (lvl =? 4)%Z then critical
               else info in
      {| s_logger := s_logger st'; s_initialized := s_initialized st';
         written := log lg l message (written st') |}
  end.

End Logger.

(** ** The director (the host-facing object that owns the manager)

    [PythonFrameworkDllDirector] as the framework drives it: [OnStart], the
    application hooks and [DoMessage].  Its log lines are left out; they
    do not reach the manager. *)

(** A [cIGZMessage2Standard] as the director reads it: its type, its first
    data word, and its second pointer taken as a [cIGZString*] ([None] for a
    null pointer, [Some None] for a string whose [ToChar()] is null). *)
Record message : Type := {
  msg_type : Z;
  msg_data1 : Z;
  msg_void2 : option (option string)
}.

Definition kGZMSG_CheatIssued : Z := 0x230e27ac.
Definition kMsgCityInit : Z := 0x26C63345.
Definition kMsgCityShutdown : Z := 0x26C63346.

Section DirectorDefs.
Context {python : Python} {host : SC4City}.
Variable order : BucketOrder.

(** The director holds the manager once [OnStart] has made it.  Until then
    the interpreter state and the scripts directory are the process's own;
    the manager carries them from its creation on. *)
Record Director : Type := {
  pythonManager : option PythonManager;
  process_py : PyState;
  process_directory : string;
  process_listing : option (list directory_entry);
  hooks : nat                       (* calls of [mpFrameWork->AddHook(this)] *)
}.

Definition set_pythonManager (m : option PythonManager) (d : Director) : Director :=
  {| pythonManager := m; process_py := process_py d;
     process_directory := process_directory d;
     process_listing := process_listing d; hooks := hooks d |}.

(** [pythonManager = std::make_unique<PythonManager>()]: a manager already
    held is destroyed by the assignment.  Its destructor shuts it down, and
    the destruction of its members releases the interpreter if a failed
    start-up has left one with it. *)
Definition OnStart (d : Director) : bool * Director :=
  let fresh :=
    match pythonManager d with
    | Some old =>
        let old' := Shutdown order old in
        let σ := if interpreter old' then finalize_interpreter (py old')
                 else py old' in
        new_PythonManager σ (pluginsDirectory old') (pluginsDirectoryListing old')
    | None =>
        new_PythonManager (process_py d) (process_directory d) (process_listing d)
    end in
  (true, {| pythonManager := Some fresh; process_py := process_py d;
            process_directory := process_directory d;
            process_listing := process_listing d; hooks := S (hooks d) |}).

Definition PreAppInit (d : Director) : bool * Director := (true, d).

Definition PostAppInit (d : Director) : bool * Director :=
  match pythonManager d with
  | None => (false, d)
  | Some m =>
      let (ok, m1) := Initialize m in
      if negb ok then (false, set_pythonManager (Some m1) d)
      else
        let (result, m2) := LoadPlugins m1 in
        (result, set_pythonManager (Some m2) d)
  end.

Definition PreAppShutdown (d : Director) : bool * Director :=
  match pythonManager d with
  | Some m => (true, set_pythonManager (Some (UnloadPlugins order m)) d)
  | None => (true, d)
  end.

Definition PostAppShutdown (d : Director) : bool * Director :=
  match pythonManager d with
  | Some m => (true, set_pythonManager (Some (Shutdown order m)) d)
  | None => (true, d)
  end.

Definition ProcessCheat (dwCheatID : Z) (szCheatText : option (option string))
    (d : Director) : bool * Director :=
  match pythonManager d with
  | None => (false, d)
  | Some m =>
      let cheatText := match szCheatText with
                       | Some (Some chars) => chars
                       | _ => EmptyString
                       end in
      let (r, m') := HandleCheat order dwCheatID cheatText m in
      (r, set_pythonManager (Some m') d)
  end.

(** [pMessage] is [None] for a null pointer.  A cheat message is taken to
    be a [cIGZMessage2Standard], as the framework sends it, so the
    [dynamic_cast] yields the message itself. *)
Definition DoMessage (pMessage : option message) (d : Director) : bool * Director :=
  match pMessage with
  | None => (false, d)
  | Some msg =>
      if (msg_type msg =? kGZMSG_CheatIssued)%Z
      then (true, snd (ProcessCheat (msg_data1 msg) (msg_void2 msg) d))
      else if (msg_type msg =? kMsgCityInit)%Z
      then match pythonManager d with
           | Some m => (true, set_pythonManager (Some (snd (OnCityInit order m))) d)
           | None => (true, d)
           end
      else if (msg_type msg =? kMsgCityShutdown)%Z
      then match pythonManager d with
           | Some m => (true, set_pythonManager (Some (snd (OnCityShutdown order m))) d)
           | None => (true, d)
           end
      else (true, d)
  end.

End DirectorDefs.

(** * Properties *)

(** ** Paths *)

Example filename_ex : Path.filename "C:\SC4\PythonScripts\alpha.py" = "alpha.py".
Proof. reflexivity. Qed.

Example extension_ex : Path.extension "C:\SC4\PythonScripts\alpha.py" = ".py".
Proof. reflexivity. Qed.

Example extension_hidden : Path.extension "dir/.py" = EmptyString.
Proof. reflexivity. Qed.

Example stem_ex : Path.stem "C:\SC4\PythonScripts\my.plugin.py" = "my.plugin".
Proof. reflexivity. Qed.

Lemma from_last_dot_suffix s e :
  Path.from_last_dot s = Some e -> exists pre, s = pre +:+ e.
Proof.
  revert e. induction s as [|c r IH]; intros e; simpl; [discriminate|].
  destruct (Path.from_last_dot r) as [e'|] eqn:E.
  - intros [= <-]. destruct (IH e' eq_refl) as [pre ->]. by exists (String c pre).
  - destruct (Ascii.eqb c "."); [|discriminate]. intros [= <-]. by exists EmptyString.
Qed.

Lemma from_last_dot_py pre : Path.from_last_dot (pre +:+ ".py") = Some ".py".
Proof. induction pre as [|c r IH]; [reflexivity|]. simpl. by rewrite IH. Qed.

(** A file name has extension [.py] exactly when it is a non-empty stem
    followed by [.py]. *)
Lemma extension_of_name_py f :
  Path.extension_of_name f = ".py" <->
  exists c stem, f = String c stem +:+ ".py".
Proof.
  unfold Path.extension_of_name. split.
  - destruct (_ || _)%bool; [discriminate|].
    destruct f as [|c r]; [discriminate|].
    destruct (Path.from_last_dot r) as [e|] eqn:E; [|discriminate].
    intros ->. apply from_last_dot_suffix in E as [pre ->]. by exists c, pre.
  - intros (c & stem & ->).
    replace (String.eqb (String c stem +:+ ".py") "."
             || String.eqb (String c stem +:+ ".py") "..")%bool with false.
    + simpl. by rewrite from_last_dot_py.
    + symmetry. apply orb_false_iff. split; apply String.eqb_neq.
      * destruct stem; simpl; discriminate.
      * destruct stem as [|? [|]]; simpl; discriminate.
Qed.

(** ** Discovery *)

(** What makes a directory entry a plugin source. *)
Definition plugin_source (e : directory_entry) : Prop :=
  is_regular_file e = true /\
  Path.extension (path e) = ".py" /\
  forall rest, Path.filename (path e) <> String "_" rest.

Lemma starts_with_underscore_spec f :
  starts_with_underscore f = true <-> exists rest, f = String "_" rest.
Proof.
  destruct f as [|c r]; simpl.
  - split; [discriminate | intros [? ?]; discriminate].
  - rewrite Ascii.eqb_eq. split.
    + intros ->. eauto.
    + intros [rest Hr]. congruence.
Qed.

Lemma plugin_source_test e :
  plugin_source e <->
  (is_regular_file e && String.eqb (Path.extension (path e)) ".py"
   && negb (starts_with_underscore (Path.filename (path e))))%bool = true.
Proof.
  unfold plugin_source.
  rewrite !andb_true_iff, String.eqb_eq, negb_true_iff.
  split.
  - intros (Hr & He & Hu). repeat split; try assumption.
    destruct (starts_with_underscore _) eqn:E; [|reflexivity].
    apply starts_with_underscore_spec in E as [rest E]. by destruct (Hu rest).
  - intros ((Hr & He) & Hu). repeat split; try assumption.
    intros rest E.
    assert (starts_with_underscore (Path.filename (path e)) = true) as Ht
      by (apply starts_with_underscore_spec; eauto).
    congruence.
Qed.

#[local] Instance plugin_source_dec e : Decision (plugin_source e).
Proof.
  refine (cast_if (decide ((is_regular_file e
            && String.eqb (Path.extension (path e)) ".py"
            && negb (starts_with_underscore (Path.filename (path e))))%bool = true)));
    by rewrite plugin_source_test.
Defined.

(** Every query the body of the loop makes of the entry answers.  The
    file name is converted only for a regular file with the extension, the
    whole path only for a plugin source. *)
Definition answers (e : directory_entry) : Prop :=
  status_throws e = None /\
  (is_regular_file e = true -> Path.extension (path e) = ".py" ->
   filename_throws e = None) /\
  (plugin_source e -> string_throws e = None).

(** The loop gets past the entry. *)
Definition calm (e : directory_entry) : Prop :=
  answers e /\ increment_throws e = None.

Lemma plain_entry_calm p regular : calm (plain_entry p regular).
Proof. by repeat split. Qed.

Lemma DiscoverPluginFiles_body_answers e acc :
  answers e ->
  DiscoverPluginFiles_body e acc
  = (Ok tt, (acc ++ map path (filter plugin_source [e]))%list).
Proof.
  intros (Hs & Hf & Hp). unfold DiscoverPluginFiles_body. rewrite Hs.
  rewrite filter_cons, filter_nil.
  destruct (decide (plugin_source e)) as [Hsrc|Hsrc].
  - apply plugin_source_test in Hsrc as Hb.
    apply andb_true_iff in Hb as [Hb Hu]. rewrite Hb, Hu.
    rewrite (Hp Hsrc). destruct Hsrc as (Hr & Hx & _). by rewrite (Hf Hr Hx).
  - simpl. rewrite app_nil_r.
    destruct (is_regular_file e && _)%bool eqn:Hb; [|reflexivity].
    apply andb_true_iff in Hb as [Hr Hx]. apply String.eqb_eq in Hx.
    rewrite (Hf Hr Hx).
    destruct (negb _) eqn:Hu; [|reflexivity].
    exfalso. apply Hsrc, plugin_source_test. rewrite Hr, Hu.
    by rewrite (proj2 (String.eqb_eq _ _) Hx).
Qed.

Lemma DiscoverPluginFiles_body_throws e acc :
  ~ answers e ->
  exists what, DiscoverPluginFiles_body e acc = (Throw what, acc).
Proof.
  intros Hn. unfold DiscoverPluginFiles_body.
  destruct (status_throws e) as [what|] eqn:Hs; [eauto|].
  destruct (is_regular_file e && _)%bool eqn:Hb.
  - destruct (filename_throws e) as [what|] eqn:Hf; [eauto|].
    destruct (negb _) eqn:Hu.
    + destruct (string_throws e) as [what|] eqn:Hp; [eauto|].
      destruct Hn. by repeat split.
    + destruct Hn. split; [done|]. split; [done|].
      intros Hsrc. apply plugin_source_test in Hsrc.
      rewrite Hb, Hu in Hsrc. discriminate.
  - destruct Hn. split; [done|]. split.
    + intros Hr Hx. rewrite Hr, (proj2 (String.eqb_eq _ _) Hx) in Hb. discriminate.
    + intros Hsrc. apply plugin_source_test in Hsrc.
      rewrite Hb in Hsrc. discriminate.
Qed.

(** The loop over entries it gets past. *)
Lemma DiscoverPluginFiles_loop_calm pre rest acc :
  Forall calm pre ->
  DiscoverPluginFiles_loop (pre ++ rest) acc
  = DiscoverPluginFiles_loop rest (acc ++ map path (filter plugin_source pre))%list.
Proof.
  intros Hc. revert acc. induction Hc as [|e pre [Ha Hi] _ IH]; intros acc.
  - simpl. by rewrite app_nil_r.
  - cbn [app DiscoverPluginFiles_loop].
    rewrite (DiscoverPluginFiles_body_answers e acc Ha), Hi, IH.
    change (e :: pre) with ([e] ++ pre)%list.
    by rewrite filter_app, map_app, app_assoc.
Qed.

(** Whatever the loop returns was put there for a plugin source. *)
Lemma DiscoverPluginFiles_loop_sound entries acc p :
  p ∈ snd (DiscoverPluginFiles_loop entries acc) ->
  p ∈ acc \/ exists e, e ∈ entries /\ plugin_source e /\ path e = p.
Proof.
  revert acc. induction entries as [|e rest IH]; intros acc; [by left|].
  cbn [DiscoverPluginFiles_loop].
  assert (forall q, q ∈ snd (DiscoverPluginFiles_body e acc) ->
            q ∈ acc \/ (plugin_source e /\ path e = q)) as Hbody.
  { intros q. unfold DiscoverPluginFiles_body.
    destruct (status_throws e); [by left|].
    destruct (is_regular_file e && _)%bool eqn:Hb; [|by left].
    destruct (filename_throws e); [by left|].
    destruct (negb _) eqn:Hu; [|by left].
    destruct (string_throws e); [by left|]. simpl.
    intros [Hq|Hq%list_elem_of_singleton]%elem_of_app; [by left|].
    right. split; [|done]. apply plugin_source_test. by rewrite Hb, Hu. }
  assert (forall q, (q ∈ snd (DiscoverPluginFiles_body e acc) \/
                     exists e', e' ∈ rest /\ plugin_source e' /\ path e' = q) ->
            q ∈ acc \/ exists e', e' ∈ e :: rest /\ plugin_source e' /\ path e' = q)
    as Hlift.
  { intros q [Hq|(e' & Hin & Hsrc & Hq)].
    - destruct (Hbody q Hq) as [?|[? ?]]; [by left|].
      right. exists e. split; [apply elem_of_cons; by left | done].
    - right. exists e'. split; [apply elem_of_cons; by right | done]. }
  destruct (DiscoverPluginFiles_body e acc) as [[[]|what] acc'].
  - destruct (increment_throws e).
    + intros Hp. apply Hlift. by left.
    + intros Hp. apply Hlift. apply IH in Hp. exact Hp.
  - intros Hp. apply Hlift. by left.
Qed.

Section Discovery.
Context {python : Python} {host : SC4City}.

(** C8, as the code has it. For every listing of the plugin directory whose
    entries the loop gets past, [DiscoverPluginFiles] yields, in listing
    order, the paths of exactly those entries that are regular files, have
    extension [.py] and whose file name does not begin with an underscore;
    any other entry is left out.  When a query of an entry throws,
    [DiscoverPluginFiles] yields the plugin sources among the entries
    before it and none of those after it; when the step of the iterator
    past an entry throws, the plugin sources up to that entry. *)
Theorem DiscoverPluginFiles_exact (s : PythonManager) (listing : list directory_entry) :
  pluginsDirectoryListing s = Some listing ->
  (Forall calm listing ->
   DiscoverPluginFiles s = map path (filter plugin_source listing) /\
   (forall p, p ∈ DiscoverPluginFiles s <->
              exists e, e ∈ listing /\ path e = p /\
                        is_regular_file e = true /\
                        Path.extension p = ".py" /\
                        forall rest, Path.filename p <> String "_" rest)) /\
  (forall pre e post,
     listing = (pre ++ e :: post)%list -> Forall calm pre -> ~ answers e ->
     DiscoverPluginFiles s = map path (filter plugin_source pre)) /\
  (forall pre e post,
     listing = (pre ++ e :: post)%list -> Forall calm pre -> answers e ->
     increment_throws e <> None ->
     DiscoverPluginFiles s = map path (filter plugin_source (pre ++ [e])%list)).
Proof.
  intros Hl. unfold DiscoverPluginFiles. rewrite Hl. split; [|split].
  - intros Hc.
    assert (DiscoverPluginFiles_loop listing []
            = (Ok tt, map path (filter plugin_source listing))) as ->.
    { rewrite <- (app_nil_r listing) at 1.
      by rewrite (DiscoverPluginFiles_loop_calm listing [] [] Hc). }
    split; [reflexivity|].
    intros p. rewrite list_elem_of_fmap. split.
    + intros (e & -> & He). apply list_elem_of_filter in He as [(Hr & Hx & Hu) Hin].
      exists e. by repeat split.
    + intros (e & Hin & <- & Hr & Hx & Hu). exists e. split; [reflexivity|].
      apply list_elem_of_filter. by repeat split.
  - intros pre e post -> Hc Hn.
    rewrite (DiscoverPluginFiles_loop_calm pre (e :: post) [] Hc).
    cbn [DiscoverPluginFiles_loop app].
    by destruct (DiscoverPluginFiles_body_throws e (map path (filter plugin_source pre)) Hn)
      as [what ->].
  - intros pre e post -> Hc Ha Hi.
    rewrite (DiscoverPluginFiles_loop_calm pre (e :: post) [] Hc).
    cbn [DiscoverPluginFiles_loop app].
    rewrite (DiscoverPluginFiles_body_answers e (map path (filter plugin_source pre)) Ha).
    destruct (increment_throws e); [|done].
    by rewrite filter_app, map_app.
Qed.

End Discovery.

(** The scenario of the design document: one plugin, one private module,
    one file of another kind. *)
Definition scenario_listing : list directory_entry :=
  [ plain_entry "C:\SC4\PythonScripts\alpha.py" true;
    plain_entry "C:\SC4\PythonScripts\_private.py" true;
    plain_entry "C:\SC4\PythonScripts\beta.txt" true;
    plain_entry "C:\SC4\PythonScripts\pkg.py" false ].

Definition idle_script : Scripted.script :=
  {| Scripted.starts := true;
     Scripted.importable := fun _ => true;
     Scripted.methods := fun _ _ => None |}.

(** The status of [locked.py] cannot be read. *)
Definition guarded_listing : list directory_entry :=
  [ plain_entry "C:\SC4\PythonScripts\alpha.py" true;
    {| path := "C:\SC4\PythonScripts\locked.py"; is_regular_file := false;
       status_throws := Some "status: Access is denied";
       filename_throws := None; string_throws := None; increment_throws := None |};
    plain_entry "C:\SC4\PythonScripts\gamma.py" true ].

(** The directory cannot be read past its first entry. *)
Definition cut_listing : list directory_entry :=
  [ {| path := "C:\SC4\PythonScripts\alpha.py"; is_regular_file := true;
       status_throws := None; filename_throws := None; string_throws := None;
       increment_throws := Some "directory_iterator::operator++: The device is not ready" |};
    plain_entry "C:\SC4\PythonScripts\gamma.py" true ].

Lemma DiscoverPluginFiles_exact_witness :
  (Forall calm scenario_listing /\
   DiscoverPluginFiles (Scripted.manager idle_script (Some scenario_listing))
   = ["C:\SC4\PythonScripts\alpha.py"]) /\
  DiscoverPluginFiles (Scripted.manager idle_script (Some guarded_listing))
  = ["C:\SC4\PythonScripts\alpha.py"] /\
  DiscoverPluginFiles (Scripted.manager idle_script (Some cut_listing))
  = ["C:\SC4\PythonScripts\alpha.py"].
Proof.
  assert (Forall calm scenario_listing) as Hcalm
    by (repeat constructor; apply plain_entry_calm).
  split; [split; [exact Hcalm|]|split].
  - rewrite (proj1 (proj1 (DiscoverPluginFiles_exact
                             (Scripted.manager idle_script (Some scenario_listing))
                             scenario_listing eq_refl) Hcalm)).
    reflexivity.
  - rewrite (proj1 (proj2 (DiscoverPluginFiles_exact
                             (Scripted.manager idle_script (Some guarded_listing))
                             guarded_listing eq_refl))
               [plain_entry "C:\SC4\PythonScripts\alpha.py" true] _
               [plain_entry "C:\SC4\PythonScripts\gamma.py" true] eq_refl).
    + reflexivity.
    + repeat constructor; apply plain_entry_calm.
    + intros [Hs _]. discriminate Hs.
  - rewrite (proj2 (proj2 (DiscoverPluginFiles_exact
                             (Scripted.manager idle_script (Some cut_listing))
                             cut_listing eq_refl))
               [] _ [plain_entry "C:\SC4\PythonScripts\gamma.py" true] eq_refl).
    + reflexivity.
    + constructor.
    + by repeat split.
    + discriminate.
Defined.

(** A plugin whose name has no narrow spelling ends the discovery when its
    name is converted; a directory of such a name is passed over, since the
    name of an entry that is not a regular file is never converted. *)
Example DiscoverPluginFiles_unconvertible_name :
  let odd (regular : bool) :=
    {| path := "C:\SC4\PythonScripts\caf?.py"; is_regular_file := regular;
       status_throws := None;
       filename_throws := Some "No mapping for the Unicode character exists";
       string_throws := Some "No mapping for the Unicode character exists";
       increment_throws := None |} in
  let gamma := plain_entry "C:\SC4\PythonScripts\gamma.py" true in
  DiscoverPluginFiles (Scripted.manager idle_script (Some [odd true; gamma])) = [] /\
  DiscoverPluginFiles (Scripted.manager idle_script (Some [odd false; gamma]))
  = ["C:\SC4\PythonScripts\gamma.py"].
Proof. split; reflexivity. Qed.

(** C8 as stated fails: [gamma.py] is a regular file with the extension and
    no leading underscore, and it is not discovered, because the status of
    the entry listed before it cannot be read. *)
Lemma DiscoverPluginFiles_stops_at_throwing_entry :
  let s := Scripted.manager idle_script (Some guarded_listing) in
  let gamma := plain_entry "C:\SC4\PythonScripts\gamma.py" true in
  pluginsDirectoryListing s = Some guarded_listing /\
  gamma ∈ guarded_listing /\
  is_regular_file gamma = true /\
  Path.extension (path gamma) = ".py" /\
  (forall rest, Path.filename (path gamma) <> String "_" rest) /\
  (path gamma ∉ DiscoverPluginFiles s) /\
  DiscoverPluginFiles s <> map path (filter plugin_source guarded_listing).
Proof.
  intros s gamma.
  assert (DiscoverPluginFiles s = ["C:\SC4\PythonScripts\alpha.py"]) as Hd
    by (vm_compute; reflexivity).
  split; [reflexivity|]. split.
  { unfold guarded_listing. apply elem_of_cons. right. apply elem_of_cons. right.
    apply elem_of_cons. by left. }
  split; [reflexivity|]. split; [reflexivity|]. split.
  { intros rest. vm_compute. discriminate. }
  rewrite Hd. split.
  - intros Hin. apply list_elem_of_singleton in Hin. discriminate Hin.
  - assert (map path (filter plugin_source guarded_listing)
            = ["C:\SC4\PythonScripts\alpha.py"; "C:\SC4\PythonScripts\gamma.py"]) as ->
      by reflexivity.
    discriminate.
Qed.

(** ** The city facade *)

Section CityWrapperProps.
Context {host : SC4City}.

Lemma IsValid_false (w : CityWrapper) : IsValid w = false <-> city w = None.
Proof. unfold IsValid. destruct (city w); split; congruence. Qed.

(** C10. With no city attached ([IsValid] is false) the getters return
    their neutral defaults: the empty name, zero population, money, date
    and time, and no mayor mode; and each of [SetCityMoney],
    [AddCityMoney] and [SetMayorMode] returns false and leaves the
    wrapper, and with it the host, as it was.  No operation of the host
    city is applied. *)
Theorem CityWrapper_invalid_defaults (w : CityWrapper) :
  IsValid w = false ->
  GetCityName w = EmptyString /\
  GetCityPopulation w = 0%Z /\
  GetCityMoney w = 0%Z /\
  GetCityDate w = 0%Z /\
  GetCityTime w = 0%Z /\
  GetMayorMode w = false /\
  (forall amount, SetCityMoney amount w = (false, w)) /\
  (forall amount, AddCityMoney amount w = (false, w)) /\
  (forall enabled, SetMayorMode enabled w = (false, w)).
Proof.
  intros Hv. apply IsValid_false in Hv.
  unfold GetCityName, GetCityPopulation, GetCityMoney, GetCityDate,
    GetCityTime, GetMayorMode, SetCityMoney, AddCityMoney, SetMayorMode.
  rewrite Hv. repeat split.
Qed.

(** The statistics snapshot of a wrapper without a city is all zeros once
    the cache has been invalidated. *)
Lemma GetCityStats_invalid (w : CityWrapper) :
  IsValid w = false -> statsCacheValid w = false ->
  fst (GetCityStats w) = zero_stats.
Proof.
  intros Hv Hc. apply IsValid_false in Hv.
  unfold GetCityStats, UpdateStatsCache. by rewrite Hc, Hv.
Qed.

(** The wrapper starts without a city, and no method attaches one. *)
Lemma new_CityWrapper_invalid : IsValid new_CityWrapper = false.
Proof. reflexivity. Qed.

Lemma UpdateCityReference_city (w : CityWrapper) :
  city (UpdateCityReference w) = city w.
Proof. reflexivity. Qed.

End CityWrapperProps.

Lemma CityWrapper_invalid_defaults_witness :
  IsValid (@new_CityWrapper Scripted.city) = false /\
  GetCityMoney (@new_CityWrapper Scripted.city) = 0%Z /\
  SetCityMoney 5000 (@new_CityWrapper Scripted.city)
  = (false, @new_CityWrapper Scripted.city).
Proof.
  pose proof (CityWrapper_invalid_defaults (@new_CityWrapper Scripted.city) eq_refl)
    as (_ & _ & Hm & _ & _ & _ & Hs & _).
  split; [reflexivity|]. split; [exact Hm | exact (Hs 5000%Z)].
Defined.

(** With a city attached the same calls reach the host. *)
Example SetCityMoney_valid :
  SetCityMoney 5000 (with_city (host := Scripted.city) (100%Z, false) new_CityWrapper)
  = (true, with_city (host := Scripted.city) (5000%Z, false) new_CityWrapper).
Proof. reflexivity. Qed.

Ltac exn_unfold :=
  unfold try_catch, no_throw, invoke, record_invocation, update,
    in_python_total, in_python, bind, ret; simpl.

(** ** Loading and unloading *)

Section Loading.
Context {python : Python} {host : SC4City}.
Variable order : BucketOrder.

(** The entry [LoadPlugin] records for a module that imported. *)
Definition fresh_entry (filepath : string) : PluginInfo :=
  {| filepath := filepath; name := Path.stem filepath;
     instance_ptr := None; loaded := true |}.

Lemma LoadPlugin_present filepath s e :
  loadedPlugins s !! Path.stem filepath = Some e ->
  LoadPlugin filepath s = (true, s).
Proof. intros He. unfold LoadPlugin. exn_unfold. by rewrite He. Qed.

Lemma LoadPlugin_imported filepath s pluginModule σ :
  loadedPlugins s !! Path.stem filepath = None ->
  module_import (Path.stem filepath) (py s) = (Ok pluginModule, σ) ->
  LoadPlugin filepath s
  = (true, set_loadedPlugins
             (<[Path.stem filepath := fresh_entry filepath]> (loadedPlugins s))
             (set_py σ s)).
Proof. intros Hn Hi. unfold LoadPlugin. exn_unfold. by rewrite Hn, Hi. Qed.

Lemma LoadPlugin_raised filepath s what σ :
  loadedPlugins s !! Path.stem filepath = None ->
  module_import (Path.stem filepath) (py s) = (Throw what, σ) ->
  LoadPlugin filepath s
  = (false, SetError ("Failed to load plugin " +:+ filepath +:+ ": " +:+ what)
              (set_py σ s)).
Proof. intros Hn Hi. unfold LoadPlugin. exn_unfold. by rewrite Hn, Hi. Qed.

(** The registry after [LoadPlugin]: as before, or with the one new entry. *)
Lemma LoadPlugin_registry filepath s :
  (fst (LoadPlugin filepath s) = true /\
   is_Some (loadedPlugins s !! Path.stem filepath) /\
   loadedPlugins (snd (LoadPlugin filepath s)) = loadedPlugins s) \/
  (fst (LoadPlugin filepath s) = true /\
   loadedPlugins s !! Path.stem filepath = None /\
   loadedPlugins (snd (LoadPlugin filepath s))
   = <[Path.stem filepath := fresh_entry filepath]> (loadedPlugins s)) \/
  (fst (LoadPlugin filepath s) = false /\
   loadedPlugins s !! Path.stem filepath = None /\
   loadedPlugins (snd (LoadPlugin filepath s)) = loadedPlugins s).
Proof.
  destruct (loadedPlugins s !! Path.stem filepath) as [e|] eqn:He.
  - left. rewrite (LoadPlugin_present _ _ _ He). eauto.
  - right. destruct (module_import (Path.stem filepath) (py s)) as [[pm|what] σ] eqn:Hi.
    + left. by rewrite (LoadPlugin_imported _ _ _ _ He Hi).
    + right. by rewrite (LoadPlugin_raised _ _ _ _ He Hi).
Qed.

Lemma LoadPlugin_keeps filepath s n :
  is_Some (loadedPlugins s !! n) ->
  is_Some (loadedPlugins (snd (LoadPlugin filepath s)) !! n).
Proof.
  intros Hn.
  destruct (LoadPlugin_registry filepath s) as [(_ & _ & ->)|[(_ & _ & ->)|(_ & _ & ->)]];
    try done.
  rewrite lookup_insert. case_decide; [by eexists | done].
Qed.

Lemma LoadPlugin_true_registered filepath s :
  fst (LoadPlugin filepath s) = true ->
  is_Some (loadedPlugins (snd (LoadPlugin filepath s)) !! Path.stem filepath).
Proof.
  destruct (LoadPlugin_registry filepath s)
    as [(_ & Hs & ->)|[(_ & _ & ->)|(Hf & _ & _)]]; intros Ht.
  - done.
  - rewrite lookup_insert_eq. by eexists.
  - congruence.
Qed.

Lemma LoadPlugin_dom filepath s :
  dom (loadedPlugins (snd (LoadPlugin filepath s)))
  ⊆ dom (loadedPlugins s) ∪ {[Path.stem filepath]}.
Proof.
  destruct (LoadPlugin_registry filepath s) as [(_ & _ & ->)|[(_ & _ & ->)|(_ & _ & ->)]].
  - apply union_subseteq_l.
  - rewrite dom_insert_L, (comm_L (∪)). reflexivity.
  - apply union_subseteq_l.
Qed.

Lemma LoadPlugin_initialized filepath s :
  pythonInitialized (snd (LoadPlugin filepath s)) = pythonInitialized s.
Proof.
  unfold LoadPlugin. exn_unfold.
  destruct (loadedPlugins s !! Path.stem filepath); [done|].
  by destruct (module_import _ _) as [[] ?].
Qed.

(** The state the loading pass has reached after the files [done]. *)
Definition loaded_through (done : list string) (s : PythonManager) : PythonManager :=
  fold_left (fun st filepath => snd (LoadPlugin filepath st)) done s.

Lemma LoadPlugins_loop_spec files allLoaded s :
  snd (LoadPlugins_loop files allLoaded s) = loaded_through files s /\
  (fst (LoadPlugins_loop files allLoaded s) = true <->
   allLoaded = true /\
   forall pre filepath post, files = (pre ++ filepath :: post)%list ->
     fst (LoadPlugin filepath (loaded_through pre s)) = true).
Proof.
  revert allLoaded s. induction files as [|f rest IH]; intros allLoaded s; simpl.
  - split; [done|]. split.
    + intros ->. split; [done|]. intros [|? ?] ? ? ?; discriminate.
    + by intros [-> _].
  - destruct (LoadPlugin f s) as [ok s'] eqn:Hf.
    destruct (IH (if ok then allLoaded else false) s') as [IHs IHr].
    split.
    + rewrite IHs. unfold loaded_through. simpl. by rewrite ?Hf.
    + rewrite IHr. split.
      * intros [Hok Hall]. destruct ok; [|discriminate]. split; [done|].
        intros [|g pre] filepath post Heq; simplify_eq/=.
        -- by rewrite ?Hf.
        -- unfold loaded_through. simpl. rewrite ?Hf. by eapply Hall.
      * intros [-> Hall]. pose proof (Hall [] f rest eq_refl) as Hfirst.
        simpl in Hfirst. rewrite ?Hf in Hfirst. simpl in Hfirst. subst ok. split; [done|].
        intros pre filepath post ->.
        specialize (Hall (f :: pre) filepath post eq_refl).
        unfold loaded_through in Hall. simpl in Hall. by rewrite ?Hf in Hall.
Qed.

Lemma loaded_through_app pre post s :
  loaded_through (pre ++ post) s = loaded_through post (loaded_through pre s).
Proof. apply fold_left_app. Qed.

Lemma loaded_through_keeps files s n :
  is_Some (loadedPlugins s !! n) ->
  is_Some (loadedPlugins (loaded_through files s) !! n).
Proof.
  revert s. induction files as [|f rest IH]; intros s Hn; [done|].
  simpl. apply IH. by apply LoadPlugin_keeps.
Qed.

(** C4. [LoadPlugins] on a manager that is not initialized returns false,
    sets the last error to the not-initialized message and loads nothing.
    On an initialized manager it calls [LoadPlugin] on every discovered file
    in turn, whatever the earlier calls returned, and returns true exactly
    when every one of those calls returned true; a file whose own load
    succeeded is registered at the end of the pass even if another failed. *)
Theorem LoadPlugins_pass (s : PythonManager) :
  (pythonInitialized s = false ->
   LoadPlugins s = (false, SetError "Python not initialized" s) /\
   GetLastError (snd (LoadPlugins s)) = "Python not initialized" /\
   loadedPlugins (snd (LoadPlugins s)) = loadedPlugins s /\
   py (snd (LoadPlugins s)) = py s) /\
  (pythonInitialized s = true ->
   snd (LoadPlugins s) = loaded_through (DiscoverPluginFiles s) s /\
   (fst (LoadPlugins s) = true <->
    forall pre filepath post,
      DiscoverPluginFiles s = (pre ++ filepath :: post)%list ->
      fst (LoadPlugin filepath (loaded_through pre s)) = true) /\
   (forall pre filepath post,
      DiscoverPluginFiles s = (pre ++ filepath :: post)%list ->
      fst (LoadPlugin filepath (loaded_through pre s)) = true ->
      is_Some (loadedPlugins (snd (LoadPlugins s)) !! Path.stem filepath))).
Proof.
  split; intros Hi; unfold LoadPlugins; rewrite Hi; simpl.
  - done.
  - destruct (LoadPlugins_loop_spec (DiscoverPluginFiles s) true s) as [Hs Hr].
    split; [done|]. split.
    + rewrite Hr. split; [by intros [_ Hall] | by intros Hall].
    + intros pre filepath post Hd Hok. rewrite Hs, Hd.
      rewrite loaded_through_app. simpl.
      apply loaded_through_keeps. by apply LoadPlugin_true_registered.
Qed.


(** *** Sequences of registry calls *)

Inductive registry_call : Type :=
| Load (filepath : string)
| Unload (pluginName : string)
| UnloadAll.

Definition perform (c : registry_call) (s : PythonManager) : PythonManager :=
  match c with
  | Load filepath => snd (LoadPlugin filepath s)
  | Unload pluginName => UnloadPlugin pluginName s
  | UnloadAll => UnloadPlugins order s
  end.

Definition perform_all (calls : list registry_call) (s : PythonManager)
    : PythonManager :=
  fold_left (fun st c => perform c st) calls s.

(** The distinct plugin names the calls ask to load. *)
Fixpoint names_loaded (calls : list registry_call) : gset string :=
  match calls with
  | [] => ∅
  | Load filepath :: rest => {[Path.stem filepath]} ∪ names_loaded rest
  | _ :: rest => names_loaded rest
  end.

Lemma CallPluginMethod_registry n m s :
  loadedPlugins (snd (CallPluginMethod n m s)) = loadedPlugins s.
Proof.
  unfold CallPluginMethod.
  destruct (loadedPlugins s !! n) as [info|]; [|done].
  destruct (loaded info), (instance_ptr info) as [o|]; try done.
  exn_unfold. destruct (hasattr o m (py s)) as [[] σ]; simpl; [|done].
  by destruct (call_method o m [] σ) as [[] ?].
Qed.

Lemma UnloadPlugin_registry n s :
  loadedPlugins (UnloadPlugin n s) = delete n (loadedPlugins s).
Proof.
  unfold UnloadPlugin. destruct (loadedPlugins s !! n) as [plugin|] eqn:Hn.
  - pose proof (CallPluginMethod_registry n "shutdown" s) as Hr.
    destruct (CallPluginMethod n "shutdown" s) as [ok s1]. simpl in *.
    destruct (instance_ptr plugin); simpl; by rewrite Hr.
  - symmetry. by apply delete_id.
Qed.

Lemma UnloadPlugins_registry s : loadedPlugins (UnloadPlugins order s) = ∅.
Proof. reflexivity. Qed.

Lemma perform_dom c s :
  dom (loadedPlugins (perform c s)) ⊆ dom (loadedPlugins s) ∪ names_loaded [c].
Proof.
  destruct c as [filepath|n|]; unfold perform, names_loaded.
  - rewrite union_empty_r_L. apply LoadPlugin_dom.
  - rewrite UnloadPlugin_registry, dom_delete_L, union_empty_r_L.
    apply subseteq_difference_l. reflexivity.
  - rewrite UnloadPlugins_registry, dom_empty_L. apply empty_subseteq.
Qed.

Lemma names_loaded_cons c calls :
  names_loaded (c :: calls) = names_loaded [c] ∪ names_loaded calls.
Proof.
  destruct c; simpl.
  - by rewrite union_empty_r_L.
  - by rewrite union_empty_l_L.
  - by rewrite union_empty_l_L.
Qed.

Lemma perform_all_dom calls s :
  dom (loadedPlugins (perform_all calls s))
  ⊆ dom (loadedPlugins s) ∪ names_loaded calls.
Proof.
  revert s. induction calls as [|c rest IH]; intros s.
  - simpl. apply union_subseteq_l.
  - change (perform_all (c :: rest) s) with (perform_all rest (perform c s)).
    etrans; [apply IH|].
    rewrite names_loaded_cons.
    apply union_least.
    + etrans; [apply perform_dom|].
      apply union_least; [apply union_subseteq_l|].
      etrans; [|apply union_subseteq_r]. apply union_subseteq_l.
    + etrans; [|apply union_subseteq_r]. apply union_subseteq_r.
Qed.

Lemma enumerate_names_NoDup (m : gmap string PluginInfo) :
  NoDup (enumerate order m).*1.
Proof.
  rewrite (enumerate_perm order). apply NoDup_fst_map_to_list.
Qed.

(** C5. [LoadPlugin] on a source whose name already has a loaded entry returns
    true and changes nothing; and after any sequence of load and unload
    calls on an empty registry the registry holds at most as many entries as
    distinct names were loaded, each name enumerated once. *)
Theorem LoadPlugin_idempotent :
  (forall s filepath e,
      loadedPlugins s !! Path.stem filepath = Some e -> loaded e = true ->
      LoadPlugin filepath s = (true, s)) /\
  (forall calls s,
      loadedPlugins s = ∅ ->
      size (loadedPlugins (perform_all calls s)) <= size (names_loaded calls) /\
      NoDup (enumerate order (loadedPlugins (perform_all calls s))).*1).
Proof.
  split.
  - intros s filepath e He _. by eapply LoadPlugin_present.
  - intros calls s Hs. split; [|apply enumerate_names_NoDup].
    rewrite <- size_dom. apply subseteq_size.
    etrans; [apply perform_all_dom|].
    rewrite Hs, dom_empty_L, union_empty_l_L. reflexivity.
Qed.

(** The entry that the design document expects after a failed load. *)
Definition failed_entry_recorded (s : PythonManager) (pluginName : string) : Prop :=
  exists e, loadedPlugins s !! pluginName = Some e /\ loaded e = false.

(** C6, as the code has it. When the import of a plugin not yet registered
    raises, [LoadPlugin] returns false, sets the last error to a message
    naming the file and the exception, and leaves the registry as it was:
    no entry is recorded for the name. *)
Theorem LoadPlugin_failure (s : PythonManager) (filepath what : string) (σ : PyState) :
  loadedPlugins s !! Path.stem filepath = None ->
  module_import (Path.stem filepath) (py s) = (Throw what, σ) ->
  fst (LoadPlugin filepath s) = false /\
  loadedPlugins (snd (LoadPlugin filepath s)) = loadedPlugins s /\
  loadedPlugins (snd (LoadPlugin filepath s)) !! Path.stem filepath = None /\
  GetLastError (snd (LoadPlugin filepath s))
  = "Failed to load plugin " +:+ filepath +:+ ": " +:+ what.
Proof.
  intros Hn Hi. by rewrite (LoadPlugin_raised _ _ _ _ Hn Hi).
Qed.

End Loading.


(** *** Runs on the scripted interpreter *)

Definition flaky_script : Scripted.script :=
  {| Scripted.starts := true;
     Scripted.importable := fun n => negb (String.eqb n "broken");
     Scripted.methods := fun _ _ => None |}.

Definition mixed_listing : list directory_entry :=
  [ plain_entry "C:\SC4\PythonScripts\alpha.py" true;
    plain_entry "C:\SC4\PythonScripts\broken.py" true;
    plain_entry "C:\SC4\PythonScripts\gamma.py" true ].

(** A manager whose [Initialize] has run. *)
Definition started (sc : Scripted.script) (listing : option (list directory_entry))
    : @PythonManager (Scripted.python sc) Scripted.city :=
  snd (Initialize (Scripted.manager sc listing)).

Example started_active : pythonInitialized (started flaky_script None) = true.
Proof. reflexivity. Qed.

Lemma LoadPlugins_pass_witness :
  (pythonInitialized (Scripted.manager flaky_script (Some mixed_listing)) = false /\
   fst (LoadPlugins (Scripted.manager flaky_script (Some mixed_listing))) = false /\
   GetLastError (snd (LoadPlugins (Scripted.manager flaky_script (Some mixed_listing))))
   = "Python not initialized") /\
  (pythonInitialized (started flaky_script (Some mixed_listing)) = true /\
   fst (LoadPlugins (started flaky_script (Some mixed_listing))) = false /\
   is_Some (loadedPlugins (snd (LoadPlugins (started flaky_script (Some mixed_listing))))
            !! "gamma")).
Proof.
  split.
  - destruct (LoadPlugins_pass (Scripted.manager flaky_script (Some mixed_listing)))
      as [Hinactive _].
    destruct (Hinactive eq_refl) as (Hr & He & _).
    split; [reflexivity|]. split; [by rewrite Hr | exact He].
  - destruct (LoadPlugins_pass (started flaky_script (Some mixed_listing)))
      as [_ Hactive].
    destruct (Hactive eq_refl) as (_ & _ & Hreg).
    split; [reflexivity|]. split; [vm_compute; reflexivity|].
    apply (Hreg ["C:\SC4\PythonScripts\alpha.py"; "C:\SC4\PythonScripts\broken.py"]
             "C:\SC4\PythonScripts\gamma.py" []); vm_compute; reflexivity.
Defined.

Lemma LoadPlugin_idempotent_witness :
  let s := snd (LoadPlugin "C:\SC4\PythonScripts\alpha.py" (started flaky_script None)) in
  loadedPlugins s !! "alpha"
  = Some {| filepath := "C:\SC4\PythonScripts\alpha.py"; name := "alpha";
            instance_ptr := None; loaded := true |} /\
  LoadPlugin "C:\SC4\PythonScripts\alpha.py" s = (true, s) /\
  size (loadedPlugins
          (perform_all Scripted.order
             [Load "C:\SC4\PythonScripts\alpha.py"; Load "D:\mods\alpha.py";
              Unload "alpha"; Load "alpha.py"; Load "beta.py"]
             (started flaky_script None))) <= 2.
Proof.
  intros s.
  destruct (@LoadPlugin_idempotent (Scripted.python flaky_script) Scripted.city
              Scripted.order) as [Hidem Hcount].
  split; [vm_compute; reflexivity|]. split.
  - apply (Hidem s "C:\SC4\PythonScripts\alpha.py"
             {| filepath := "C:\SC4\PythonScripts\alpha.py"; name := "alpha";
                instance_ptr := None; loaded := true |});
      vm_compute; reflexivity.
  - apply (proj1 (Hcount [Load "C:\SC4\PythonScripts\alpha.py"; Load "D:\mods\alpha.py";
                          Unload "alpha"; Load "alpha.py"; Load "beta.py"]
                    (started flaky_script None) eq_refl)).
Defined.

Lemma LoadPlugin_failure_witness :
  let s := started flaky_script None in
  loadedPlugins s !! "broken" = None /\
  fst (LoadPlugin "C:\SC4\PythonScripts\broken.py" s) = false /\
  GetLastError (snd (LoadPlugin "C:\SC4\PythonScripts\broken.py" s))
  = "Failed to load plugin C:\SC4\PythonScripts\broken.py: ModuleNotFoundError: broken".
Proof.
  intros s.
  destruct (LoadPlugin_failure s "C:\SC4\PythonScripts\broken.py"
              "ModuleNotFoundError: broken" (S (py s)) eq_refl eq_refl)
    as (Hr & _ & _ & He).
  split; [reflexivity|]. split; [exact Hr | exact He].
Defined.

(** C6 as stated fails: after the import of [broken] has raised, the
    registry holds no entry for it, failed or otherwise. *)
Lemma LoadPlugin_raise_leaves_no_entry :
  let s := started flaky_script None in
  is_ok (fst (module_import (Python := Scripted.python flaky_script) "broken" (py s))) = false /\
  fst (LoadPlugin "C:\SC4\PythonScripts\broken.py" s) = false /\
  ~ failed_entry_recorded (snd (LoadPlugin "C:\SC4\PythonScripts\broken.py" s)) "broken".
Proof.
  intros s. split; [reflexivity|]. split; [reflexivity|].
  intros (e & He & _). vm_compute in He. discriminate.
Qed.

(** Case analysis on the next interpreter operation of the goal. *)
Ltac python_case :=
  match goal with
  | |- context [match ?op ?σ with pair _ _ => _ end] =>
      let r := fresh "r" in let σ' := fresh "σ" in
      destruct (op σ) as [r σ'] eqn:?; simpl;
      try (destruct r; simpl)
  end.

(** ** Start-up *)

Section StartUp.
Context {python : Python} {host : SC4City}.
Variable order : BucketOrder.

Lemma SetupPythonPaths_flag s :
  pythonInitialized (snd (SetupPythonPaths s)) = pythonInitialized s.
Proof. unfold SetupPythonPaths, GetPluginsDirectory. exn_unfold. repeat python_case; reflexivity. Qed.

Lemma SetupPythonEnvironment_flag s :
  pythonInitialized (snd (SetupPythonEnvironment s)) = pythonInitialized s.
Proof. unfold SetupPythonEnvironment. exn_unfold. repeat python_case; reflexivity. Qed.

Lemma LoadPythonBootstrap_flag s :
  pythonInitialized (snd (LoadPythonBootstrap s)) = pythonInitialized s.
Proof. unfold LoadPythonBootstrap. exn_unfold. repeat python_case; reflexivity. Qed.

Lemma SetupPythonLogging_flag s :
  pythonInitialized (snd (SetupPythonLogging s)) = pythonInitialized s.
Proof. unfold SetupPythonLogging. exn_unfold. repeat python_case; reflexivity. Qed.

Lemma make_interpreter_flag s :
  pythonInitialized (snd (make_interpreter s)) = pythonInitialized s.
Proof.
  unfold make_interpreter. destruct (interpreter s); [reflexivity|].
  exn_unfold. repeat python_case; reflexivity.
Qed.

(** [Initialize] unfolded into its steps, each applied to the state the
    previous one left. *)
Lemma Initialize_steps s :
  pythonInitialized s = false ->
  Initialize s =
  match make_interpreter s with
  | (Throw e, s1) => (false, SetError ("Python initialization failed: " +:+ e) s1)
  | (Ok _, s1) =>
      match in_python (module_import "sc4_native") s1 with
      | (Throw _, s2) => (false, SetError "Failed to import native module" s2)
      | (Ok _, s2) =>
          let (paths, s3) := SetupPythonPaths s2 in
          if paths then
            let (_, s4) := SetupPythonEnvironment s3 in
            let (bootstrap, s5) := LoadPythonBootstrap s4 in
            if bootstrap then
              let (_, s6) := SetupPythonLogging s5 in
              (true, set_pythonInitialized true s6)
            else (false, SetError "Failed to load Python bootstrap code" s5)
          else (false, SetError "Failed to setup Python paths" s3)
      end
  end.
Proof.
  intros Hu. unfold Initialize. rewrite Hu.
  unfold try_catch at 1. unfold bind at 1.
  destruct (make_interpreter s) as [[[]|e] s1]; [|reflexivity].
  unfold bind at 1. unfold no_throw at 1. unfold try_catch at 1. unfold bind at 1.
  destruct (in_python (module_import "sc4_native") s1) as [[?|?] s2]; [|reflexivity].
  unfold ret at 1. cbn [negb].
  unfold bind at 1. unfold no_throw at 1.
  destruct (SetupPythonPaths s2) as [[] s3]; [|reflexivity].
  cbn [negb]. unfold bind at 1. unfold no_throw at 1.
  destruct (SetupPythonEnvironment s3) as [? s4].
  unfold bind at 1. unfold no_throw at 1.
  destruct (LoadPythonBootstrap s4) as [[] s5]; [|reflexivity].
  cbn [negb]. unfold bind at 1. unfold no_throw at 1.
  destruct (SetupPythonLogging s5) as [? s6]. reflexivity.
Qed.


Lemma in_python_flag {A} (op : PyState -> Result A * PyState) s :
  pythonInitialized (snd (in_python op s)) = pythonInitialized s.
Proof. unfold in_python. by destruct (op (py s)). Qed.

(** A failed [Initialize] leaves the flag down. *)
Lemma Initialize_false_flag s :
  fst (Initialize s) = false ->
  pythonInitialized s = false /\ pythonInitialized (snd (Initialize s)) = false.
Proof.
  destruct (pythonInitialized s) eqn:Hu.
  - unfold Initialize. rewrite Hu. discriminate.
  - intros Hf. split; [reflexivity|]. revert Hf. rewrite (Initialize_steps s Hu).
    pose proof (make_interpreter_flag s) as F1.
    destruct (make_interpreter s) as [[[]|e] s1]; simpl in F1; [|intros _; simpl; congruence].
    pose proof (in_python_flag (module_import "sc4_native") s1) as F2.
    destruct (in_python (module_import "sc4_native") s1) as [[?|?] s2]; simpl in F2;
      [|intros _; simpl; congruence].
    pose proof (SetupPythonPaths_flag s2) as F3.
    destruct (SetupPythonPaths s2) as [[] s3]; simpl in F3; [|intros _; simpl; congruence].
    pose proof (SetupPythonEnvironment_flag s3) as F4.
    destruct (SetupPythonEnvironment s3) as [? s4]; simpl in F4.
    pose proof (LoadPythonBootstrap_flag s4) as F5.
    destruct (LoadPythonBootstrap s4) as [[] s5]; simpl in F5; [|intros _; simpl; congruence].
    destruct (SetupPythonLogging s5) as [? s6]. discriminate.
Qed.

Lemma Initialize_true_flag s :
  fst (Initialize s) = true -> pythonInitialized (snd (Initialize s)) = true.
Proof.
  destruct (pythonInitialized s) eqn:Hu.
  - unfold Initialize. by rewrite Hu.
  - rewrite (Initialize_steps s Hu).
    destruct (make_interpreter s) as [[[]|e] s1]; [|discriminate].
    destruct (in_python (module_import "sc4_native") s1) as [[?|?] s2]; [|discriminate].
    destruct (SetupPythonPaths s2) as [[] s3]; [|discriminate].
    destruct (SetupPythonEnvironment s3) as [? s4].
    destruct (LoadPythonBootstrap s4) as [[] s5]; [|discriminate].
    by destruct (SetupPythonLogging s5) as [? s6].
Qed.

(** The states in which the steps of [Initialize] are reached. *)
Definition at_native_import (s : PythonManager) : PythonManager :=
  snd (make_interpreter s).
Definition at_path_setup (s : PythonManager) : PythonManager :=
  snd (in_python (module_import "sc4_native") (at_native_import s)).

(** The causes of failure, each in the state in which its step is reached
    and after the steps before it have gone through. *)
Definition bring_up_raises (s : PythonManager) : Prop :=
  is_ok (fst (make_interpreter s)) = false.
Definition path_setup_fails (s : PythonManager) : Prop :=
  is_ok (fst (make_interpreter s)) = true /\
  is_ok (fst (in_python (module_import "sc4_native") (at_native_import s))) = true /\
  fst (SetupPythonPaths (at_path_setup s)) = false.







(** The manager is not initialized and holds an interpreter: where a
    start-up that failed after the bring-up leaves it. *)
Definition stuck (s : PythonManager) : Prop :=
  pythonInitialized s = false /\ interpreter s = true.




End StartUp.

Definition no_bring_up : Scripted.script :=
  {| Scripted.starts := false;
     Scripted.importable := fun _ => true;
     Scripted.methods := fun _ _ => None |}.


Definition no_sys : Scripted.script :=
  {| Scripted.starts := true;
     Scripted.importable := fun n => negb (String.eqb n "sys");
     Scripted.methods := fun _ _ => None |}.




(** Where the bring-up itself raises, the manager holds no interpreter
    afterwards; where the path setup fails, it holds one. *)
Example Initialize_bring_up_failure :
  let s := Scripted.manager no_bring_up None in
  bring_up_raises s /\ fst (Initialize s) = false /\
  interpreter (snd (Initialize s)) = false.
Proof. repeat split. Qed.

Example Initialize_path_setup_failure :
  let s := Scripted.manager no_sys None in
  path_setup_fails s /\ fst (Initialize s) = false /\
  GetLastError (snd (Initialize s)) = "Failed to setup Python paths" /\
  stuck (snd (Initialize s)).
Proof. repeat split. Qed.


(** ** Dispatch *)

Section Dispatch.
Context {python : Python} {host : SC4City}.
Variable order : BucketOrder.

(** The three ways an attempt to run [method] on a plugin object ends. *)
Definition absent (o : PyObject) (method : string) (σ : PyState) : Prop :=
  fst (hasattr o method σ) = false.

Definition completes (o : PyObject) (method : string)
    (args : list (PyArg PyObject)) (σ : PyState) : Prop :=
  fst (hasattr o method σ) = true /\
  is_ok (fst (call_method o method args (snd (hasattr o method σ)))) = true.

Definition raises (o : PyObject) (method : string)
    (args : list (PyArg PyObject)) (σ : PyState) : Prop :=
  fst (hasattr o method σ) = true /\
  is_ok (fst (call_method o method args (snd (hasattr o method σ)))) = false.

Lemma attempt_cases o method args σ :
  absent o method σ \/ completes o method args σ \/ raises o method args σ.
Proof.
  unfold absent, completes, raises.
  destruct (fst (hasattr o method σ)); [|by left].
  destruct (is_ok _); auto.
Qed.

Lemma raises_not_completes o method args σ :
  raises o method args σ -> ~ completes o method args σ.
Proof. intros [_ Hr] [_ Hc]. congruence. Qed.

Lemma raises_not_absent o method args σ :
  raises o method args σ -> ~ absent o method σ.
Proof. intros [Hr _] Ha. unfold absent in Ha. congruence. Qed.

(** [CallPluginMethod] on an entry that is loaded and has an instance. *)
Lemma CallPluginMethod_live n m s info o :
  loadedPlugins s !! n = Some info ->
  loaded info = true -> instance_ptr info = Some o ->
  (absent o m (py s) /\ fst (CallPluginMethod n m s) = true /\
     invocations (snd (CallPluginMethod n m s)) = invocations s) \/
  (completes o m [] (py s) /\ fst (CallPluginMethod n m s) = true /\
     invocations (snd (CallPluginMethod n m s)) = (invocations s ++ [(n, m)])%list) \/
  (raises o m [] (py s) /\ fst (CallPluginMethod n m s) = false /\
     invocations (snd (CallPluginMethod n m s)) = (invocations s ++ [(n, m)])%list).
Proof.
  intros Hl Hld Hi. unfold CallPluginMethod, absent, completes, raises.
  rewrite Hl, Hld, Hi.
  exn_unfold.
  destruct (hasattr o m (py s)) as [[] σ]; simpl.
  - destruct (call_method o m [] σ) as [[] ?]; simpl; auto.
  - auto.
Qed.

Lemma CallPluginMethod_dead n m s :
  (loadedPlugins s !! n = None \/
   exists info, loadedPlugins s !! n = Some info /\
                (loaded info = false \/ instance_ptr info = None)) ->
  CallPluginMethod n m s = (false, s).
Proof.
  unfold CallPluginMethod. intros [-> | (info & -> & [Hd | Hd])]; [done| |].
  - by rewrite Hd.
  - rewrite Hd. by destruct (loaded info).
Qed.

Lemma CallPluginMethod_invocations n m s :
  invocations (snd (CallPluginMethod n m s)) = invocations s \/
  invocations (snd (CallPluginMethod n m s)) = (invocations s ++ [(n, m)])%list.
Proof.
  unfold CallPluginMethod.
  destruct (loadedPlugins s !! n) as [info|]; [|by left].
  destruct (loaded info), (instance_ptr info) as [o|]; try by left.
  exn_unfold. destruct (hasattr o m (py s)) as [[] σ]; simpl; [|by left].
  right. by destruct (call_method o m [] σ) as [[] ?].
Qed.

(** One turn of the loop of [CallAllPlugins]. *)
Definition visit (m : string) (entry : string * PluginInfo) (s : PythonManager)
    : bool * PythonManager :=
  if loaded entry.2 then CallPluginMethod entry.1 m s else (true, s).

(** The state the dispatch has reached once the entries [pre] are behind it. *)
Definition dispatched_through (m : string) (pre : list (string * PluginInfo))
    (s : PythonManager) : PythonManager :=
  snd (CallAllPlugins_loop m pre true s).

Lemma CallAllPlugins_loop_cons m entry rest b s :
  CallAllPlugins_loop m (entry :: rest) b s
  = CallAllPlugins_loop m rest (if fst (visit m entry s) then b else false)
      (snd (visit m entry s)).
Proof.
  destruct entry as [n info]. unfold visit. simpl.
  destruct (loaded info); [|reflexivity].
  by destruct (CallPluginMethod n m s) as [[] s'].
Qed.

Lemma CallAllPlugins_loop_acc m entries b s :
  CallAllPlugins_loop m entries b s
  = (b && fst (CallAllPlugins_loop m entries true s),
     snd (CallAllPlugins_loop m entries true s)).
Proof.
  revert b s. induction entries as [|entry rest IH]; intros b s.
  - simpl. by rewrite andb_true_r.
  - rewrite !CallAllPlugins_loop_cons.
    rewrite (IH (if fst (visit m entry s) then b else false)).
    rewrite (IH (if fst (visit m entry s) then true else false)).
    simpl. by destruct (fst (visit m entry s)), b.
Qed.

Lemma dispatched_through_cons m entry pre s :
  dispatched_through m (entry :: pre) s
  = dispatched_through m pre (snd (visit m entry s)).
Proof.
  unfold dispatched_through. rewrite CallAllPlugins_loop_cons.
  by rewrite CallAllPlugins_loop_acc.
Qed.

Lemma dispatched_through_app m pre post s :
  dispatched_through m (pre ++ post) s
  = dispatched_through m post (dispatched_through m pre s).
Proof.
  revert s. induction pre as [|entry pre IH]; intros s; [done|].
  simpl. by rewrite !dispatched_through_cons, IH.
Qed.

Lemma visit_registry m entry s :
  loadedPlugins (snd (visit m entry s)) = loadedPlugins s.
Proof.
  unfold visit. destruct (loaded entry.2); [|done]. apply CallPluginMethod_registry.
Qed.

Lemma dispatched_through_registry m pre s :
  loadedPlugins (dispatched_through m pre s) = loadedPlugins s.
Proof.
  revert s. induction pre as [|entry pre IH]; intros s; [done|].
  by rewrite dispatched_through_cons, IH, visit_registry.
Qed.

(** The aggregate result is the conjunction of the turns. *)
Lemma CallAllPlugins_loop_true m entries s :
  fst (CallAllPlugins_loop m entries true s) = true <->
  forall pre entry post, entries = (pre ++ entry :: post)%list ->
    fst (visit m entry (dispatched_through m pre s)) = true.
Proof.
  revert s. induction entries as [|e rest IH]; intros s.
  - split; [|done]. intros _ [|? ?] ? ? ?; discriminate.
  - rewrite CallAllPlugins_loop_cons, CallAllPlugins_loop_acc. simpl.
    rewrite andb_true_iff, IH. split.
    + intros [Hv Hall] [|e' pre] entry post Heq; simplify_eq/=.
      * change (dispatched_through m [] s) with s.
        by destruct (fst (visit m entry s)).
      * rewrite dispatched_through_cons. by eapply Hall.
    + intros Hall. split.
      * pose proof (Hall [] e rest eq_refl) as Hv.
        change (dispatched_through m [] s) with s in Hv. by rewrite Hv.
      * intros pre entry post ->.
        specialize (Hall (e :: pre) entry post eq_refl).
        by rewrite dispatched_through_cons in Hall.
Qed.

(** What a turn adds to the invocation record. *)
Lemma visit_invocations m entry s :
  invocations (snd (visit m entry s)) = invocations s \/
  invocations (snd (visit m entry s)) = (invocations s ++ [(entry.1, m)])%list.
Proof.
  unfold visit. destruct (loaded entry.2); [|by left].
  apply CallPluginMethod_invocations.
Qed.

Lemma dispatched_through_invocations m entries s :
  exists names,
    invocations (dispatched_through m entries s)
    = (invocations s ++ map (fun n => (n, m)) names)%list /\
    sublist names entries.*1.
Proof.
  revert s. induction entries as [|e rest IH]; intros s.
  - exists []. simpl. by rewrite app_nil_r.
  - rewrite dispatched_through_cons.
    destruct (IH (snd (visit m e s))) as (names & -> & Hsub).
    destruct (visit_invocations m e s) as [-> | ->].
    + exists names. split; [done|]. by apply sublist_cons.
    + exists (e.1 :: names). rewrite <- app_assoc. split; [done|].
      by apply sublist_skip.
Qed.


Lemma enumerate_lookup (m : gmap string PluginInfo) n info :
  (n, info) ∈ enumerate order m -> m !! n = Some info.
Proof. rewrite (enumerate_perm order). apply elem_of_map_to_list. Qed.

Lemma enumerate_split_lookup (m : gmap string PluginInfo) pre n info post :
  enumerate order m = (pre ++ (n, info) :: post)%list -> m !! n = Some info.
Proof.
  intros Heq. apply enumerate_lookup. rewrite Heq.
  apply elem_of_app. right. apply elem_of_cons. by left.
Qed.

(** [CallPluginMethod] returns false in exactly four cases. *)
Lemma CallPluginMethod_false n m s :
  fst (CallPluginMethod n m s) = false <->
  loadedPlugins s !! n = None \/
  exists info, loadedPlugins s !! n = Some info /\
    (loaded info = false \/
     instance_ptr info = None \/
     exists plugin, instance_ptr info = Some plugin /\ raises plugin m [] (py s)).
Proof.
  destruct (loadedPlugins s !! n) as [info|] eqn:Hl.
  2:{ rewrite CallPluginMethod_dead by (left; done). split; [by left | done]. }
  destruct (loaded info) eqn:Hld.
  2:{ rewrite CallPluginMethod_dead by (right; exists info; auto).
      split; [|done]. intros _. right. exists info. auto. }
  destruct (instance_ptr info) as [plugin|] eqn:Hi.
  2:{ rewrite CallPluginMethod_dead by (right; exists info; auto).
      split; [|done]. intros _. right. exists info. auto. }
  destruct (CallPluginMethod_live n m s info plugin Hl Hld Hi)
    as [(Ha & -> & _)|[(Hc & -> & _)|(Hr & -> & _)]].
  - split; [done|]. intros [|(info' & [= <-] & [|[|(p & Hp & Hr)]])]; try congruence.
    rewrite Hi in Hp. simplify_eq. by destruct (raises_not_absent _ _ _ _ Hr).
  - split; [done|]. intros [|(info' & [= <-] & [|[|(p & Hp & Hr)]])]; try congruence.
    rewrite Hi in Hp. simplify_eq. by destruct (raises_not_completes _ _ _ _ Hr).
  - split; [|done]. intros _. right. exists info. split; [done|].
    right. right. by exists plugin.
Qed.

(** C7, as the code has it. [CallPluginMethod] returns false precisely when
    the registry has no entry of that name, or the entry is not loaded, or
    it holds no instance, or the handler exists and raises.  It returns true
    otherwise; in particular a loaded plugin that does not expose the handler
    yields true, and nothing is invoked. *)
Theorem CallPluginMethod_result (s : PythonManager) (pluginName method : string) :
  (fst (CallPluginMethod pluginName method s) = false <->
   loadedPlugins s !! pluginName = None \/
   exists info, loadedPlugins s !! pluginName = Some info /\
     (loaded info = false \/
      instance_ptr info = None \/
      exists plugin, instance_ptr info = Some plugin /\
                     raises plugin method [] (py s))) /\
  (forall info plugin,
     loadedPlugins s !! pluginName = Some info ->
     loaded info = true -> instance_ptr info = Some plugin ->
     absent plugin method (py s) ->
     fst (CallPluginMethod pluginName method s) = true /\
     invocations (snd (CallPluginMethod pluginName method s)) = invocations s).
Proof.
  split; [apply CallPluginMethod_false|].
  intros info plugin Hl Hld Hi Ha.
  destruct (CallPluginMethod_live pluginName method s info plugin Hl Hld Hi)
    as [(_ & Hr & Hv)|[([Hc _] & _)|([Hr _] & _)]]; [done| |];
    unfold absent in Ha; congruence.
Qed.

(** The cases in which the design document has [callOne] return false. *)
Definition callOne_false_cases (s : PythonManager) (pluginName method : string) : Prop :=
  loadedPlugins s !! pluginName = None \/
  exists info, loadedPlugins s !! pluginName = Some info /\
    (loaded info = false \/
     (forall plugin, instance_ptr info = Some plugin -> absent plugin method (py s)) \/
     exists plugin, instance_ptr info = Some plugin /\ raises plugin method [] (py s)).

Lemma visit_true m n info s :
  loadedPlugins s !! n = Some info ->
  fst (visit m (n, info) s) = true <->
  (loaded info = true ->
   exists plugin, instance_ptr info = Some plugin /\ ~ raises plugin m [] (py s)).
Proof.
  intros Hl. unfold visit. simpl. destruct (loaded info) eqn:Hld; [|done].
  destruct (fst (CallPluginMethod n m s)) eqn:Hr.
  - split; [|done]. intros _ _.
    destruct (instance_ptr info) as [plugin|] eqn:Hi.
    + exists plugin. split; [done|]. intros Hraise.
      assert (fst (CallPluginMethod n m s) = false) as Hf; [|congruence].
      apply CallPluginMethod_false. right. exists info. split; [done|].
      right. right. by exists plugin.
    + assert (fst (CallPluginMethod n m s) = false) as Hf; [|congruence].
      apply CallPluginMethod_false. right. exists info. auto.
  - split; [done|]. intros Hex. destruct (Hex eq_refl) as (plugin & Hi & Hnr).
    apply CallPluginMethod_false in Hr
      as [Hr|(info' & Hl' & [Hr|[Hr|(p & Hp & Hr)]])]; simplify_eq; congruence.
Qed.

(** Every handler the dispatch invoked ran to completion. *)
Definition every_invoked_handler_completed (m : string) (s : PythonManager) : Prop :=
  forall pre n info post plugin,
    enumerate order (loadedPlugins s) = (pre ++ (n, info) :: post)%list ->
    loaded info = true -> instance_ptr info = Some plugin ->
    ~ raises plugin m [] (py (dispatched_through m pre s)).

(** C1, as the code has it. [CallAllPlugins] invokes the handler on every
    loaded entry that holds an instance exposing it, whatever the handlers of
    the entries enumerated before it did (returned or raised); it invokes
    nothing else, and no plugin twice; and the aggregate is true exactly when
    every loaded entry holds an instance and no invoked handler raised. *)
Theorem CallAllPlugins_fan_out (s : PythonManager) (method : string) :
  (forall pre n info post plugin,
     enumerate order (loadedPlugins s) = (pre ++ (n, info) :: post)%list ->
     loaded info = true -> instance_ptr info = Some plugin ->
     ~ absent plugin method (py (dispatched_through method pre s)) ->
     exists later,
       invocations (snd (CallAllPlugins order method s))
       = (invocations (dispatched_through method pre s) ++ (n, method) :: later)%list) /\
  (exists names,
     invocations (snd (CallAllPlugins order method s))
     = (invocations s ++ map (fun n => (n, method)) names)%list /\
     sublist names (enumerate order (loadedPlugins s)).*1 /\ NoDup names) /\
  (fst (CallAllPlugins order method s) = true <->
   forall pre n info post,
     enumerate order (loadedPlugins s) = (pre ++ (n, info) :: post)%list ->
     loaded info = true ->
     exists plugin, instance_ptr info = Some plugin /\
                    ~ raises plugin method [] (py (dispatched_through method pre s))).
Proof.
  unfold CallAllPlugins.
  change (snd (CallAllPlugins_loop method (enumerate order (loadedPlugins s)) true s))
    with (dispatched_through method (enumerate order (loadedPlugins s)) s).
  split; [|split].
  - intros pre n info post plugin Heq Hld Hi Hex.
    rewrite Heq, dispatched_through_app, dispatched_through_cons.
    set (s1 := dispatched_through method pre s) in *.
    assert (loadedPlugins s1 !! n = Some info) as Hl.
    { unfold s1. rewrite dispatched_through_registry.
      by eapply enumerate_split_lookup. }
    destruct (dispatched_through_invocations method post (snd (visit method (n, info) s1)))
      as (names & -> & _).
    unfold visit. simpl. rewrite Hld.
    destruct (CallPluginMethod_live n method s1 info plugin Hl Hld Hi)
      as [(Ha & _)|[(_ & _ & ->)|(_ & _ & ->)]]; [done| |];
      rewrite <- app_assoc; by eexists.
  - destruct (dispatched_through_invocations method
                (enumerate order (loadedPlugins s)) s) as (names & Hn & Hsub).
    exists names. split; [done|]. split; [done|].
    eapply sublist_NoDup; [|exact Hsub]. apply enumerate_names_NoDup.
  - rewrite CallAllPlugins_loop_true. split.
    + intros Hall pre n info post Heq.
      assert (loadedPlugins (dispatched_through method pre s) !! n = Some info) as Hl.
      { rewrite dispatched_through_registry. by eapply enumerate_split_lookup. }
      apply (proj1 (visit_true method n info _ Hl)). by eapply Hall.
    + intros Hall pre [n info] post Heq.
      assert (loadedPlugins (dispatched_through method pre s) !! n = Some info) as Hl.
      { rewrite dispatched_through_registry. by eapply enumerate_split_lookup. }
      apply (proj2 (visit_true method n info _ Hl)). by eapply Hall.
Qed.

End Dispatch.

(** *** Dispatch on the scripted interpreter *)

(** A registry entry holding a live instance of the plugin of that name. *)
Definition live_entry (sc : Scripted.script) (n : string)
    : @PluginInfo (Scripted.python sc) :=
  @Build_PluginInfo (Scripted.python sc)
    ("C:\SC4\PythonScripts\" +:+ n +:+ ".py") n (Some (Scripted.Instance_ n)) true.

(** An initialized manager whose registry holds live instances of [names]. *)
Definition hosting (sc : Scripted.script) (names : list string)
    : @PythonManager (Scripted.python sc) Scripted.city :=
  set_loadedPlugins (list_to_map (map (fun n => (n, live_entry sc n)) names))
    (started sc None).

(** Three plugins answer [on_city_init]; the one enumerated second raises. *)
Definition trio : Scripted.script :=
  {| Scripted.starts := true;
     Scripted.importable := fun _ => true;
     Scripted.methods := fun inst method =>
       if String.eqb method "on_city_init" then
         if String.eqb inst "taxes" then Some (Scripted.Raises "boom")
         else Some (Scripted.Returns Scripted.NoneObj)
       else None |}.

Example trio_order :
  (enumerate Scripted.order (loadedPlugins (hosting trio ["roads"; "taxes"; "power"]))).*1
  = ["roads"; "taxes"; "power"].
Proof. vm_compute. reflexivity. Qed.

Lemma CallAllPlugins_fan_out_witness :
  let s := hosting trio ["roads"; "taxes"; "power"] in
  raises (python := Scripted.python trio) (Scripted.Instance_ "taxes") "on_city_init" []
    (py (dispatched_through "on_city_init" [("roads", live_entry trio "roads")] s)) /\
  (exists later,
     invocations (snd (CallAllPlugins Scripted.order "on_city_init" s))
     = ([("roads", "on_city_init"); ("taxes", "on_city_init")]
        ++ ("power", "on_city_init") :: later)%list) /\
  fst (CallAllPlugins Scripted.order "on_city_init" s) = false.
Proof.
  intros s.
  destruct (CallAllPlugins_fan_out Scripted.order s "on_city_init")
    as (Hdeliver & _ & Haggregate).
  split; [split; vm_compute; reflexivity|]. split.
  - destruct (Hdeliver [("roads", live_entry trio "roads"); ("taxes", live_entry trio "taxes")]
                "power" (live_entry trio "power") [] (Scripted.Instance_ "power"))
      as [later Hlater].
    + vm_compute. reflexivity.
    + reflexivity.
    + reflexivity.
    + unfold absent. vm_compute. discriminate.
    + exists later. rewrite Hlater. f_equal.
  - destruct (fst (CallAllPlugins Scripted.order "on_city_init" s)) eqn:Hr; [|reflexivity].
    destruct (proj1 Haggregate eq_refl [("roads", live_entry trio "roads")]
                "taxes" (live_entry trio "taxes") [("power", live_entry trio "power")])
      as (plugin & Hp & Hnr).
    + vm_compute. reflexivity.
    + reflexivity.
    + injection Hp as <-. exfalso. apply Hnr. split; vm_compute; reflexivity.
Defined.

(** C1 as stated fails on the registry that [LoadPlugin] builds: the entry
    is loaded but holds no instance, no handler is invoked, and the
    aggregate is false all the same. *)
Lemma CallAllPlugins_aggregate_without_instance :
  let s := snd (LoadPlugin "C:\SC4\PythonScripts\alpha.py" (started idle_script None)) in
  ~ (fst (CallAllPlugins Scripted.order "on_city_init" s) = true <->
     every_invoked_handler_completed Scripted.order "on_city_init" s).
Proof.
  intros s [_ Hback].
  assert (every_invoked_handler_completed Scripted.order "on_city_init" s) as Hall.
  { intros pre n info post plugin Heq _ Hi. vm_compute in Heq.
    destruct pre as [|? [|? ?]]; simplify_eq. }
  apply Hback in Hall. vm_compute in Hall. discriminate.
Qed.

Example CallAllPlugins_without_instance_run :
  let s := snd (LoadPlugin "C:\SC4\PythonScripts\alpha.py" (started idle_script None)) in
  CallAllPlugins Scripted.order "on_city_init" s = (false, s).
Proof. vm_compute. reflexivity. Qed.

Lemma CallPluginMethod_result_witness :
  (let s := hosting idle_script ["quiet"] in
   absent (python := Scripted.python idle_script)
     (Scripted.Instance_ "quiet") "on_city_init" (py s) /\
   fst (CallPluginMethod "quiet" "on_city_init" s) = true /\
   invocations (snd (CallPluginMethod "quiet" "on_city_init" s)) = invocations s) /\
  (let s := hosting trio ["roads"; "taxes"; "power"] in
   raises (python := Scripted.python trio)
     (Scripted.Instance_ "taxes") "on_city_init" [] (py s) /\
   fst (CallPluginMethod "taxes" "on_city_init" s) = false).
Proof.
  split; intros s.
  - split; [reflexivity|].
    apply (proj2 (CallPluginMethod_result s "quiet" "on_city_init")
             (live_entry idle_script "quiet") (Scripted.Instance_ "quiet"));
      reflexivity.
  - split; [split; reflexivity|].
    apply (proj1 (CallPluginMethod_result s "taxes" "on_city_init")).
    right. exists (live_entry trio "taxes"). split; [vm_compute; reflexivity|].
    right. right. exists (Scripted.Instance_ "taxes"). split; [reflexivity|].
    split; reflexivity.
Defined.

(** C7 as stated fails: a loaded plugin that does not expose the handler
    makes [CallPluginMethod] return true. *)
Lemma CallPluginMethod_absent_handler_succeeds :
  let s := hosting idle_script ["quiet"] in
  ~ (fst (CallPluginMethod "quiet" "on_city_init" s) = false <->
     callOne_false_cases s "quiet" "on_city_init").
Proof.
  intros s [_ Hback].
  assert (callOne_false_cases s "quiet" "on_city_init") as Hcase.
  { right. exists (live_entry idle_script "quiet"). split; [vm_compute; reflexivity|].
    right. left. intros plugin [= <-]. reflexivity. }
  apply Hback in Hcase. vm_compute in Hcase. discriminate.
Qed.

(** ** Cheat routing *)

Section Cheats.
Context {python : Python} {host : SC4City}.
Variable order : BucketOrder.

(** What a plugin that has the handler answers to a command: the value its
    handler returns, cast to [bool]; or the exception of either step. *)
Definition answer (plugin cheatCommand : PyObject) (σ : PyState)
    : Result bool * PyState :=
  match call_method plugin "handle_cheat" [ArgObj cheatCommand] σ with
  | (Ok result, σ') => cast_bool result σ'
  | (Throw e, σ') => (Throw e, σ')
  end.

Definition claims (plugin cheatCommand : PyObject) (σ : PyState) : Prop :=
  fst (hasattr plugin "handle_cheat" σ) = true /\
  fst (answer plugin cheatCommand (snd (hasattr plugin "handle_cheat" σ))) = Ok true.

Definition declines (plugin cheatCommand : PyObject) (σ : PyState) : Prop :=
  fst (hasattr plugin "handle_cheat" σ) = true /\
  fst (answer plugin cheatCommand (snd (hasattr plugin "handle_cheat" σ))) = Ok false.

(** The router moves on from an entry: nothing to call there, or the
    handler returned something that is not true. *)
Definition passes_over (cheatCommand : PyObject) (entry : string * PluginInfo)
    (σ : PyState) : Prop :=
  loaded entry.2 = false \/
  instance_ptr entry.2 = None \/
  exists plugin, instance_ptr entry.2 = Some plugin /\
    (absent plugin "handle_cheat" σ \/ declines plugin cheatCommand σ).

(** The state the route has reached once the entries [pre] are behind it. *)
Definition routed_through (cheatCommand : PyObject)
    (pre : list (string * PluginInfo)) (s : PythonManager) : PythonManager :=
  snd (HandleCheat_loop cheatCommand pre s).

Lemma raises_answer plugin cmd σ :
  raises plugin "handle_cheat" [ArgObj cmd] σ ->
  exists e, fst (answer plugin cmd (snd (hasattr plugin "handle_cheat" σ))) = Throw e.
Proof.
  intros [_ Hr]. unfold answer.
  destruct (call_method _ _ _ _) as [[r|e] σ']; [discriminate|]. by exists e.
Qed.

(** One entry of the route, continued by the rest. *)
Lemma HandleCheat_loop_cons cmd entry rest s :
  HandleCheat_loop cmd (entry :: rest) s
  = match HandleCheat_loop cmd [entry] s with
    | (Ok false, s1) => HandleCheat_loop cmd rest s1
    | other => other
    end.
Proof.
  destruct entry as [n info]. simpl.
  destruct (loaded info), (instance_ptr info) as [plugin|]; try reflexivity.
  exn_unfold. destruct (hasattr plugin "handle_cheat" (py s)) as [[] σ]; simpl;
    [|reflexivity].
  destruct (call_method plugin "handle_cheat" [ArgObj cmd] σ) as [[r|e] σ1]; simpl;
    [|reflexivity].
  destruct (cast_bool r σ1) as [[[]|e] σ2]; reflexivity.
Qed.

Lemma HandleCheat_loop_app cmd pre rest s :
  HandleCheat_loop cmd (pre ++ rest) s
  = match HandleCheat_loop cmd pre s with
    | (Ok false, s1) => HandleCheat_loop cmd rest s1
    | other => other
    end.
Proof.
  revert s. induction pre as [|entry pre IH]; intros s; [reflexivity|].
  simpl app. rewrite (HandleCheat_loop_cons cmd entry (pre ++ rest)).
  rewrite (HandleCheat_loop_cons cmd entry pre).
  destruct (HandleCheat_loop cmd [entry] s) as [[[]|e] s1]; try reflexivity.
  apply IH.
Qed.

(** The single turn, by cases. *)
Lemma HandleCheat_turn cmd n info s :
  ((loaded info = false \/ instance_ptr info = None) /\
   HandleCheat_loop cmd [(n, info)] s = (Ok false, s)) \/
  exists plugin,
    loaded info = true /\ instance_ptr info = Some plugin /\
    ((absent plugin "handle_cheat" (py s) /\
      fst (HandleCheat_loop cmd [(n, info)] s) = Ok false /\
      invocations (snd (HandleCheat_loop cmd [(n, info)] s)) = invocations s) \/
     (~ absent plugin "handle_cheat" (py s) /\
      fst (HandleCheat_loop cmd [(n, info)] s)
      = fst (answer plugin cmd (snd (hasattr plugin "handle_cheat" (py s)))) /\
      invocations (snd (HandleCheat_loop cmd [(n, info)] s))
      = (invocations s ++ [(n, "handle_cheat")])%list)).
Proof.
  simpl. destruct (loaded info) eqn:Hld; [|left; auto].
  destruct (instance_ptr info) as [plugin|] eqn:Hi; [|left; auto].
  right. exists plugin. split; [done|]. split; [done|].
  unfold absent, answer. exn_unfold.
  destruct (hasattr plugin "handle_cheat" (py s)) as [[] σ]; simpl; [right|left; auto].
  split; [done|].
  destruct (call_method plugin "handle_cheat" [ArgObj cmd] σ) as [[r|e] σ1]; simpl;
    [|auto].
  destruct (cast_bool r σ1) as [[[]|e] σ2]; auto.
Qed.


Lemma HandleCheat_turn_passes cmd n info s :
  fst (HandleCheat_loop cmd [(n, info)] s) = Ok false <->
  passes_over cmd (n, info) (py s).
Proof.
  unfold passes_over, declines. cbn [snd].
  destruct (HandleCheat_turn cmd n info s)
    as [([Hs|Hs] & ->)|(plugin & Hld & Hi & [(Ha & -> & _)|(Hna & -> & _)])].
  - split; auto.
  - split; auto.
  - split; [|done]. intros _. right. right. exists plugin. auto.
  - split.
    + intros Ht. right. right. exists plugin. split; [done|]. right.
      split; [|done]. unfold absent in Hna. by destruct (fst (hasattr _ _ _)).
    + intros [|[|(p & Hp & [Ha|[_ Hd]])]]; try congruence;
        rewrite Hi in Hp; by simplify_eq.
Qed.

Lemma routed_through_cons cmd entry pre s s1 :
  HandleCheat_loop cmd [entry] s = (Ok false, s1) ->
  routed_through cmd (entry :: pre) s = routed_through cmd pre s1.
Proof.
  intros Ht. unfold routed_through. by rewrite HandleCheat_loop_cons, Ht.
Qed.

(** The route falls out of the loop exactly when it passes over every entry. *)
Lemma HandleCheat_loop_exhausted cmd entries s :
  fst (HandleCheat_loop cmd entries s) = Ok false <->
  forall a e b, entries = (a ++ e :: b)%list ->
    passes_over cmd e (py (routed_through cmd a s)).
Proof.
  revert s. induction entries as [|[n info] rest IH]; intros s.
  - split; [|done]. intros _ [|? ?] ? ? ?; discriminate.
  - rewrite HandleCheat_loop_cons.
    destruct (HandleCheat_loop cmd [(n, info)] s) as [r s1] eqn:Ht.
    assert (r = Ok false <-> passes_over cmd (n, info) (py s)) as Hturn.
    { rewrite <- HandleCheat_turn_passes. by rewrite Ht. }
    split.
    + intros Hall. assert (r = Ok false) as ->.
      { destruct r as [[]|]; simpl in Hall; congruence. }
      intros [|e' a] e b Heq; cbn [app] in Heq; injection Heq as ? ?; subst.
      * by apply Hturn.
      * rewrite (routed_through_cons _ _ _ _ _ Ht). by eapply IH.
    + intros Hall. assert (r = Ok false) as ->.
      { apply Hturn. by apply (Hall [] (n, info) rest). }
      apply IH. intros a e b ->.
      specialize (Hall ((n, info) :: a) e b eq_refl).
      by rewrite (routed_through_cons _ _ _ _ _ Ht) in Hall.
Qed.

Lemma HandleCheat_turn_invocations cmd n info s :
  invocations (snd (HandleCheat_loop cmd [(n, info)] s)) = invocations s \/
  invocations (snd (HandleCheat_loop cmd [(n, info)] s))
  = (invocations s ++ [(n, "handle_cheat")])%list.
Proof.
  destruct (HandleCheat_turn cmd n info s)
    as [(_ & ->)|(plugin & _ & _ & [(_ & _ & ->)|(_ & _ & ->)])]; auto.
Qed.

Lemma HandleCheat_loop_invocations cmd entries s :
  exists names,
    invocations (snd (HandleCheat_loop cmd entries s))
    = (invocations s ++ map (fun n => (n, "handle_cheat")) names)%list /\
    sublist names entries.*1.
Proof.
  revert s. induction entries as [|[n info] rest IH]; intros s.
  - exists []. simpl. by rewrite app_nil_r.
  - rewrite HandleCheat_loop_cons.
    pose proof (HandleCheat_turn_invocations cmd n info s) as Hturn.
    destruct (HandleCheat_loop cmd [(n, info)] s) as [[[]|e] s1];
      simpl in Hturn; cbn [snd].
    + destruct Hturn as [-> | ->].
      * exists []. simpl. rewrite app_nil_r. split; [done|]. apply sublist_nil_l.
      * exists [n]. split; [done|]. apply sublist_skip, sublist_nil_l.
    + destruct (IH s1) as (names & -> & Hsub). destruct Hturn as [-> | ->].
      * exists names. split; [done|]. by apply sublist_cons.
      * exists (n :: names). rewrite <- app_assoc. split; [done|]. by apply sublist_skip.
    + destruct Hturn as [-> | ->].
      * exists []. simpl. rewrite app_nil_r. split; [done|]. apply sublist_nil_l.
      * exists [n]. split; [done|]. apply sublist_skip, sublist_nil_l.
Qed.

(** Building the command object touches neither registry nor record. *)
Lemma make_CheatCommand_frame cheatID cheatText s :
  loadedPlugins (snd (make_CheatCommand cheatID cheatText s)) = loadedPlugins s /\
  invocations (snd (make_CheatCommand cheatID cheatText s)) = invocations s.
Proof.
  unfold make_CheatCommand. exn_unfold.
  destruct (module_import "sc4_types" (py s)) as [[m|e] σ1]; simpl; [|done].
  destruct (getattr m "CheatCommand" σ1) as [[c|e] σ2]; simpl; [|done].
  by destruct (call c _ _ σ2) as [[o|e] σ3].
Qed.

(** [HandleCheat] once the command object is built. *)
Lemma HandleCheat_routed cheatID cheatText s cmd s0 :
  pythonInitialized s = true ->
  make_CheatCommand cheatID cheatText s = (Ok cmd, s0) ->
  HandleCheat order cheatID cheatText s
  = match HandleCheat_loop cmd (enumerate order (loadedPlugins s)) s0 with
    | (Ok claimed, s') => (claimed, s')
    | (Throw _, s') => (false, s')
    end.
Proof.
  intros Hi Hm. unfold HandleCheat. rewrite Hi. simpl.
  unfold try_catch, bind. rewrite Hm.
  destruct (make_CheatCommand_frame cheatID cheatText s) as [Hr _].
  rewrite Hm in Hr. simpl in Hr. by rewrite Hr.
Qed.


(** The route at the entry that follows [pre], when it has passed over
    all of [pre]. *)
Lemma HandleCheat_loop_at cmd pre n info post s :
  (forall a e b, pre = (a ++ e :: b)%list ->
     passes_over cmd e (py (routed_through cmd a s))) ->
  HandleCheat_loop cmd (pre ++ (n, info) :: post) s
  = match HandleCheat_loop cmd [(n, info)] (routed_through cmd pre s) with
    | (Ok false, s1) => HandleCheat_loop cmd post s1
    | other => other
    end.
Proof.
  intros Hpre. apply HandleCheat_loop_exhausted in Hpre.
  rewrite HandleCheat_loop_app. unfold routed_through.
  destruct (HandleCheat_loop cmd pre s) as [r s1]. simpl in Hpre. subst r.
  apply HandleCheat_loop_cons.
Qed.

(** C2, as the code has it. On an initialized manager, once the command
    object is built, [HandleCheat] asks the plugins in enumeration order.
    The first plugin whose handler returns a value that casts to true ends
    the route: the result is true and no later plugin is invoked.  If the
    route passes over every entry (nothing to call there, or the handler
    returned, without raising, a value that casts to false) the result is
    false and every loaded plugin that exposes the handler has been invoked. *)
Theorem HandleCheat_first_match (s s0 : PythonManager) (cheatID : Z)
    (cheatText : string) (cheatCommand : PyObject) :
  pythonInitialized s = true ->
  make_CheatCommand cheatID cheatText s = (Ok cheatCommand, s0) ->
  (forall pre n info post plugin,
     enumerate order (loadedPlugins s) = (pre ++ (n, info) :: post)%list ->
     (forall a e b, pre = (a ++ e :: b)%list ->
        passes_over cheatCommand e (py (routed_through cheatCommand a s0))) ->
     loaded info = true -> instance_ptr info = Some plugin ->
     claims plugin cheatCommand (py (routed_through cheatCommand pre s0)) ->
     fst (HandleCheat order cheatID cheatText s) = true /\
     invocations (snd (HandleCheat order cheatID cheatText s))
     = (invocations (routed_through cheatCommand pre s0)
        ++ [(n, "handle_cheat")])%list) /\
  ((forall a e b,
      enumerate order (loadedPlugins s) = (a ++ e :: b)%list ->
      passes_over cheatCommand e (py (routed_through cheatCommand a s0))) ->
   fst (HandleCheat order cheatID cheatText s) = false /\
   forall pre n info post plugin,
     enumerate order (loadedPlugins s) = (pre ++ (n, info) :: post)%list ->
     loaded info = true -> instance_ptr info = Some plugin ->
     ~ absent plugin "handle_cheat" (py (routed_through cheatCommand pre s0)) ->
     exists later,
       invocations (snd (HandleCheat order cheatID cheatText s))
       = (invocations (routed_through cheatCommand pre s0)
          ++ (n, "handle_cheat") :: later)%list) /\
  (exists names,
     invocations (snd (HandleCheat order cheatID cheatText s))
     = (invocations s ++ map (fun n => (n, "handle_cheat")) names)%list /\
     sublist names (enumerate order (loadedPlugins s)).*1).
Proof.
  intros Hi Hm. rewrite (HandleCheat_routed _ _ _ _ _ Hi Hm).
  split; [|split].
  - intros pre n info post plugin Heq Hpre Hld Hp [Hhas Hans].
    rewrite Heq, (HandleCheat_loop_at _ _ _ _ _ _ Hpre).
    set (s1 := routed_through cheatCommand pre s0) in *.
    destruct (HandleCheat_turn cheatCommand n info s1)
      as [([Hs|Hs] & _)|(p & _ & Hp' & [(Ha & _)|(_ & Hr & Hv)])].
    + congruence.
    + congruence.
    + rewrite Hp in Hp'. injection Hp' as <-. unfold absent in Ha. congruence.
    + rewrite Hp in Hp'. injection Hp' as <-. rewrite Hans in Hr.
      destruct (HandleCheat_loop cheatCommand [(n, info)] s1) as [r s2].
      simpl in Hr, Hv. subst r. by simpl.
  - intros Hall. split.
    + apply HandleCheat_loop_exhausted in Hall.
      destruct (HandleCheat_loop _ _ s0) as [r s']. simpl in Hall. by subst r.
    + intros pre n info post plugin Heq Hld Hp Hex.
      assert (forall a e b, pre = (a ++ e :: b)%list ->
                passes_over cheatCommand e (py (routed_through cheatCommand a s0)))
        as Hpre.
      { intros a e b ->. apply (Hall a e (b ++ (n, info) :: post)%list).
        by rewrite Heq, <- app_assoc. }
      pose proof (Hall pre (n, info) post Heq) as Hthis.
      apply HandleCheat_turn_passes in Hthis.
      rewrite Heq, (HandleCheat_loop_at _ _ _ _ _ _ Hpre).
      set (s1 := routed_through cheatCommand pre s0) in *.
      destruct (HandleCheat_turn cheatCommand n info s1)
        as [([Hs|Hs] & _)|(p & _ & Hp' & [(Ha & _)|(_ & _ & Hv)])].
      * congruence.
      * congruence.
      * rewrite Hp in Hp'. injection Hp' as <-. by destruct Hex.
      * destruct (HandleCheat_loop cheatCommand [(n, info)] s1) as [r s2].
        simpl in Hthis, Hv. subst r.
        destruct (HandleCheat_loop_invocations cheatCommand post s2)
          as (names & Hn & _).
        destruct (HandleCheat_loop cheatCommand post s2) as [[claimed|e] s3];
          simpl in *; rewrite Hn, Hv, <- app_assoc; by eexists.
  - destruct (HandleCheat_loop_invocations cheatCommand
                (enumerate order (loadedPlugins s)) s0) as (names & Hn & Hsub).
    destruct (make_CheatCommand_frame cheatID cheatText s) as [_ Hinv].
    rewrite Hm in Hinv. simpl in Hinv. rewrite Hinv in Hn.
    exists names. split; [|done].
    by destruct (HandleCheat_loop _ _ s0) as [[claimed|e] s'].
Qed.

(** C3, as the code has it. An exception raised by a plugin's
    [handle_cheat] handler is caught by the handler around the whole loop:
    [HandleCheat] returns false at once, and the plugins enumerated after the
    raising one are not invoked. *)
Theorem HandleCheat_exception_aborts (s s0 : PythonManager) (cheatID : Z)
    (cheatText : string) (cheatCommand : PyObject)
    (pre post : list (string * PluginInfo)) (n : string) (info : PluginInfo)
    (plugin : PyObject) :
  pythonInitialized s = true ->
  make_CheatCommand cheatID cheatText s = (Ok cheatCommand, s0) ->
  enumerate order (loadedPlugins s) = (pre ++ (n, info) :: post)%list ->
  (forall a e b, pre = (a ++ e :: b)%list ->
     passes_over cheatCommand e (py (routed_through cheatCommand a s0))) ->
  loaded info = true -> instance_ptr info = Some plugin ->
  raises plugin "handle_cheat" [ArgObj cheatCommand]
    (py (routed_through cheatCommand pre s0)) ->
  fst (HandleCheat order cheatID cheatText s) = false /\
  invocations (snd (HandleCheat order cheatID cheatText s))
  = (invocations (routed_through cheatCommand pre s0) ++ [(n, "handle_cheat")])%list.
Proof.
  intros Hi Hm Heq Hpre Hld Hp Hraise.
  rewrite (HandleCheat_routed _ _ _ _ _ Hi Hm).
  rewrite Heq, (HandleCheat_loop_at _ _ _ _ _ _ Hpre).
  set (s1 := routed_through cheatCommand pre s0) in *.
  destruct (raises_answer _ _ _ Hraise) as [e He].
  destruct (HandleCheat_turn cheatCommand n info s1)
    as [([Hs|Hs] & _)|(p & _ & Hp' & [(Ha & _)|(_ & Hr & Hv)])].
  - congruence.
  - congruence.
  - rewrite Hp in Hp'. injection Hp' as <-.
    by destruct (raises_not_absent _ _ _ _ Hraise).
  - rewrite Hp in Hp'. injection Hp' as <-. rewrite He in Hr.
    destruct (HandleCheat_loop cheatCommand [(n, info)] s1) as [r s2].
    simpl in Hr, Hv. subst r. by simpl.
Qed.


(** The last clause of the routing contract as the design document words
    it: when no handler returns a truthy value, every loaded plugin that
    exposes the handler has been invoked. *)
Definition no_truthy_answer (s : PythonManager) : Prop :=
  forall n info plugin cheatCommand σ,
    In (n, info) (enumerate order (loadedPlugins s)) ->
    instance_ptr info = Some plugin ->
    fst (answer plugin cheatCommand σ) <> Ok true.

Definition invoked_all_exposing (s s' : PythonManager) : Prop :=
  forall n info plugin,
    In (n, info) (enumerate order (loadedPlugins s)) ->
    loaded info = true -> instance_ptr info = Some plugin ->
    ~ absent plugin "handle_cheat" (py s) ->
    In (n, "handle_cheat") (invocations s').

End Cheats.

(** *** Routing on the scripted interpreter *)

(** Two plugins handle cheats; [first] and [second] say what each does. *)
Definition duo (first second : Scripted.behaviour) : Scripted.script :=
  {| Scripted.starts := true;
     Scripted.importable := fun _ => true;
     Scripted.methods := fun inst method =>
       if String.eqb method "handle_cheat" then
         if String.eqb inst "alpha" then Some first
         else if String.eqb inst "beta" then Some second
         else None
       else None |}.

Definition says (b : bool) : Scripted.behaviour := Scripted.Returns (Scripted.Value b).

Example duo_order sc :
  (enumerate Scripted.order (loadedPlugins (hosting sc ["alpha"; "beta"]))).*1
  = ["alpha"; "beta"].
Proof. vm_compute. reflexivity. Qed.

Lemma HandleCheat_first_match_witness :
  (let s := hosting (duo (says true) (says true)) ["alpha"; "beta"] in
   fst (HandleCheat Scripted.order 27024 "fund" s) = true /\
   invocations (snd (HandleCheat Scripted.order 27024 "fund" s))
   = [("alpha", "handle_cheat")]) /\
  (let s := hosting (duo (says false) (says false)) ["alpha"; "beta"] in
   fst (HandleCheat Scripted.order 27024 "fund" s) = false /\
   exists later,
     invocations (snd (HandleCheat Scripted.order 27024 "fund" s))
     = ([("alpha", "handle_cheat")] ++ ("beta", "handle_cheat") :: later)%list).
Proof.
  split; intros s.
  - destruct (HandleCheat_first_match Scripted.order s
                (snd (make_CheatCommand 27024 "fund" s)) 27024 "fund"
                (Scripted.Instance_ "CheatCommand") eq_refl eq_refl)
      as (Hfirst & _ & _).
    destruct (Hfirst [] "alpha" (live_entry _ "alpha") [("beta", live_entry _ "beta")]
                (Scripted.Instance_ "alpha")) as [Hr Hv].
    + vm_compute. reflexivity.
    + intros [|? ?] ? ? ?; discriminate.
    + reflexivity.
    + reflexivity.
    + split; reflexivity.
    + split; [exact Hr | exact Hv].
  - destruct (HandleCheat_first_match Scripted.order s
                (snd (make_CheatCommand 27024 "fund" s)) 27024 "fund"
                (Scripted.Instance_ "CheatCommand") eq_refl eq_refl)
      as (_ & Hnone & _).
    destruct Hnone as [Hr Hall].
    + apply HandleCheat_loop_exhausted. vm_compute. reflexivity.
    + split; [exact Hr|].
      destruct (Hall [("alpha", live_entry _ "alpha")] "beta" (live_entry _ "beta") []
                  (Scripted.Instance_ "beta")) as [later Hlater].
      * vm_compute. reflexivity.
      * reflexivity.
      * reflexivity.
      * unfold absent. vm_compute. discriminate.
      * exists later. exact Hlater.
Defined.

Lemma HandleCheat_exception_aborts_witness :
  let s := hosting (duo (Scripted.Raises "boom") (says true)) ["alpha"; "beta"] in
  raises (python := Scripted.python (duo (Scripted.Raises "boom") (says true)))
    (Scripted.Instance_ "alpha") "handle_cheat"
    [ArgObj (Scripted.Instance_ "CheatCommand")]
    (py (snd (make_CheatCommand 27024 "fund" s))) /\
  fst (HandleCheat Scripted.order 27024 "fund" s) = false /\
  invocations (snd (HandleCheat Scripted.order 27024 "fund" s))
  = [("alpha", "handle_cheat")].
Proof.
  intros s. split; [split; reflexivity|].
  apply (HandleCheat_exception_aborts Scripted.order s
           (snd (make_CheatCommand 27024 "fund" s)) 27024 "fund"
           (Scripted.Instance_ "CheatCommand")
           [] [("beta", live_entry _ "beta")] "alpha" (live_entry _ "alpha")
           (Scripted.Instance_ "alpha")).
  - reflexivity.
  - reflexivity.
  - vm_compute. reflexivity.
  - intros [|? ?] ? ? ?; discriminate.
  - reflexivity.
  - reflexivity.
  - split; reflexivity.
Defined.

(** C3 as stated fails: [alpha] raises, and [beta], enumerated after it,
    loaded and exposing the handler, is not invoked; the route returns false
    although [beta] would have claimed the command. *)
Lemma HandleCheat_exception_skips_later_plugins :
  let s := hosting (duo (Scripted.Raises "boom") (says true)) ["alpha"; "beta"] in
  (enumerate Scripted.order (loadedPlugins s)).*1 = ["alpha"; "beta"] /\
  raises (python := Scripted.python (duo (Scripted.Raises "boom") (says true)))
    (Scripted.Instance_ "alpha") "handle_cheat"
    [ArgObj (Scripted.Instance_ "CheatCommand")]
    (py (snd (make_CheatCommand 27024 "fund" s))) /\
  claims (python := Scripted.python (duo (Scripted.Raises "boom") (says true)))
    (Scripted.Instance_ "beta") (Scripted.Instance_ "CheatCommand")
    (py (snd (HandleCheat Scripted.order 27024 "fund" s))) /\
  ~ In ("beta", "handle_cheat")
      (invocations (snd (HandleCheat Scripted.order 27024 "fund" s))) /\
  fst (HandleCheat Scripted.order 27024 "fund" s) = false.
Proof.
  intros s. split; [vm_compute; reflexivity|].
  split; [split; reflexivity|]. split; [split; reflexivity|].
  split; [|reflexivity].
  vm_compute. intros [Hin|[]]. discriminate.
Qed.

(** Had [alpha] declined instead of raising, [beta] would have been asked
    and the route would have returned true. *)
Example HandleCheat_decline_reaches_later_plugin :
  let s := hosting (duo (says false) (says true)) ["alpha"; "beta"] in
  fst (HandleCheat Scripted.order 27024 "fund" s) = true /\
  invocations (snd (HandleCheat Scripted.order 27024 "fund" s))
  = [("alpha", "handle_cheat"); ("beta", "handle_cheat")].
Proof. split; vm_compute; reflexivity. Qed.

(** C2 as stated fails in its last clause: no handler returns a truthy
    value ([alpha] raises, [beta] would return false), yet [beta], which
    exposes the handler, is not invoked. *)
Lemma HandleCheat_unclaimed_route_skips_plugins :
  let s := hosting (duo (Scripted.Raises "boom") (says false)) ["alpha"; "beta"] in
  no_truthy_answer Scripted.order s /\
  fst (HandleCheat Scripted.order 27024 "fund" s) = false /\
  ~ invoked_all_exposing Scripted.order s (snd (HandleCheat Scripted.order 27024 "fund" s)).
Proof.
  intros s.
  assert (enumerate Scripted.order (loadedPlugins s)
          = [("alpha", live_entry _ "alpha"); ("beta", live_entry _ "beta")])
    as Henum by (vm_compute; reflexivity).
  split; [|split; [vm_compute; reflexivity|]].
  - intros n info plugin cmd σ Hin Hi. rewrite Henum in Hin.
    destruct Hin as [Hin|[Hin|[]]]; injection Hin as <- <-;
      injection Hi as <-; vm_compute; discriminate.
  - intros Hall.
    assert (In ("beta", "handle_cheat")
              (invocations (snd (HandleCheat Scripted.order 27024 "fund" s)))) as Hin.
    { apply (Hall "beta" (live_entry _ "beta") (Scripted.Instance_ "beta")).
      - rewrite Henum. right. left. reflexivity.
      - reflexivity.
      - reflexivity.
      - unfold absent. vm_compute. discriminate. }
    revert Hin. vm_compute. intros [Hin|[]]. discriminate Hin.
Qed.

(** ** Whole runs on the scripted interpreter *)

(** The city-init notification reaches all three plugins although the
    second raises. *)
Example OnCityInit_trio :
  let s := hosting trio ["roads"; "taxes"; "power"] in
  fst (OnCityInit Scripted.order s) = false /\
  invocations (snd (OnCityInit Scripted.order s))
  = [("roads", "on_city_init"); ("taxes", "on_city_init"); ("power", "on_city_init")].
Proof. split; vm_compute; reflexivity. Qed.

(** Generic messages are broadcast: a plugin that reports the message as
    handled does not keep it from the next one. *)
Definition listeners : Scripted.script :=
  {| Scripted.starts := true;
     Scripted.importable := fun _ => true;
     Scripted.methods := fun inst method =>
       if String.eqb method "handle_message" then Some (says true) else None |}.

Example HandleMessage_broadcast :
  let s := hosting listeners ["alpha"; "beta"] in
  fst (HandleMessage Scripted.order 650523461 (Some (1, 2, 3)%Z) s) = true /\
  invocations (snd (HandleMessage Scripted.order 650523461 (Some (1, 2, 3)%Z) s))
  = [("alpha", "handle_message"); ("beta", "handle_message")].
Proof. split; vm_compute; reflexivity. Qed.

(** Start, load, reload, stop. *)
Example lifecycle_run :
  let s0 := Scripted.manager flaky_script (Some mixed_listing) in
  let s1 := snd (Initialize s0) in
  let s2 := snd (LoadPlugins s1) in
  let s3 := snd (ReloadPlugins Scripted.order s2) in
  let s4 := Shutdown Scripted.order s3 in
  IsPythonInitialized s1 = true /\
  (enumerate Scripted.order (loadedPlugins s2)).*1 = ["gamma"; "alpha"] /\
  loadedPlugins s3 = loadedPlugins s2 /\
  loadedPlugins s4 = ∅ /\
  IsPythonInitialized s4 = false.
Proof. repeat split; vm_compute; reflexivity. Qed.

(** * Further properties: frames, life cycle, the facade, the logger, the director *)

(** ** What dispatch leaves alone *)

Section Frames.
Context {python : Python} {host : SC4City}.
Variable order : BucketOrder.

(** [s'] differs from [s] at most in the interpreter state and in the
    invocation record. *)
Definition interpreter_only (s s' : PythonManager) : Prop :=
  s' = set_invocations (invocations s') (set_py (py s') s).

Lemma interpreter_only_refl s : interpreter_only s s.
Proof. by destruct s. Qed.

Lemma interpreter_only_trans s1 s2 s3 :
  interpreter_only s1 s2 -> interpreter_only s2 s3 -> interpreter_only s1 s3.
Proof.
  unfold interpreter_only. intros H12 H23. rewrite H23 at 1. rewrite H12 at 1.
  by destruct s1.
Qed.

Lemma interpreter_only_members s s' :
  interpreter_only s s' ->
  pythonInitialized s' = pythonInitialized s /\
  interpreter s' = interpreter s /\
  loadedPlugins s' = loadedPlugins s /\
  cityWrapper s' = cityWrapper s /\
  lastError s' = lastError s /\
  pluginsDirectory s' = pluginsDirectory s /\
  pluginsDirectoryListing s' = pluginsDirectoryListing s.
Proof. intros ->. by destruct s. Qed.

Lemma in_python_only {A} (op : PyState -> Result A * PyState) s :
  interpreter_only s (snd (in_python op s)).
Proof. unfold in_python. destruct (op (py s)). by destruct s. Qed.

Lemma CallPluginMethod_only n m s :
  interpreter_only s (snd (CallPluginMethod n m s)).
Proof.
  unfold CallPluginMethod.
  destruct (loadedPlugins s !! n) as [info|]; [|apply interpreter_only_refl].
  destruct (loaded info), (instance_ptr info) as [o|]; try apply interpreter_only_refl.
  exn_unfold. destruct (hasattr o m (py s)) as [[] σ]; simpl.
  - destruct (call_method o m [] σ) as [[] ?]; simpl; by destruct s.
  - by destruct s.
Qed.

Lemma CallAllPlugins_loop_only m entries b s :
  interpreter_only s (snd (CallAllPlugins_loop m entries b s)).
Proof.
  revert b s. induction entries as [|[n info] rest IH]; intros b s; simpl.
  - apply interpreter_only_refl.
  - destruct (loaded info); [|apply IH].
    pose proof (CallPluginMethod_only n m s) as Hstep.
    destruct (CallPluginMethod n m s) as [ok s1]. simpl in Hstep.
    eapply interpreter_only_trans; [exact Hstep | apply IH].
Qed.

Lemma HandleCheat_turn_only cmd n info s :
  interpreter_only s (snd (HandleCheat_loop cmd [(n, info)] s)).
Proof.
  simpl. destruct (loaded info), (instance_ptr info) as [plugin|];
    try apply interpreter_only_refl.
  exn_unfold. destruct (hasattr plugin "handle_cheat" (py s)) as [[] σ]; simpl;
    [|by destruct s].
  destruct (call_method plugin "handle_cheat" [ArgObj cmd] σ) as [[r|e] σ1]; simpl;
    [|by destruct s].
  destruct (cast_bool r σ1) as [[[]|e] σ2]; simpl; by destruct s.
Qed.

Lemma HandleCheat_loop_only cmd entries s :
  interpreter_only s (snd (HandleCheat_loop cmd entries s)).
Proof.
  revert s. induction entries as [|[n info] rest IH]; intros s.
  - apply interpreter_only_refl.
  - rewrite HandleCheat_loop_cons.
    pose proof (HandleCheat_turn_only cmd n info s) as Hturn.
    destruct (HandleCheat_loop cmd [(n, info)] s) as [[[]|e] s1]; simpl in Hturn;
      try exact Hturn.
    eapply interpreter_only_trans; [exact Hturn | apply IH].
Qed.

Lemma make_CheatCommand_only cheatID cheatText s :
  interpreter_only s (snd (make_CheatCommand cheatID cheatText s)).
Proof.
  unfold make_CheatCommand. exn_unfold.
  destruct (module_import "sc4_types" (py s)) as [[m|e] σ1]; simpl; [|by destruct s].
  destruct (getattr m "CheatCommand" σ1) as [[c|e] σ2]; simpl; [|by destruct s].
  destruct (call c _ _ σ2) as [[o|e] σ3]; simpl; by destruct s.
Qed.

Lemma HandleCheat_only cheatID cheatText s :
  interpreter_only s (snd (HandleCheat order cheatID cheatText s)).
Proof.
  unfold HandleCheat. destruct (pythonInitialized s); simpl;
    [|apply interpreter_only_refl].
  unfold try_catch, bind.
  pose proof (make_CheatCommand_only cheatID cheatText s) as Hmake.
  destruct (make_CheatCommand cheatID cheatText s) as [[cmd|e] s0]; simpl in Hmake;
    [|exact Hmake].
  pose proof (HandleCheat_loop_only cmd (enumerate order (loadedPlugins s0)) s0) as Hloop.
  destruct (HandleCheat_loop cmd _ s0) as [[b|e] s1]; simpl in *;
    eapply interpreter_only_trans; eauto.
Qed.


(** *** The message loop *)

(** Building the [SC4Message] object handed to the plugins. *)
Definition make_SC4Message (messageType : Z) (pMessage : option (Z * Z * Z))
    : Exn PyObject :=
  bind (in_python (module_import "sc4_types")) (fun sc4_types =>
  bind (in_python (getattr sc4_types "SC4Message")) (fun SC4Message =>
  in_python (call SC4Message []
               (("message_type", ArgUInt messageType) ::
                match pMessage with
                | Some (d1, d2, d3) =>
                    [("data1", ArgUInt d1); ("data2", ArgUInt d2); ("data3", ArgUInt d3)]
                | None => []
                end)))).

Lemma make_SC4Message_only messageType pMessage s :
  interpreter_only s (snd (make_SC4Message messageType pMessage s)) /\
  invocations (snd (make_SC4Message messageType pMessage s)) = invocations s.
Proof.
  unfold make_SC4Message. exn_unfold.
  destruct (module_import "sc4_types" (py s)) as [[m|e] σ1]; simpl; [|by destruct s].
  destruct (getattr m "SC4Message" σ1) as [[c|e] σ2]; simpl; [|by destruct s].
  destruct (call c _ _ σ2) as [[o|e] σ3]; simpl; by destruct s.
Qed.

(** [HandleMessage] once the message object is built, or not. *)
Lemma HandleMessage_built messageType pMessage s :
  pythonInitialized s = true ->
  HandleMessage order messageType pMessage s
  = match make_SC4Message messageType pMessage s with
    | (Ok sc4Message, s0) =>
        match HandleMessage_loop sc4Message (enumerate order (loadedPlugins s0)) s0 with
        | (Ok _, s') => (true, s')
        | (Throw _, s') => (false, s')
        end
    | (Throw _, s0) => (false, s0)
    end.
Proof.
  intros Hi. unfold HandleMessage, make_SC4Message. rewrite Hi. simpl.
  unfold try_catch, bind.
  destruct (in_python (module_import "sc4_types") s) as [[m|e] s1]; [|reflexivity].
  destruct (in_python (getattr m "SC4Message") s1) as [[c|e] s2]; [|reflexivity].
  destruct (in_python (call c _ _) s2) as [[o|e] s3]; [|reflexivity].
  unfold ret. by destruct (HandleMessage_loop o _ s3) as [[[]|e] s4].
Qed.

(** What a plugin that has the handler answers to a message. *)
Definition message_answer (plugin sc4Message : PyObject) (σ : PyState)
    : Result bool * PyState :=
  match call_method plugin "handle_message" [ArgObj sc4Message] σ with
  | (Ok result, σ') => cast_bool result σ'
  | (Throw e, σ') => (Throw e, σ')
  end.

Lemma HandleMessage_loop_cons msg entry rest s :
  HandleMessage_loop msg (entry :: rest) s
  = match HandleMessage_loop msg [entry] s with
    | (Ok _, s1) => HandleMessage_loop msg rest s1
    | (Throw e, s1) => (Throw e, s1)
    end.
Proof.
  destruct entry as [n info]. simpl.
  destruct (loaded info), (instance_ptr info) as [plugin|]; try reflexivity.
  exn_unfold. destruct (hasattr plugin "handle_message" (py s)) as [[] σ]; simpl;
    [|reflexivity].
  destruct (call_method plugin "handle_message" [ArgObj msg] σ) as [[r|e] σ1]; simpl;
    [|reflexivity].
  destruct (cast_bool r σ1) as [[b|e] σ2]; reflexivity.
Qed.

(** The single turn of the message loop, by cases. *)
Lemma HandleMessage_turn msg n info s :
  ((loaded info = false \/ instance_ptr info = None) /\
   HandleMessage_loop msg [(n, info)] s = (Ok tt, s)) \/
  exists plugin,
    loaded info = true /\ instance_ptr info = Some plugin /\
    ((absent plugin "handle_message" (py s) /\
      fst (HandleMessage_loop msg [(n, info)] s) = Ok tt /\
      invocations (snd (HandleMessage_loop msg [(n, info)] s)) = invocations s) \/
     (~ absent plugin "handle_message" (py s) /\
      is_ok (fst (HandleMessage_loop msg [(n, info)] s))
      = is_ok (fst (message_answer plugin msg
                      (snd (hasattr plugin "handle_message" (py s))))) /\
      invocations (snd (HandleMessage_loop msg [(n, info)] s))
      = (invocations s ++ [(n, "handle_message")])%list)).
Proof.
  simpl. destruct (loaded info) eqn:Hld; [|left; auto].
  destruct (instance_ptr info) as [plugin|] eqn:Hi; [|left; auto].
  right. exists plugin. split; [done|]. split; [done|].
  unfold absent, message_answer. exn_unfold.
  destruct (hasattr plugin "handle_message" (py s)) as [[] σ]; simpl; [right|left; auto].
  split; [done|].
  destruct (call_method plugin "handle_message" [ArgObj msg] σ) as [[r|e] σ1]; simpl;
    [|auto].
  destruct (cast_bool r σ1) as [[b|e] σ2]; auto.
Qed.

Lemma HandleMessage_turn_only msg n info s :
  interpreter_only s (snd (HandleMessage_loop msg [(n, info)] s)).
Proof.
  simpl. destruct (loaded info), (instance_ptr info) as [plugin|];
    try apply interpreter_only_refl.
  exn_unfold. destruct (hasattr plugin "handle_message" (py s)) as [[] σ]; simpl;
    [|by destruct s].
  destruct (call_method plugin "handle_message" [ArgObj msg] σ) as [[r|e] σ1]; simpl;
    [|by destruct s].
  destruct (cast_bool r σ1) as [[b|e] σ2]; simpl; by destruct s.
Qed.

Lemma HandleMessage_loop_only msg entries s :
  interpreter_only s (snd (HandleMessage_loop msg entries s)).
Proof.
  revert s. induction entries as [|[n info] rest IH]; intros s.
  - apply interpreter_only_refl.
  - rewrite HandleMessage_loop_cons.
    pose proof (HandleMessage_turn_only msg n info s) as Hturn.
    destruct (HandleMessage_loop msg [(n, info)] s) as [[[]|e] s1]; simpl in Hturn;
      try exact Hturn.
    eapply interpreter_only_trans; [exact Hturn | apply IH].
Qed.

Lemma HandleMessage_only messageType pMessage s :
  interpreter_only s (snd (HandleMessage order messageType pMessage s)).
Proof.
  destruct (pythonInitialized s) eqn:Hi.
  2:{ unfold HandleMessage. rewrite Hi. apply interpreter_only_refl. }
  rewrite (HandleMessage_built _ _ _ Hi).
  destruct (make_SC4Message_only messageType pMessage s) as [Hmake _].
  destruct (make_SC4Message messageType pMessage s) as [[msg|e] s0]; simpl in Hmake;
    [|exact Hmake].
  pose proof (HandleMessage_loop_only msg (enumerate order (loadedPlugins s0)) s0) as Hloop.
  destruct (HandleMessage_loop msg _ s0) as [[b|e] s1]; simpl in *;
    eapply interpreter_only_trans; eauto.
Qed.

(** X1. Whatever the plugins do, [CallPluginMethod], [CallAllPlugins],
    [HandleCheat], [HandleMessage] and [OnCityShutdown] change nothing of
    the manager but the interpreter's state (and the record of the handlers
    invoked): the initialized flag, the registry, the city wrapper, the
    last error and the plugin directory are as they were. *)
Theorem dispatch_changes_interpreter_only (s : PythonManager) :
  (forall pluginName method,
     interpreter_only s (snd (CallPluginMethod pluginName method s))) /\
  (forall method, interpreter_only s (snd (CallAllPlugins order method s))) /\
  (forall cheatID cheatText,
     interpreter_only s (snd (HandleCheat order cheatID cheatText s))) /\
  (forall messageType pMessage,
     interpreter_only s (snd (HandleMessage order messageType pMessage s))) /\
  interpreter_only s (snd (OnCityShutdown order s)).
Proof.
  split; [|split; [|split; [|split]]].
  - intros. apply CallPluginMethod_only.
  - intros. apply CallAllPlugins_loop_only.
  - intros. apply HandleCheat_only.
  - intros. apply HandleMessage_only.
  - unfold OnCityShutdown. destruct (pythonInitialized s); simpl.
    + apply CallAllPlugins_loop_only.
    + apply interpreter_only_refl.
Qed.


(** *** Generic messages are broadcast *)

(** The message loop moves on from an entry: nothing to call there, or the
    handler returned a value that casts to [bool], whichever. *)
Definition lets_through (sc4Message : PyObject) (entry : string * PluginInfo)
    (σ : PyState) : Prop :=
  loaded entry.2 = false \/
  instance_ptr entry.2 = None \/
  exists plugin, instance_ptr entry.2 = Some plugin /\
    (absent plugin "handle_message" σ \/
     is_ok (fst (message_answer plugin sc4Message
                   (snd (hasattr plugin "handle_message" σ)))) = true).

(** The state the broadcast has reached once the entries [pre] are behind it. *)
Definition delivered_through (sc4Message : PyObject)
    (pre : list (string * PluginInfo)) (s : PythonManager) : PythonManager :=
  snd (HandleMessage_loop sc4Message pre s).

Lemma HandleMessage_turn_ok msg n info s :
  is_ok (fst (HandleMessage_loop msg [(n, info)] s)) = true <->
  lets_through msg (n, info) (py s).
Proof.
  unfold lets_through. cbn [snd].
  destruct (HandleMessage_turn msg n info s)
    as [([Hs|Hs] & ->)|(plugin & Hld & Hi & [(Ha & -> & _)|(Hna & -> & _)])].
  - split; auto.
  - split; auto.
  - split; [|done]. intros _. right. right. exists plugin. auto.
  - split.
    + intros Ht. right. right. exists plugin. auto.
    + intros [|[|(p & Hp & [Ha|Hd])]]; try congruence;
        rewrite Hi in Hp; by simplify_eq.
Qed.

Lemma delivered_through_cons msg entry pre s u s1 :
  HandleMessage_loop msg [entry] s = (Ok u, s1) ->
  delivered_through msg (entry :: pre) s = delivered_through msg pre s1.
Proof.
  intros Ht. unfold delivered_through. by rewrite HandleMessage_loop_cons, Ht.
Qed.

Lemma HandleMessage_loop_ok msg entries s :
  is_ok (fst (HandleMessage_loop msg entries s)) = true <->
  forall a e b, entries = (a ++ e :: b)%list ->
    lets_through msg e (py (delivered_through msg a s)).
Proof.
  revert s. induction entries as [|[n info] rest IH]; intros s.
  - split; [|done]. intros _ [|? ?] ? ? ?; discriminate.
  - rewrite HandleMessage_loop_cons.
    destruct (HandleMessage_loop msg [(n, info)] s) as [r s1] eqn:Ht.
    assert (is_ok r = true <-> lets_through msg (n, info) (py s)) as Hturn.
    { rewrite <- HandleMessage_turn_ok. by rewrite Ht. }
    destruct r as [u|e]; simpl in Hturn.
    + rewrite IH. split.
      * intros Hall [|e' a] e b Heq; cbn [app] in Heq; injection Heq as ? ?; subst.
        -- by apply Hturn.
        -- rewrite (delivered_through_cons _ _ _ _ _ _ Ht). by eapply Hall.
      * intros Hall a e b ->.
        specialize (Hall ((n, info) :: a) e b eq_refl).
        by rewrite (delivered_through_cons _ _ _ _ _ _ Ht) in Hall.
    + split; [discriminate|]. intros Hall.
      apply Hturn. by apply (Hall [] (n, info) rest).
Qed.

Lemma HandleMessage_loop_app msg pre rest s :
  HandleMessage_loop msg (pre ++ rest) s
  = match HandleMessage_loop msg pre s with
    | (Ok _, s1) => HandleMessage_loop msg rest s1
    | (Throw e, s1) => (Throw e, s1)
    end.
Proof.
  revert s. induction pre as [|entry pre IH]; intros s; [reflexivity|].
  simpl app. rewrite (HandleMessage_loop_cons msg entry (pre ++ rest)).
  rewrite (HandleMessage_loop_cons msg entry pre).
  destruct (HandleMessage_loop msg [entry] s) as [[u|e] s1]; [apply IH | reflexivity].
Qed.

Lemma HandleMessage_loop_at msg pre n info post s :
  (forall a e b, pre = (a ++ e :: b)%list ->
     lets_through msg e (py (delivered_through msg a s))) ->
  HandleMessage_loop msg (pre ++ (n, info) :: post) s
  = match HandleMessage_loop msg [(n, info)] (delivered_through msg pre s) with
    | (Ok _, s1) => HandleMessage_loop msg post s1
    | (Throw e, s1) => (Throw e, s1)
    end.
Proof.
  intros Hpre. apply HandleMessage_loop_ok in Hpre.
  rewrite HandleMessage_loop_app. unfold delivered_through.
  destruct (HandleMessage_loop msg pre s) as [[u|e] s1]; [|discriminate].
  apply HandleMessage_loop_cons.
Qed.

Lemma HandleMessage_loop_invocations msg entries s :
  exists names,
    invocations (snd (HandleMessage_loop msg entries s))
    = (invocations s ++ map (fun n => (n, "handle_message")) names)%list /\
    sublist names entries.*1.
Proof.
  revert s. induction entries as [|[n info] rest IH]; intros s.
  - exists []. simpl. by rewrite app_nil_r.
  - rewrite HandleMessage_loop_cons.
    assert (invocations (snd (HandleMessage_loop msg [(n, info)] s)) = invocations s \/
            invocations (snd (HandleMessage_loop msg [(n, info)] s))
            = (invocations s ++ [(n, "handle_message")])%list) as Hturn.
    { destruct (HandleMessage_turn msg n info s)
        as [(_ & ->)|(plugin & _ & _ & [(_ & _ & ->)|(_ & _ & ->)])]; auto. }
    destruct (HandleMessage_loop msg [(n, info)] s) as [[u|e] s1];
      simpl in Hturn; cbn [snd].
    + destruct (IH s1) as (names & -> & Hsub). destruct Hturn as [-> | ->].
      * exists names. split; [done|]. by apply sublist_cons.
      * exists (n :: names). rewrite <- app_assoc. split; [done|]. by apply sublist_skip.
    + destruct Hturn as [-> | ->].
      * exists []. simpl. rewrite app_nil_r. split; [done|]. apply sublist_nil_l.
      * exists [n]. split; [done|]. apply sublist_skip, sublist_nil_l.
Qed.

(** X2. On an initialized manager whose message object is built,
    [HandleMessage] returns true exactly when every registry entry, taken
    in enumeration order, lets the message through: it is not loaded, holds
    no instance, has no [handle_message], or its handler returns a value
    that converts to [bool].  When it returns true, every loaded plugin that
    exposes [handle_message] has been invoked, whatever the handlers before
    it answered: a message is broadcast, not claimed. *)
Theorem HandleMessage_reaches_every_plugin (s s0 : PythonManager) (messageType : Z)
    (pMessage : option (Z * Z * Z)) (sc4Message : PyObject) :
  pythonInitialized s = true ->
  make_SC4Message messageType pMessage s = (Ok sc4Message, s0) ->
  (fst (HandleMessage order messageType pMessage s) = true <->
   forall a e b,
     enumerate order (loadedPlugins s) = (a ++ e :: b)%list ->
     lets_through sc4Message e (py (delivered_through sc4Message a s0))) /\
  (fst (HandleMessage order messageType pMessage s) = true ->
   forall pre n info post plugin,
     enumerate order (loadedPlugins s) = (pre ++ (n, info) :: post)%list ->
     loaded info = true -> instance_ptr info = Some plugin ->
     ~ absent plugin "handle_message" (py (delivered_through sc4Message pre s0)) ->
     exists later,
       invocations (snd (HandleMessage order messageType pMessage s))
       = (invocations (delivered_through sc4Message pre s0)
          ++ (n, "handle_message") :: later)%list).
Proof.
  intros Hi Hm.
  destruct (make_SC4Message_only messageType pMessage s) as [Hframe _].
  rewrite Hm in Hframe. simpl in Hframe.
  apply interpreter_only_members in Hframe as (_ & _ & Hreg & _).
  assert (fst (HandleMessage order messageType pMessage s) = true <->
          forall a e b,
            enumerate order (loadedPlugins s) = (a ++ e :: b)%list ->
            lets_through sc4Message e (py (delivered_through sc4Message a s0))) as Hiff.
  { rewrite (HandleMessage_built _ _ _ Hi), Hm, Hreg.
    rewrite <- HandleMessage_loop_ok.
    by destruct (HandleMessage_loop sc4Message _ s0) as [[u|e] s1]. }
  split; [exact Hiff|].
  intros Htrue pre n info post plugin Heq Hld Hp Hex.
  pose proof (proj1 Hiff Htrue) as Hall.
  assert (forall a e b, pre = (a ++ e :: b)%list ->
            lets_through sc4Message e (py (delivered_through sc4Message a s0))) as Hpre.
  { intros a e b ->. apply (Hall a e (b ++ (n, info) :: post)%list).
    by rewrite Heq, <- app_assoc. }
  pose proof (Hall pre (n, info) post Heq) as Hthis.
  apply HandleMessage_turn_ok in Hthis.
  rewrite (HandleMessage_built _ _ _ Hi), Hm, Hreg.
  rewrite Heq, (HandleMessage_loop_at _ _ _ _ _ _ Hpre).
  set (s1 := delivered_through sc4Message pre s0) in *.
  destruct (HandleMessage_turn sc4Message n info s1)
    as [([Hs|Hs] & _)|(p & _ & Hp' & [(Ha & _)|(_ & _ & Hv)])].
  - congruence.
  - congruence.
  - rewrite Hp in Hp'. injection Hp' as <-. by destruct Hex.
  - destruct (HandleMessage_loop sc4Message [(n, info)] s1) as [[u|e] s2];
      [|discriminate].
    simpl in Hv.
    destruct (HandleMessage_loop_invocations sc4Message post s2) as (names & Hn & _).
    destruct (HandleMessage_loop sc4Message post s2) as [[u'|e] s3];
      simpl in *; rewrite Hn, Hv, <- app_assoc; by eexists.
Qed.

(** X3. If the entries enumerated before a plugin let the message
    through and that plugin's [handle_message] raises, or returns a value
    that does not convert to [bool], then [HandleMessage] returns false and
    that handler is the last one invoked: the plugins enumerated after it
    do not see the message. *)
Theorem HandleMessage_exception_aborts (s s0 : PythonManager) (messageType : Z)
    (pMessage : option (Z * Z * Z)) (sc4Message : PyObject)
    (pre post : list (string * PluginInfo)) (n : string) (info : PluginInfo)
    (plugin : PyObject) :
  pythonInitialized s = true ->
  make_SC4Message messageType pMessage s = (Ok sc4Message, s0) ->
  enumerate order (loadedPlugins s) = (pre ++ (n, info) :: post)%list ->
  (forall a e b, pre = (a ++ e :: b)%list ->
     lets_through sc4Message e (py (delivered_through sc4Message a s0))) ->
  loaded info = true -> instance_ptr info = Some plugin ->
  ~ absent plugin "handle_message" (py (delivered_through sc4Message pre s0)) ->
  is_ok (fst (message_answer plugin sc4Message
                (snd (hasattr plugin "handle_message"
                        (py (delivered_through sc4Message pre s0)))))) = false ->
  fst (HandleMessage order messageType pMessage s) = false /\
  invocations (snd (HandleMessage order messageType pMessage s))
  = (invocations (delivered_through sc4Message pre s0)
     ++ [(n, "handle_message")])%list.
Proof.
  intros Hi Hm Heq Hpre Hld Hp Hex Hfail.
  destruct (make_SC4Message_only messageType pMessage s) as [Hframe _].
  rewrite Hm in Hframe. simpl in Hframe.
  apply interpreter_only_members in Hframe as (_ & _ & Hreg & _).
  rewrite (HandleMessage_built _ _ _ Hi), Hm, Hreg.
  rewrite Heq, (HandleMessage_loop_at _ _ _ _ _ _ Hpre).
  set (s1 := delivered_through sc4Message pre s0) in *.
  destruct (HandleMessage_turn sc4Message n info s1)
    as [([Hs|Hs] & _)|(p & _ & Hp' & [(Ha & _)|(_ & Hr & Hv)])].
  - congruence.
  - congruence.
  - rewrite Hp in Hp'. injection Hp' as <-. by destruct Hex.
  - rewrite Hp in Hp'. injection Hp' as <-. rewrite Hfail in Hr.
    destruct (HandleMessage_loop sc4Message [(n, info)] s1) as [[u|e] s2];
      [discriminate|]. by simpl in *.
Qed.

End Frames.

(** ** Start-up, shutdown and the registry *)

Section Lifecycle.
Context {python : Python} {host : SC4City}.
Variable order : BucketOrder.

(** What start-up and loading never touch. *)
Definition surroundings_kept (s s' : PythonManager) : Prop :=
  cityWrapper s' = cityWrapper s /\
  invocations s' = invocations s /\
  pluginsDirectory s' = pluginsDirectory s /\
  pluginsDirectoryListing s' = pluginsDirectoryListing s.

Lemma Initialize_kept s :
  surroundings_kept s (snd (Initialize s)) /\
  loadedPlugins (snd (Initialize s)) = loadedPlugins s.
Proof.
  unfold Initialize, surroundings_kept.
  destruct (pythonInitialized s); [done|].
  unfold make_interpreter, SetupPythonPaths, SetupPythonEnvironment,
    LoadPythonBootstrap, SetupPythonLogging, GetPluginsDirectory.
  exn_unfold. destruct (interpreter s) eqn:Hheld; simpl; [done|].
  repeat python_case; rewrite ?Hheld; done.
Qed.

Lemma Initialize_interpreter s :
  fst (Initialize s) = true -> pythonInitialized s = false ->
  interpreter (snd (Initialize s)) = true.
Proof.
  intros Ht Hu. revert Ht. unfold Initialize. rewrite Hu.
  unfold make_interpreter, SetupPythonPaths, SetupPythonEnvironment,
    LoadPythonBootstrap, SetupPythonLogging, GetPluginsDirectory.
  exn_unfold. destruct (interpreter s) eqn:Hheld; simpl; [done|].
  repeat python_case; rewrite ?Hheld; done.
Qed.

(** The last error after [Initialize]. *)
Lemma Initialize_lastError s :
  (fst (Initialize s) = true -> lastError (snd (Initialize s)) = lastError s) /\
  (fst (Initialize s) = false ->
   lastError (snd (Initialize s)) = "Failed to import native module" \/
   lastError (snd (Initialize s)) = "Failed to setup Python paths" \/
   lastError (snd (Initialize s)) = "Failed to load Python bootstrap code" \/
   exists what,
     lastError (snd (Initialize s)) = "Python initialization failed: " +:+ what).
Proof.
  unfold Initialize. destruct (pythonInitialized s); [by split|].
  unfold make_interpreter, SetupPythonPaths, SetupPythonEnvironment,
    LoadPythonBootstrap, SetupPythonLogging, GetPluginsDirectory.
  exn_unfold. destruct (interpreter s) eqn:Hheld; simpl;
    [split; [done|intros _; eauto 6]|].
  repeat python_case;
    (split; [try done|try done; intros _; eauto 6]).
Qed.


(** X4. [Initialize] returns exactly the initialized flag it leaves
    behind.  It never touches the registry, the city wrapper, the plugin
    directory or the record of invoked handlers, and a call that returns
    true leaves the last error as it was. *)
Theorem Initialize_effect (s : PythonManager) :
  fst (Initialize s) = IsPythonInitialized (snd (Initialize s)) /\
  loadedPlugins (snd (Initialize s)) = loadedPlugins s /\
  surroundings_kept s (snd (Initialize s)) /\
  (fst (Initialize s) = true -> lastError (snd (Initialize s)) = lastError s).
Proof.
  destruct (Initialize_kept s) as [Hk Hr].
  split; [|split; [exact Hr|split; [exact Hk|apply Initialize_lastError]]].
  unfold IsPythonInitialized. destruct (fst (Initialize s)) eqn:Hf.
  - symmetry. by apply Initialize_true_flag.
  - symmetry. by apply Initialize_false_flag.
Qed.


(** *** Unloading *)

(** What unloading never touches. *)
Definition session_kept (s s' : PythonManager) : Prop :=
  pythonInitialized s' = pythonInitialized s /\
  interpreter s' = interpreter s /\
  cityWrapper s' = cityWrapper s /\
  lastError s' = lastError s /\
  pluginsDirectory s' = pluginsDirectory s /\
  pluginsDirectoryListing s' = pluginsDirectoryListing s.

Lemma session_kept_refl s : session_kept s s.
Proof. by repeat split. Qed.

Lemma session_kept_trans s1 s2 s3 :
  session_kept s1 s2 -> session_kept s2 s3 -> session_kept s1 s3.
Proof.
  intros (?&?&?&?&?&?) (?&?&?&?&?&?). repeat split; congruence.
Qed.

Lemma interpreter_only_session s s' : interpreter_only s s' -> session_kept s s'.
Proof. intros H. apply interpreter_only_members in H. unfold session_kept. tauto. Qed.

(** One turn of the loop of [UnloadPlugins]. *)
Definition unload_turn (entry : string * PluginInfo) (s : PythonManager)
    : PythonManager :=
  UnloadPlugins_loop [entry] s.

Lemma UnloadPlugins_loop_cons entry rest s :
  UnloadPlugins_loop (entry :: rest) s = UnloadPlugins_loop rest (unload_turn entry s).
Proof.
  destruct entry as [n info]. unfold unload_turn. simpl.
  destruct (loaded info), (instance_ptr info); try reflexivity.
  by destruct (CallPluginMethod n "shutdown" s).
Qed.

Lemma UnloadPlugins_loop_app pre post s :
  UnloadPlugins_loop (pre ++ post) s = UnloadPlugins_loop post (UnloadPlugins_loop pre s).
Proof.
  revert s. induction pre as [|entry pre IH]; intros s; [reflexivity|].
  simpl app. by rewrite !UnloadPlugins_loop_cons, IH.
Qed.

Lemma unload_turn_cases n info s :
  ((loaded info = false \/ instance_ptr info = None) /\ unload_turn (n, info) s = s) \/
  exists plugin s1,
    loaded info = true /\ instance_ptr info = Some plugin /\
    s1 = snd (CallPluginMethod n "shutdown" s) /\
    unload_turn (n, info) s
    = set_loadedPlugins (<[n := released info]> (loadedPlugins s1))
        (set_py (dec_ref plugin (py s1)) s1).
Proof.
  unfold unload_turn. simpl.
  destruct (loaded info) eqn:Hld; [|left; auto].
  destruct (instance_ptr info) as [plugin|] eqn:Hi; [|left; auto].
  right. exists plugin, (snd (CallPluginMethod n "shutdown" s)).
  by destruct (CallPluginMethod n "shutdown" s).
Qed.

Lemma unload_turn_kept entry s :
  session_kept s (unload_turn entry s) /\
  (forall k, k <> entry.1 ->
     loadedPlugins (unload_turn entry s) !! k = loadedPlugins s !! k) /\
  (invocations (unload_turn entry s) = invocations s \/
   invocations (unload_turn entry s) = (invocations s ++ [(entry.1, "shutdown")])%list).
Proof.
  destruct entry as [n info]. cbn [fst].
  destruct (unload_turn_cases n info s)
    as [(_ & ->)|(plugin & s1 & _ & _ & -> & ->)].
  - split; [apply session_kept_refl|]. split; [done|by left].
  - pose proof (CallPluginMethod_only n "shutdown" s) as Hstep.
    pose proof (CallPluginMethod_invocations n "shutdown" s) as Hinv.
    apply interpreter_only_members in Hstep as (?&?&Hreg&?&?&?&?).
    split; [by repeat split|]. split; [|exact Hinv].
    intros k Hk. simpl. rewrite lookup_insert_ne by done. by rewrite Hreg.
Qed.

Lemma UnloadPlugins_loop_kept entries s :
  session_kept s (UnloadPlugins_loop entries s) /\
  (forall k, k ∉ entries.*1 ->
     loadedPlugins (UnloadPlugins_loop entries s) !! k = loadedPlugins s !! k) /\
  exists names,
    invocations (UnloadPlugins_loop entries s)
    = (invocations s ++ map (fun n => (n, "shutdown")) names)%list /\
    sublist names entries.*1.
Proof.
  revert s. induction entries as [|entry rest IH]; intros s.
  - split; [apply session_kept_refl|]. split; [done|].
    exists []. simpl. by rewrite app_nil_r.
  - rewrite UnloadPlugins_loop_cons.
    destruct (unload_turn_kept entry s) as (Hk & Hreg & Hinv).
    destruct (IH (unload_turn entry s)) as (Hk' & Hreg' & names & Hn & Hsub).
    split; [by eapply session_kept_trans|]. split.
    + intros k Hnotin. rewrite fmap_cons, not_elem_of_cons in Hnotin.
      destruct Hnotin as [Hne Hnotin]. rewrite Hreg' by done. by apply Hreg.
    + rewrite Hn. destruct Hinv as [-> | ->].
      * exists names. split; [done|]. by apply sublist_cons.
      * exists (entry.1 :: names). rewrite <- app_assoc. split; [done|].
        by apply sublist_skip.
Qed.

Lemma UnloadPlugins_shuts_down_kept s :
  loadedPlugins (UnloadPlugins order s) = ∅ /\
  session_kept s (UnloadPlugins order s).
Proof.
  split; [reflexivity|]. unfold UnloadPlugins.
  destruct (UnloadPlugins_loop_kept (enumerate order (loadedPlugins s)) s) as (Hk & _).
  destruct Hk as (?&?&?&?&?&?). by repeat split.
Qed.

(** X6. [UnloadPlugins] empties the registry and keeps the initialized
    flag, the interpreter, the city wrapper, the last error and the plugin
    directory.  The handlers it invokes are [shutdown] handlers only, of
    registered plugins, in enumeration order and at most once per plugin;
    and every loaded plugin that exposes [shutdown] is invoked, also after
    an earlier plugin's [shutdown] has raised. *)
Theorem UnloadPlugins_shuts_down_each (s : PythonManager) :
  loadedPlugins (UnloadPlugins order s) = ∅ /\
  session_kept s (UnloadPlugins order s) /\
  (exists names,
     invocations (UnloadPlugins order s)
     = (invocations s ++ map (fun n => (n, "shutdown")) names)%list /\
     sublist names (enumerate order (loadedPlugins s)).*1 /\ NoDup names) /\
  (forall pre n info post plugin,
     enumerate order (loadedPlugins s) = (pre ++ (n, info) :: post)%list ->
     loaded info = true -> instance_ptr info = Some plugin ->
     ~ absent plugin "shutdown" (py (UnloadPlugins_loop pre s)) ->
     exists later,
       invocations (UnloadPlugins order s)
       = (invocations (UnloadPlugins_loop pre s) ++ (n, "shutdown") :: later)%list).
Proof.
  unfold UnloadPlugins.
  destruct (UnloadPlugins_loop_kept (enumerate order (loadedPlugins s)) s)
    as (Hk & _ & names & Hn & Hsub).
  split; [reflexivity|]. split; [exact Hk|]. split.
  - exists names. split; [exact Hn|]. split; [exact Hsub|].
    eapply sublist_NoDup; [|exact Hsub]. apply enumerate_names_NoDup.
  - intros pre n info post plugin Heq Hld Hi Hex. simpl.
    rewrite Heq, UnloadPlugins_loop_app, UnloadPlugins_loop_cons.
    set (s1 := UnloadPlugins_loop pre s) in *.
    assert (loadedPlugins s1 !! n = Some info) as Hl.
    { destruct (UnloadPlugins_loop_kept pre s) as (_ & Hreg & _).
      unfold s1. rewrite Hreg; [by eapply enumerate_split_lookup|].
      pose proof (enumerate_names_NoDup order (loadedPlugins s)) as Hnd.
      rewrite Heq, fmap_app, fmap_cons in Hnd.
      apply NoDup_app in Hnd as (_ & Hdisj & _).
      intros Hin. apply (Hdisj n Hin). apply elem_of_cons. by left. }
    destruct (UnloadPlugins_loop_kept post (unload_turn (n, info) s1))
      as (_ & _ & later & -> & _).
    destruct (unload_turn_cases n info s1)
      as [([Hs|Hs] & _)|(p & s2 & _ & Hp & -> & ->)]; [congruence|congruence|].
    rewrite Hi in Hp. injection Hp as <-. simpl.
    destruct (CallPluginMethod_live n "shutdown" s1 info plugin Hl Hld Hi)
      as [(Ha & _)|[(_ & _ & ->)|(_ & _ & ->)]]; [done| |];
      rewrite <- app_assoc; by eexists.
Qed.

(** X7. [UnloadPlugin] on a name that is not registered changes nothing.
    In every case the registry afterwards is the registry before without
    that name, the session fields are kept, and at most one handler has
    been invoked, the [shutdown] of that plugin. *)
Theorem UnloadPlugin_removes_one (s : PythonManager) (pluginName : string) :
  (loadedPlugins s !! pluginName = None -> UnloadPlugin pluginName s = s) /\
  loadedPlugins (UnloadPlugin pluginName s) = delete pluginName (loadedPlugins s) /\
  session_kept s (UnloadPlugin pluginName s) /\
  (invocations (UnloadPlugin pluginName s) = invocations s \/
   invocations (UnloadPlugin pluginName s)
   = (invocations s ++ [(pluginName, "shutdown")])%list).
Proof.
  split; [|split; [apply UnloadPlugin_registry|]].
  - intros Hn. unfold UnloadPlugin. by rewrite Hn.
  - unfold UnloadPlugin. destruct (loadedPlugins s !! pluginName) as [plugin|].
    + pose proof (CallPluginMethod_only pluginName "shutdown" s) as Hstep.
      pose proof (CallPluginMethod_invocations pluginName "shutdown" s) as Hinv.
      apply interpreter_only_session in Hstep.
      destruct (CallPluginMethod pluginName "shutdown" s) as [ok s1]. simpl in *.
      destruct (instance_ptr plugin); simpl; split; try exact Hinv;
        destruct Hstep as (?&?&?&?&?&?); by repeat split.
    + split; [apply session_kept_refl | by left].
Qed.

(** X8. [Shutdown] on a manager that is not initialized changes nothing.
    On an initialized one it leaves the manager not initialized, without
    its interpreter and with an empty registry, and keeps the last error.
    A second [Shutdown] changes nothing. *)
Theorem Shutdown_effect (s : PythonManager) :
  (pythonInitialized s = false -> Shutdown order s = s) /\
  (pythonInitialized s = true ->
   IsPythonInitialized (Shutdown order s) = false /\
   interpreter (Shutdown order s) = false /\
   loadedPlugins (Shutdown order s) = ∅ /\
   lastError (Shutdown order s) = lastError s) /\
  Shutdown order (Shutdown order s) = Shutdown order s.
Proof.
  assert (pythonInitialized s = true ->
          pythonInitialized (Shutdown order s) = false /\
          interpreter (Shutdown order s) = false /\
          loadedPlugins (Shutdown order s) = ∅ /\
          lastError (Shutdown order s) = lastError s) as Hactive.
  { intros Hi. unfold Shutdown. rewrite Hi. cbn [negb].
    destruct (UnloadPlugins_shuts_down_kept s) as (Hreg & Hk).
    destruct Hk as (_ & _ & _ & He & _).
    set (s1 := UnloadPlugins order s) in *. clearbody s1.
    destruct (interpreter s1) eqn:Hint; simpl; rewrite ?Hreg, ?He, ?Hint; done. }
  split; [|split; [exact Hactive|]].
  - intros Hu. unfold Shutdown. by rewrite Hu.
  - destruct (pythonInitialized s) eqn:Hi.
    + destruct (Hactive eq_refl) as (Hf & _). unfold Shutdown at 1. by rewrite Hf.
    + assert (Shutdown order s = s) as -> by (unfold Shutdown; by rewrite Hi).
      unfold Shutdown. by rewrite Hi.
Qed.


(** *** A registry whose entries hold no plugin instance *)

Definition without_instances (s : PythonManager) : Prop :=
  forall n e, loadedPlugins s !! n = Some e -> instance_ptr e = None.

Lemma without_instances_entries s :
  without_instances s ->
  Forall (fun entry => instance_ptr entry.2 = None /\
                       loadedPlugins s !! entry.1 = Some entry.2)
    (enumerate order (loadedPlugins s)).
Proof.
  intros Hw. apply Forall_forall. intros [n e] Hin.
  apply enumerate_lookup in Hin. simpl. split; [by eapply Hw | done].
Qed.

Lemma CallAllPlugins_loop_without m entries b s :
  Forall (fun entry => instance_ptr entry.2 = None /\
                       loadedPlugins s !! entry.1 = Some entry.2) entries ->
  CallAllPlugins_loop m entries b s
  = (b && forallb (fun entry => negb (loaded entry.2)) entries, s).
Proof.
  intros Hall. revert b. induction Hall as [|[n e] rest [Hi Hl] _ IH]; intros b; simpl.
  - by rewrite andb_true_r.
  - simpl in Hi, Hl. destruct (loaded e) eqn:Hld; simpl.
    + rewrite CallPluginMethod_dead by (right; exists e; auto).
      rewrite IH. simpl. by rewrite andb_false_r.
    + apply IH.
Qed.

Lemma HandleCheat_loop_without cmd entries s :
  Forall (fun entry : string * PluginInfo => instance_ptr entry.2 = None) entries ->
  HandleCheat_loop cmd entries s = (Ok false, s).
Proof.
  induction 1 as [|[n e] rest Hi _ IH]; [reflexivity|].
  simpl in *. rewrite Hi. by destruct (loaded e).
Qed.

Lemma HandleMessage_loop_without msg entries s :
  Forall (fun entry : string * PluginInfo => instance_ptr entry.2 = None) entries ->
  HandleMessage_loop msg entries s = (Ok tt, s).
Proof.
  induction 1 as [|[n e] rest Hi _ IH]; [reflexivity|].
  simpl in *. rewrite Hi. by destruct (loaded e).
Qed.

Lemma UnloadPlugins_loop_without entries s :
  Forall (fun entry : string * PluginInfo => instance_ptr entry.2 = None) entries ->
  UnloadPlugins_loop entries s = s.
Proof.
  induction 1 as [|[n e] rest Hi _ IH]; [reflexivity|].
  simpl in *. rewrite Hi. by destruct (loaded e).
Qed.

Lemma without_instances_plain s :
  without_instances s ->
  Forall (fun entry : string * PluginInfo => instance_ptr entry.2 = None)
    (enumerate order (loadedPlugins s)).
Proof.
  intros Hw. eapply Forall_impl; [by apply without_instances_entries|].
  by intros ? [? _].
Qed.

Lemma CallAllPlugins_without m s :
  without_instances s ->
  CallAllPlugins order m s
  = (forallb (fun entry => negb (loaded entry.2)) (enumerate order (loadedPlugins s)), s).
Proof.
  intros Hw. unfold CallAllPlugins.
  by rewrite (CallAllPlugins_loop_without _ _ _ _ (without_instances_entries s Hw)).
Qed.

Lemma HandleCheat_without cheatID cheatText s :
  without_instances s ->
  fst (HandleCheat order cheatID cheatText s) = false /\
  invocations (snd (HandleCheat order cheatID cheatText s)) = invocations s.
Proof.
  intros Hw. unfold HandleCheat. destruct (pythonInitialized s); [|done]. simpl.
  unfold try_catch, bind.
  destruct (make_CheatCommand_frame cheatID cheatText s) as [Hreg Hinv].
  destruct (make_CheatCommand cheatID cheatText s) as [[cmd|e] s0]; simpl in *; [|done].
  rewrite HandleCheat_loop_without; [done|].
  rewrite Hreg. by apply without_instances_plain.
Qed.

Lemma HandleMessage_without messageType pMessage s :
  without_instances s ->
  invocations (snd (HandleMessage order messageType pMessage s)) = invocations s.
Proof.
  intros Hw. destruct (pythonInitialized s) eqn:Hi.
  2:{ unfold HandleMessage. by rewrite Hi. }
  rewrite (HandleMessage_built _ _ _ _ Hi).
  destruct (make_SC4Message_only messageType pMessage s) as [Hframe Hinv].
  apply interpreter_only_members in Hframe as (_ & _ & Hreg & _).
  destruct (make_SC4Message messageType pMessage s) as [[msg|e] s0]; simpl in *; [|done].
  rewrite HandleMessage_loop_without; [done|].
  rewrite Hreg. by apply without_instances_plain.
Qed.

(** X9. When no registry entry holds a plugin instance, [CallAllPlugins]
    leaves the manager as it is and returns true only if every entry is
    marked not loaded; [HandleCheat] returns false and [HandleMessage]
    invokes no handler; and [UnloadPlugins] only clears the registry. *)
Theorem dispatch_without_instances (s : PythonManager) :
  without_instances s ->
  (forall method,
     snd (CallAllPlugins order method s) = s /\
     (fst (CallAllPlugins order method s) = true <->
      forall n e, loadedPlugins s !! n = Some e -> loaded e = false)) /\
  (forall cheatID cheatText,
     fst (HandleCheat order cheatID cheatText s) = false /\
     invocations (snd (HandleCheat order cheatID cheatText s)) = invocations s) /\
  (forall messageType pMessage,
     invocations (snd (HandleMessage order messageType pMessage s)) = invocations s) /\
  UnloadPlugins order s = set_loadedPlugins ∅ s.
Proof.
  intros Hw. split; [|split; [|split]].
  - intros method. rewrite (CallAllPlugins_without _ _ Hw). simpl.
    split; [reflexivity|]. rewrite forallb_forall. split.
    + intros Hall n e Hl.
      assert (In (n, e) (enumerate order (loadedPlugins s))) as Hin.
      { apply list_elem_of_In. rewrite (enumerate_perm order).
        by apply elem_of_map_to_list. }
      specialize (Hall _ Hin). simpl in Hall. by destruct (loaded e).
    + intros Hall [n e] Hin. apply list_elem_of_In, enumerate_lookup in Hin.
      simpl. by rewrite (Hall n e Hin).
  - intros. by apply HandleCheat_without.
  - intros. by apply HandleMessage_without.
  - unfold UnloadPlugins.
    by rewrite (UnloadPlugins_loop_without _ _ (without_instances_plain s Hw)).
Qed.


(** *** Loading, again *)

Lemma LoadPlugin_kept filepath s :
  surroundings_kept s (snd (LoadPlugin filepath s)) /\
  pythonInitialized (snd (LoadPlugin filepath s)) = pythonInitialized s /\
  interpreter (snd (LoadPlugin filepath s)) = interpreter s.
Proof.
  unfold LoadPlugin, surroundings_kept. exn_unfold.
  destruct (loadedPlugins s !! Path.stem filepath); [done|].
  by destruct (module_import _ _) as [[] ?].
Qed.

Lemma loaded_through_kept files s :
  surroundings_kept s (loaded_through files s) /\
  pythonInitialized (loaded_through files s) = pythonInitialized s /\
  interpreter (loaded_through files s) = interpreter s.
Proof.
  revert s. induction files as [|f rest IH]; intros s; [done|].
  simpl. destruct (IH (snd (LoadPlugin f s))) as ((?&?&?&?) & ? & ?).
  destruct (LoadPlugin_kept f s) as ((?&?&?&?) & ? & ?).
  unfold surroundings_kept. repeat split; congruence.
Qed.

Lemma LoadPlugins_state s :
  snd (LoadPlugins s)
  = if pythonInitialized s then loaded_through (DiscoverPluginFiles s) s
    else SetError "Python not initialized" s.
Proof.
  unfold LoadPlugins. destruct (pythonInitialized s); simpl; [|done].
  apply LoadPlugins_loop_spec.
Qed.

Lemma LoadPlugins_true s :
  fst (LoadPlugins s) = true <->
  pythonInitialized s = true /\
  forall pre filepath post,
    DiscoverPluginFiles s = (pre ++ filepath :: post)%list ->
    fst (LoadPlugin filepath (loaded_through pre s)) = true.
Proof.
  unfold LoadPlugins. destruct (pythonInitialized s); simpl.
  - destruct (LoadPlugins_loop_spec (DiscoverPluginFiles s) true s) as [_ ->].
    split; [by intros [_ ?] | by intros [_ ?]].
  - split; [discriminate | by intros [? _]].
Qed.

Lemma DiscoverPluginFiles_kept s s' :
  pluginsDirectoryListing s' = pluginsDirectoryListing s ->
  DiscoverPluginFiles s' = DiscoverPluginFiles s.
Proof. unfold DiscoverPluginFiles. by intros ->. Qed.

(** A pass over files that are all registered already. *)
Lemma LoadPlugins_loop_present files s :
  (forall f, f ∈ files -> is_Some (loadedPlugins s !! Path.stem f)) ->
  LoadPlugins_loop files true s = (true, s).
Proof.
  induction files as [|f rest IH]; intros Hall; [reflexivity|]. simpl.
  destruct (Hall f) as [e He]; [apply elem_of_cons; by left|].
  rewrite (LoadPlugin_present _ _ _ He). apply IH.
  intros g Hg. apply Hall. apply elem_of_cons. by right.
Qed.

(** X10. After a [LoadPlugins] that returned true, a second [LoadPlugins]
    returns true and changes nothing: every discovered file is found
    already registered. *)
Theorem LoadPlugins_again (s : PythonManager) :
  fst (LoadPlugins s) = true ->
  LoadPlugins (snd (LoadPlugins s)) = (true, snd (LoadPlugins s)).
Proof.
  intros Ht. apply LoadPlugins_true in Ht as [Hi Hall].
  rewrite LoadPlugins_state, Hi.
  destruct (loaded_through_kept (DiscoverPluginFiles s) s) as ((_&_&_&Hlist) & Hflag & _).
  unfold LoadPlugins at 1. rewrite Hflag, Hi. simpl.
  rewrite (DiscoverPluginFiles_kept _ _ Hlist).
  apply LoadPlugins_loop_present. intros f Hf.
  apply list_elem_of_split in Hf as (pre & post & Heq).
  rewrite Heq at 1. rewrite loaded_through_app. simpl.
  apply loaded_through_keeps, LoadPlugin_true_registered. by eapply Hall.
Qed.

(** The names of the files a pass discovers. *)
Definition discovered_names (s : PythonManager) : gset string :=
  list_to_set (Path.stem <$> DiscoverPluginFiles s).

Lemma loaded_through_dom files s :
  dom (loadedPlugins (loaded_through files s))
  ⊆ dom (loadedPlugins s) ∪ list_to_set (Path.stem <$> files).
Proof.
  revert s. induction files as [|f rest IH]; intros s.
  - simpl. apply union_subseteq_l.
  - simpl. etrans; [apply IH|]. apply union_least.
    + etrans; [apply LoadPlugin_dom|]. apply union_least.
      * apply union_subseteq_l.
      * etrans; [|apply union_subseteq_r]. apply union_subseteq_l.
    + etrans; [|apply union_subseteq_r]. apply union_subseteq_r.
Qed.

(** A pass over an empty registry. *)
Lemma LoadPlugins_from_empty s :
  pythonInitialized s = true -> loadedPlugins s = ∅ ->
  dom (loadedPlugins (snd (LoadPlugins s))) ⊆ discovered_names s /\
  (fst (LoadPlugins s) = true ->
   dom (loadedPlugins (snd (LoadPlugins s))) = discovered_names s).
Proof.
  intros Hi Hreg.
  assert (dom (loadedPlugins (snd (LoadPlugins s))) ⊆ discovered_names s) as Hsub.
  { rewrite LoadPlugins_state, Hi.
    etrans; [apply loaded_through_dom|].
    rewrite Hreg, dom_empty_L, union_empty_l_L. reflexivity. }
  split; [exact Hsub|]. intros Ht.
  apply (anti_symm (⊆)); [exact Hsub|].
  apply LoadPlugins_true in Ht as [_ Hall].
  intros n Hn. unfold discovered_names in Hn.
  apply elem_of_list_to_set, list_elem_of_fmap in Hn as (f & -> & Hf).
  apply list_elem_of_split in Hf as (pre & post & Heq).
  apply elem_of_dom. rewrite LoadPlugins_state, Hi.
  rewrite Heq at 1. rewrite loaded_through_app. simpl.
  apply loaded_through_keeps, LoadPlugin_true_registered. by eapply Hall.
Qed.

(** X11. [ReloadPlugins] on a manager that is not initialized returns
    false with the not-initialized error and leaves the registry empty.  On
    an initialized one every name registered afterwards is the stem of a
    file discovered now, so nothing of the old registry survives; and when
    it returns true the registered names are exactly the discovered ones. *)
Theorem ReloadPlugins_no_stale_entries (s : PythonManager) :
  (pythonInitialized s = false ->
   fst (ReloadPlugins order s) = false /\
   loadedPlugins (snd (ReloadPlugins order s)) = ∅ /\
   GetLastError (snd (ReloadPlugins order s)) = "Python not initialized") /\
  (pythonInitialized s = true ->
   dom (loadedPlugins (snd (ReloadPlugins order s))) ⊆ discovered_names s /\
   (fst (ReloadPlugins order s) = true ->
    dom (loadedPlugins (snd (ReloadPlugins order s))) = discovered_names s)).
Proof.
  destruct (UnloadPlugins_shuts_down_kept s) as (Hreg & Hflag & _ & _ & _ & _ & Hlist).
  unfold ReloadPlugins. split; intros Hi.
  - unfold LoadPlugins. rewrite Hflag, Hi. cbn [negb fst snd].
    unfold SetError, GetLastError. simpl. by rewrite ?Hreg.
  - assert (discovered_names (UnloadPlugins order s) = discovered_names s) as Hd.
    { unfold discovered_names. by rewrite (DiscoverPluginFiles_kept _ _ Hlist). }
    rewrite <- Hd. apply LoadPlugins_from_empty; [by rewrite Hflag | exact Hreg].
Qed.


(** *** Every state the host can drive the manager into *)

(** The public entry points, and the directory changing on disk. *)
Inductive host_call : Type :=
| CallInitialize
| CallShutdown
| CallLoadPlugins
| CallUnloadPlugins
| CallReloadPlugins
| CallHandleMessage (messageType : Z) (pMessage : option (Z * Z * Z))
| CallHandleCheat (cheatID : Z) (cheatText : string)
| CallOnCityInit
| CallOnCityShutdown
| DirectoryBecomes (listing : option (list directory_entry)).

Definition with_listing (listing : option (list directory_entry))
    (s : PythonManager) : PythonManager :=
  {| pythonInitialized := pythonInitialized s; interpreter := interpreter s;
     loadedPlugins := loadedPlugins s; cityWrapper := cityWrapper s;
     lastError := lastError s; py := py s;
     pluginsDirectory := pluginsDirectory s;
     pluginsDirectoryListing := listing;
     invocations := invocations s |}.

Definition host_step (c : host_call) (s : PythonManager) : PythonManager :=
  match c with
  | CallInitialize => snd (Initialize s)
  | CallShutdown => Shutdown order s
  | CallLoadPlugins => snd (LoadPlugins s)
  | CallUnloadPlugins => UnloadPlugins order s
  | CallReloadPlugins => snd (ReloadPlugins order s)
  | CallHandleMessage messageType pMessage =>
      snd (HandleMessage order messageType pMessage s)
  | CallHandleCheat cheatID cheatText => snd (HandleCheat order cheatID cheatText s)
  | CallOnCityInit => snd (OnCityInit order s)
  | CallOnCityShutdown => snd (OnCityShutdown order s)
  | DirectoryBecomes listing => with_listing listing s
  end.

Definition after_calls (calls : list host_call) (s : PythonManager) : PythonManager :=
  fold_left (fun st c => host_step c st) calls s.

(** Every entry is as [LoadPlugin] wrote it, under the name of its file. *)
Definition as_loaded (s : PythonManager) : Prop :=
  forall n e, loadedPlugins s !! n = Some e ->
    e = fresh_entry (filepath e) /\ n = Path.stem (filepath e).

Definition dormant (s : PythonManager) : Prop :=
  as_loaded s /\
  invocations s = [] /\
  IsValid (cityWrapper s) = false /\
  (pythonInitialized s = false -> loadedPlugins s = ∅).

Lemma as_loaded_without s : as_loaded s -> without_instances s.
Proof. intros Ha n e Hl. destruct (Ha n e Hl) as [-> _]. reflexivity. Qed.

Lemma as_loaded_registry s s' :
  loadedPlugins s' = loadedPlugins s -> as_loaded s -> as_loaded s'.
Proof. unfold as_loaded. by intros ->. Qed.

Lemma as_loaded_empty s : loadedPlugins s = ∅ -> as_loaded s.
Proof. intros He n e. rewrite He, lookup_empty. discriminate. Qed.

Lemma LoadPlugin_as_loaded filepath s :
  as_loaded s -> as_loaded (snd (LoadPlugin filepath s)).
Proof.
  intros Ha.
  destruct (LoadPlugin_registry filepath s)
    as [(_ & _ & Hr)|[(_ & _ & Hr)|(_ & _ & Hr)]];
    try by eapply as_loaded_registry.
  intros n e. rewrite Hr, lookup_insert. case_decide as Hn.
  - intros [= <-]. by subst n.
  - apply Ha.
Qed.

Lemma loaded_through_as_loaded files s :
  as_loaded s -> as_loaded (loaded_through files s).
Proof.
  revert s. induction files as [|f rest IH]; intros s Ha; [done|].
  simpl. by apply IH, LoadPlugin_as_loaded.
Qed.

Lemma LoadPlugins_dormant s : dormant s -> dormant (snd (LoadPlugins s)).
Proof.
  intros (Ha & Hinv & Hcity & Hempty). rewrite LoadPlugins_state.
  destruct (pythonInitialized s) eqn:Hi.
  - destruct (loaded_through_kept (DiscoverPluginFiles s) s)
      as ((Hc & Hv & _) & Hflag & _).
    split; [by apply loaded_through_as_loaded|].
    split; [congruence|]. split; [congruence|]. rewrite Hflag, Hi. discriminate.
  - split; [done|]. split; [done|]. split; [done|]. simpl. by rewrite Hi.
Qed.

Lemma UnloadPlugins_dormant s : dormant s -> dormant (UnloadPlugins order s).
Proof.
  intros (Ha & Hinv & Hcity & Hempty).
  assert (UnloadPlugins order s = set_loadedPlugins ∅ s) as ->.
  { unfold UnloadPlugins.
    by rewrite (UnloadPlugins_loop_without _ _
                  (without_instances_plain s (as_loaded_without s Ha))). }
  split; [by apply as_loaded_empty|]. by repeat split.
Qed.

Lemma interpreter_only_dormant s s' :
  interpreter_only s s' -> invocations s' = invocations s -> dormant s -> dormant s'.
Proof.
  intros Hstep Hsame (Ha & Hinv & Hcity & Hempty).
  apply interpreter_only_members in Hstep as (Hf & _ & Hr & Hc & _).
  split; [by eapply as_loaded_registry|]. split; [congruence|].
  split; [congruence|]. rewrite Hf, Hr. exact Hempty.
Qed.

Lemma host_step_dormant c s : dormant s -> dormant (host_step c s).
Proof.
  intros Hd. pose proof Hd as (Ha & Hinv & Hcity & Hempty).
  pose proof (as_loaded_without s Ha) as Hw.
  destruct c as [| | | | |messageType pMessage|cheatID cheatText| | |listing];
    cbn [host_step].
  - destruct (Initialize_kept s) as ((Hc & Hv & _) & Hr).
    split; [by eapply as_loaded_registry|]. split; [congruence|].
    split; [congruence|]. intros Hf. rewrite Hr.
    destruct (pythonInitialized s) eqn:Hi; [|by apply Hempty].
    revert Hf. unfold Initialize. rewrite Hi. simpl. rewrite Hi. discriminate.
  - unfold Shutdown. destruct (pythonInitialized s) eqn:Hi; [|exact Hd].
    cbn [negb]. pose proof (UnloadPlugins_dormant s Hd) as (Ha' & Hv' & Hc' & _).
    pose proof (UnloadPlugins_shuts_down_kept s) as [Hr' _].
    set (s1 := UnloadPlugins order s) in *. clearbody s1.
    destruct (interpreter s1); simpl;
      (split; [by apply as_loaded_empty|]); by repeat split.
  - by apply LoadPlugins_dormant.
  - by apply UnloadPlugins_dormant.
  - unfold ReloadPlugins. by apply LoadPlugins_dormant, UnloadPlugins_dormant.
  - eapply interpreter_only_dormant; [apply HandleMessage_only| |exact Hd].
    by apply HandleMessage_without.
  - eapply interpreter_only_dormant; [apply HandleCheat_only| |exact Hd].
    by apply HandleCheat_without.
  - unfold OnCityInit. destruct (pythonInitialized s) eqn:Hi; [|exact Hd].
    cbn [negb]. rewrite CallAllPlugins_without by exact Hw. simpl.
    split; [exact Ha|]. split; [exact Hinv|]. split; [exact Hcity|].
    simpl. rewrite ?Hi. discriminate.
  - unfold OnCityShutdown. destruct (pythonInitialized s) eqn:Hi; [|exact Hd].
    cbn [negb]. by rewrite CallAllPlugins_without.
  - split; [exact Ha|]. split; [exact Hinv|]. split; [exact Hcity | exact Hempty].
Qed.

(** X12. Starting from a freshly constructed manager, whatever sequence of
    public calls the host makes ([Initialize], [Shutdown], [LoadPlugins],
    [UnloadPlugins], [ReloadPlugins], [HandleMessage], [HandleCheat],
    [OnCityInit], [OnCityShutdown]) and however the plugin directory
    changes in between, no plugin handler is ever invoked: every registry
    entry is as [LoadPlugin] wrote it, without a plugin instance; the city
    wrapper has no city; and while the manager is not initialized the
    registry is empty. *)
Theorem host_never_reaches_a_plugin (calls : list host_call) (σ : PyState)
    (dir : string) (listing : option (list directory_entry)) :
  let s := after_calls calls (new_PythonManager σ dir listing) in
  invocations s = [] /\
  without_instances s /\
  as_loaded s /\
  IsValid (cityWrapper s) = false /\
  (IsPythonInitialized s = false -> loadedPlugins s = ∅).
Proof.
  assert (forall s0, dormant s0 -> dormant (after_calls calls s0)) as Hrun.
  { induction calls as [|c rest IH]; intros s0 Hd; [exact Hd|].
    simpl. by apply IH, host_step_dormant. }
  destruct (Hrun (new_PythonManager σ dir listing)) as (Ha & Hinv & Hcity & Hempty).
  { split; [by apply as_loaded_empty|]. split; [done|]. split; [done|]. done. }
  cbv zeta. split; [exact Hinv|]. split; [by apply as_loaded_without|].
  split; [exact Ha|]. split; [exact Hcity | exact Hempty].
Qed.

End Lifecycle.

(** ** The names of discovered plugins *)

Lemma string_length_append (x y : string) :
  String.length (x +:+ y) = String.length x + String.length y.
Proof. induction x as [|c x IH]; simpl; [reflexivity|]. by rewrite IH. Qed.

Lemma substring_prefix (x y : string) :
  String.substring 0 (String.length x) (x +:+ y) = x.
Proof.
  induction x as [|c x IH]; simpl.
  - by destruct y.
  - by rewrite IH.
Qed.

(** The stem of a path whose file name is a non-empty stem followed by
    [.py] is that stem. *)
Lemma stem_of_py p c rest :
  Path.filename p = String c rest +:+ ".py" -> Path.stem p = String c rest.
Proof.
  intros Hf. unfold Path.stem. rewrite Hf.
  assert (Path.extension_of_name (String c rest +:+ ".py") = ".py") as ->
    by (apply extension_of_name_py; eauto).
  rewrite string_length_append.
  replace (String.length (String c rest) + String.length ".py" - String.length ".py")
    with (String.length (String c rest)) by lia.
  apply substring_prefix.
Qed.

Section DiscoveredNames.
Context {python : Python} {host : SC4City}.

(** X13. Every path [DiscoverPluginFiles] returns has a file name that is
    its stem followed by [.py], and the stem, which [LoadPlugin] uses as the
    plugin's name, is not empty and does not begin with an underscore. *)
Theorem discovered_plugin_names (s : PythonManager) (p : string) :
  p ∈ DiscoverPluginFiles s ->
  exists c rest,
    Path.stem p = String c rest /\
    c <> "_"%char /\
    Path.filename p = Path.stem p +:+ ".py".
Proof.
  unfold DiscoverPluginFiles. destruct (pluginsDirectoryListing s) as [listing|];
    [|intros Hin; by apply not_elem_of_nil in Hin].
  intros Hin.
  assert (p ∈ snd (DiscoverPluginFiles_loop listing [])) as Hp
    by (by destruct (DiscoverPluginFiles_loop listing []) as [[[]|what] files]).
  apply DiscoverPluginFiles_loop_sound in Hp
    as [Hp|(e & _ & (_ & Hx & Hu) & <-)]; [by apply not_elem_of_nil in Hp|].
  apply extension_of_name_py in Hx as (c & rest & Hf).
  exists c, rest. rewrite (stem_of_py _ _ _ Hf). split; [reflexivity|].
  split; [|exact Hf].
  intros ->. apply (Hu (rest +:+ ".py")). exact Hf.
Qed.

End DiscoveredNames.

Lemma discovered_plugin_names_witness :
  "C:\SC4\PythonScripts\alpha.py"
    ∈ DiscoverPluginFiles (Scripted.manager idle_script (Some scenario_listing)) /\
  exists c rest,
    Path.stem "C:\SC4\PythonScripts\alpha.py" = String c rest /\
    c <> "_"%char /\
    Path.filename "C:\SC4\PythonScripts\alpha.py"
    = Path.stem "C:\SC4\PythonScripts\alpha.py" +:+ ".py".
Proof.
  assert ("C:\SC4\PythonScripts\alpha.py"
            ∈ DiscoverPluginFiles (Scripted.manager idle_script (Some scenario_listing)))
    as Hin by (vm_compute; apply list_elem_of_here).
  split; [exact Hin|].
  exact (discovered_plugin_names _ _ Hin).
Defined.

(** ** The city facade with a city attached *)

Section CityWrapperMore.
Context {host : SC4City}.

(** X14. [GetCityMoney] always fits 32 unsigned bits.  With a city and
    its budget simulator at hand it is 0 for funds that are negative or
    zero, the funds themselves below 2^32, and the funds modulo 2^32 from
    there on. *)
Theorem GetCityMoney_range (w : CityWrapper) :
  (0 <= GetCityMoney w < 2 ^ 32)%Z /\
  (forall c, city w = Some c -> city_GetBudgetSimulator c = true ->
     ((budget_GetTotalFunds c <= 0)%Z -> GetCityMoney w = 0%Z) /\
     ((0 <= budget_GetTotalFunds c < 2 ^ 32)%Z ->
      GetCityMoney w = budget_GetTotalFunds c) /\
     ((0 <= budget_GetTotalFunds c)%Z ->
      GetCityMoney w = (budget_GetTotalFunds c mod 2 ^ 32)%Z)).
Proof.
  unfold GetCityMoney, to_uint32. split.
  - destruct (city w) as [c|]; [|lia].
    destruct (city_GetBudgetSimulator c); [|lia].
    apply Z.mod_pos_bound. lia.
  - intros c -> ->. split; [|split]; intros Hf.
    + rewrite Z.max_l by lia. reflexivity.
    + rewrite Z.max_r by lia. apply Z.mod_small. lia.
    + by rewrite Z.max_r by lia.
Qed.

(** X15. With a city and its budget simulator at hand, [AddCityMoney]
    of an amount above the least [int32_t] deposits the amount when it is
    not negative and withdraws its magnitude when it is: the host is never
    handed a negative amount.  The result is the host's. *)
Theorem AddCityMoney_routes_by_sign (w : CityWrapper) (c : City) (amount : Z) :
  city w = Some c -> city_GetBudgetSimulator c = true ->
  (- 2 ^ 31 < amount < 2 ^ 31)%Z ->
  AddCityMoney amount w
  = if (0 <=? amount)%Z
    then (fst (budget_DepositFunds (Z.abs amount) c),
          with_city (snd (budget_DepositFunds (Z.abs amount) c)) w)
    else (fst (budget_WithdrawFunds (Z.abs amount) c),
          with_city (snd (budget_WithdrawFunds (Z.abs amount) c)) w).
Proof.
  intros Hc Hb Hr. unfold AddCityMoney. rewrite Hc, Hb.
  destruct (0 <=? amount)%Z eqn:Hs.
  - apply Z.leb_le in Hs. rewrite Z.abs_eq by lia.
    by destruct (budget_DepositFunds amount c).
  - apply Z.leb_gt in Hs. rewrite Z.abs_neq by lia.
    assert (to_int32 (- amount) = (- amount)%Z) as ->.
    { unfold to_int32. rewrite Z.mod_small; lia. }
    by destruct (budget_WithdrawFunds (- amount) c).
Qed.

(** X16. On a wrapper with a city, if toggling the host's simulation
    mode flips what the host reports, [SetMayorMode] returns true and
    leaves the mode asked for; it leaves the wrapper alone when the mode is
    already the one asked for, and a second call with the same argument
    changes nothing. *)
Theorem SetMayorMode_reaches_mode (w : CityWrapper) (c : City) (enabled : bool) :
  (forall c', city_IsInCityTimeSimulationMode (city_ToggleSimulationMode c')
              = negb (city_IsInCityTimeSimulationMode c')) ->
  city w = Some c ->
  fst (SetMayorMode enabled w) = true /\
  GetMayorMode (snd (SetMayorMode enabled w)) = enabled /\
  (GetMayorMode w = enabled -> snd (SetMayorMode enabled w) = w) /\
  SetMayorMode enabled (snd (SetMayorMode enabled w))
  = (true, snd (SetMayorMode enabled w)).
Proof.
  intros Htoggle Hc.
  assert (forall w', (exists c', city w' = Some c') ->
            GetMayorMode w' = enabled -> SetMayorMode enabled w' = (true, w')) as Hsame.
  { intros w' [c' Hc'] Hm. unfold SetMayorMode. rewrite Hc', Hm.
    by destruct enabled. }
  assert (GetMayorMode (snd (SetMayorMode enabled w)) = enabled /\
          exists c', city (snd (SetMayorMode enabled w)) = Some c') as [Hm Hex].
  { unfold SetMayorMode. rewrite Hc.
    destruct (Bool.eqb (GetMayorMode w) enabled) eqn:He; simpl.
    - apply Bool.eqb_prop in He. split; [exact He | eauto].
    - split; [|eauto]. unfold GetMayorMode in *. rewrite Hc in He. simpl.
      rewrite Htoggle. destruct (city_IsInCityTimeSimulationMode c), enabled;
        simpl in *; congruence. }
  split; [|split; [exact Hm|split]].
  - unfold SetMayorMode. rewrite Hc. by destruct (negb _).
  - intros Hw. rewrite Hsame; eauto.
  - by apply Hsame.
Qed.

(** X17. [GetCityStats] leaves the cache valid and the city pointer as it
    was, so a second call returns the same; with a valid cache it returns
    the cached record unchanged.  After [UpdateCityReference] the next
    [GetCityStats] recomputes: to all zeros without a city, and with a city
    to zero populations and jobs with the power and water figures left as
    they were cached. *)
Theorem GetCityStats_cache (w : CityWrapper) :
  statsCacheValid (snd (GetCityStats w)) = true /\
  city (snd (GetCityStats w)) = city w /\
  GetCityStats (snd (GetCityStats w)) = GetCityStats w /\
  (statsCacheValid w = true -> GetCityStats w = (cachedStats w, w)) /\
  fst (GetCityStats (UpdateCityReference w))
  = (if IsValid w
     then {| residential_population := 0; commercial_population := 0;
             industrial_population := 0; total_jobs := 0;
             power_produced := power_produced (cachedStats w);
             power_consumed := power_consumed (cachedStats w);
             water_produced := water_produced (cachedStats w);
             water_consumed := water_consumed (cachedStats w) |}
     else zero_stats).
Proof.
  unfold GetCityStats, UpdateCityReference, InvalidateStatsCache, UpdateStatsCache,
    IsValid, GetCityPopulation.
  destruct (statsCacheValid w) eqn:Hv; simpl; rewrite ?Hv;
    destruct (city w) as [c|] eqn:Hc; simpl; rewrite ?Hc;
    repeat split; try reflexivity; try (intros; discriminate);
    by destruct (city_GetResidentialSimulator c).
Qed.

(** The public methods of the facade. *)
Inductive wrapper_call : Type :=
| WGetCityName
| WGetCityPopulation
| WGetCityMoney
| WSetCityMoney (amount : Z)
| WAddCityMoney (amount : Z)
| WGetMayorMode
| WSetMayorMode (enabled : bool)
| WGetCityDate
| WGetCityTime
| WGetCityStats
| WUpdateCityReference.

(** The wrapper a call leaves behind; the [const] getters leave it as it
    is, [GetCityStats] may refresh the cache. *)
Definition wrapper_step (call : wrapper_call) (w : CityWrapper) : CityWrapper :=
  match call with
  | WSetCityMoney amount => snd (SetCityMoney amount w)
  | WAddCityMoney amount => snd (AddCityMoney amount w)
  | WSetMayorMode enabled => snd (SetMayorMode enabled w)
  | WGetCityStats => snd (GetCityStats w)
  | WUpdateCityReference => UpdateCityReference w
  | _ => w
  end.

Lemma wrapper_step_invalid call w :
  IsValid w = false -> IsValid (wrapper_step call w) = false.
Proof.
  intros Hv. apply IsValid_false in Hv.
  destruct call; simpl; unfold SetCityMoney, AddCityMoney, SetMayorMode,
    GetCityStats, UpdateStatsCache, UpdateCityReference, InvalidateStatsCache, IsValid;
    rewrite ?Hv; simpl; rewrite ?Hv; try reflexivity.
  destruct (statsCacheValid w); simpl; by rewrite ?Hv.
Qed.

(** X18. No sequence of calls of the facade's methods attaches a city to
    a freshly constructed [CityWrapper]: it stays invalid, its setters keep
    returning false, and [GetCityStats] keeps returning all zeros. *)
Theorem CityWrapper_never_attached (calls : list wrapper_call) :
  let w := fold_left (fun w call => wrapper_step call w) calls new_CityWrapper in
  IsValid w = false /\
  (forall amount, fst (SetCityMoney amount w) = false) /\
  (forall amount, fst (AddCityMoney amount w) = false) /\
  (forall enabled, fst (SetMayorMode enabled w) = false) /\
  fst (GetCityStats w) = zero_stats.
Proof.
  assert (forall w0, IsValid w0 = false -> cachedStats w0 = zero_stats ->
            let w := fold_left (fun w call => wrapper_step call w) calls w0 in
            IsValid w = false /\ cachedStats w = zero_stats) as Hrun.
  { induction calls as [|call rest IH]; intros w0 Hv Hz; [done|].
    simpl. apply IH; [by apply wrapper_step_invalid|].
    apply IsValid_false in Hv.
    destruct call; simpl; unfold SetCityMoney, AddCityMoney, SetMayorMode,
      GetCityStats, UpdateStatsCache, UpdateCityReference, InvalidateStatsCache;
      rewrite ?Hv; simpl; try exact Hz.
    by destruct (statsCacheValid w0). }
  destruct (Hrun new_CityWrapper eq_refl eq_refl) as [Hv Hz].
  cbv zeta. split; [exact Hv|]. apply IsValid_false in Hv.
  unfold SetCityMoney, AddCityMoney, SetMayorMode, GetCityStats, UpdateStatsCache.
  rewrite Hv. repeat split.
  destruct (statsCacheValid _); simpl; [exact Hz | reflexivity].
Qed.

End CityWrapperMore.

(** ** Events outside an active session, and events that cannot be built *)

Section Events.
Context {python : Python} {host : SC4City}.
Variable order : BucketOrder.

Lemma Shutdown_flag s : pythonInitialized (Shutdown order s) = false.
Proof.
  destruct (pythonInitialized s) eqn:Hi.
  - unfold Shutdown. rewrite Hi. cbn [negb].
    set (s1 := UnloadPlugins order s). clearbody s1. by destruct (interpreter s1).
  - unfold Shutdown. by rewrite Hi.
Qed.

(** X19. After [Shutdown], [HandleCheat] and [HandleMessage] return false,
    [OnCityInit] and [OnCityShutdown] return true, each leaving the manager
    as it is; [LoadPlugins] returns false and only sets the not-initialized
    error; and a further [Shutdown] changes nothing. *)
Theorem events_after_Shutdown (s : PythonManager) :
  let s' := Shutdown order s in
  (forall cheatID cheatText, HandleCheat order cheatID cheatText s' = (false, s')) /\
  (forall messageType pMessage,
     HandleMessage order messageType pMessage s' = (false, s')) /\
  OnCityInit order s' = (true, s') /\
  OnCityShutdown order s' = (true, s') /\
  LoadPlugins s' = (false, SetError "Python not initialized" s') /\
  Shutdown order s' = s'.
Proof.
  cbv zeta. pose proof (Shutdown_flag s) as Hf.
  set (s' := Shutdown order s) in *. clearbody s'.
  unfold HandleCheat, HandleMessage, OnCityInit, OnCityShutdown, LoadPlugins, Shutdown.
  rewrite Hf. by repeat split.
Qed.

(** X20. On an initialized manager, when the import of [sc4_types]
    raises, [HandleCheat] and [HandleMessage] return false without
    consulting any plugin: only the interpreter's state has moved, and the
    last error is not set. *)
Theorem events_without_sc4_types (s : PythonManager) (what : string) (σ : PyState) :
  pythonInitialized s = true ->
  module_import "sc4_types" (py s) = (Throw what, σ) ->
  (forall cheatID cheatText,
     HandleCheat order cheatID cheatText s = (false, set_py σ s)) /\
  (forall messageType pMessage,
     HandleMessage order messageType pMessage s = (false, set_py σ s)).
Proof.
  intros Hi Him. split; intros.
  - unfold HandleCheat, make_CheatCommand. rewrite Hi. exn_unfold. by rewrite Him.
  - unfold HandleMessage. rewrite Hi. exn_unfold. by rewrite Him.
Qed.

(** X21. [OnCityInit] on a manager that is not initialized returns true
    and does nothing.  On an initialized one the city wrapper afterwards is
    the one before with its statistics cache invalidated, and the registry
    and the last error are as they were, whatever the handlers did. *)
Theorem OnCityInit_invalidates_cache (s : PythonManager) :
  (pythonInitialized s = false -> OnCityInit order s = (true, s)) /\
  (pythonInitialized s = true ->
   cityWrapper (snd (OnCityInit order s)) = UpdateCityReference (cityWrapper s) /\
   statsCacheValid (cityWrapper (snd (OnCityInit order s))) = false /\
   loadedPlugins (snd (OnCityInit order s)) = loadedPlugins s /\
   lastError (snd (OnCityInit order s)) = lastError s).
Proof.
  unfold OnCityInit. split; intros Hi; rewrite Hi; [reflexivity|]. cbn [negb].
  pose proof (CallAllPlugins_loop_only "on_city_init"
                (enumerate order
                   (loadedPlugins (set_cityWrapper (UpdateCityReference (cityWrapper s)) s)))
                true (set_cityWrapper (UpdateCityReference (cityWrapper s)) s)) as Hstep.
  apply interpreter_only_members in Hstep as (_ & _ & Hr & Hc & He & _).
  unfold CallAllPlugins. rewrite Hc, Hr, He. by repeat split.
Qed.

End Events.

(** ** The logger *)

(** Whoever is marked initialized has a logger, and every logger the class
    makes logs from [debug] up. *)
Definition logger_ready (st : Logger.state) : Prop :=
  (Logger.s_initialized st = true -> is_Some (Logger.s_logger st)) /\
  (forall lg, Logger.s_logger st = Some lg -> Logger.log_level lg = Logger.debug).

Lemma Logger_Initialize_present env st :
  Logger.s_initialized (Logger.Initialize env st) = true /\
  is_Some (Logger.s_logger (Logger.Initialize env st)).
Proof.
  unfold Logger.Initialize.
  destruct (Logger.s_initialized st) eqn:Hi; simpl.
  - case_bool_decide as Hs; [by rewrite Hi|].
    destruct (Logger.build_sinks env _); simpl; split; eauto.
  - destruct (Logger.build_sinks env _); simpl; split; eauto.
Qed.

Lemma Logger_Initialize_ready env st :
  logger_ready st -> logger_ready (Logger.Initialize env st).
Proof.
  intros [Hp Hl]. split; [intros _; apply Logger_Initialize_present|].
  unfold Logger.Initialize.
  destruct (Logger.s_initialized st && _)%bool; [exact Hl|].
  destruct (Logger.build_sinks env _); simpl; by intros lg [= <-].
Qed.

Lemma Logger_Get_ready env st :
  logger_ready st ->
  is_Some (fst (Logger.Get env st)) /\ logger_ready (snd (Logger.Get env st)) /\
  Logger.s_initialized (snd (Logger.Get env st)) = true.
Proof.
  intros Hr. unfold Logger.Get. destruct (Logger.s_initialized st) eqn:Hi; simpl.
  - split; [by apply Hr|]. by split.
  - destruct (Logger_Initialize_present env st) as [? ?].
    split; [done|]. split; [by apply Logger_Initialize_ready | done].
Qed.

Lemma Logger_Shutdown_ready st : logger_ready (Logger.Shutdown st).
Proof. unfold Logger.Shutdown. destruct (Logger.s_logger st); by split. Qed.

(** The calls a client can make. *)
Inductive logger_call : Type :=
| CallLoggerInitialize
| CallLoggerShutdown
| CallLoggerGet
| CallLOG (l : Logger.level) (text : string)
| CallLogMessage (message : string) (lvl : Z).

(** [None] once a call has dereferenced a null logger. *)
Definition logger_step (env : Logger.platform) (c : logger_call) (st : Logger.state)
    : option Logger.state :=
  match c with
  | CallLoggerInitialize => Some (Logger.Initialize env st)
  | CallLoggerShutdown => Some (Logger.Shutdown st)
  | CallLoggerGet => Some (snd (Logger.Get env st))
  | CallLOG l text => Logger.LOG l text env st
  | CallLogMessage message lvl => Some (Logger.log_message message lvl env st)
  end.

Fixpoint logger_run (env : Logger.platform) (calls : list logger_call)
    (st : Logger.state) : option Logger.state :=
  match calls with
  | [] => Some st
  | c :: rest =>
      match logger_step env c st with
      | Some st' => logger_run env rest st'
      | None => None
      end
  end.

Lemma logger_step_ready env c st :
  logger_ready st ->
  exists st', logger_step env c st = Some st' /\ logger_ready st'.
Proof.
  intros Hr. destruct c as [| | |l text|message lvl]; simpl.
  - eexists. split; [reflexivity|]. by apply Logger_Initialize_ready.
  - eexists. split; [reflexivity|]. apply Logger_Shutdown_ready.
  - eexists. split; [reflexivity|]. by apply Logger_Get_ready.
  - unfold Logger.LOG. destruct (Logger_Get_ready env st Hr) as ([lg Hlg] & Hr' & _).
    destruct (Logger.Get env st) as [o st']. simpl in *. subst o.
    eexists. split; [reflexivity|]. exact Hr'.
  - unfold Logger.log_message.
    destruct (Logger_Get_ready env st Hr) as ([lg Hlg] & Hr' & _).
    destruct (Logger.Get env st) as [o st']. simpl in *. subst o.
    eexists. split; [reflexivity|]. exact Hr'.
Qed.

(** X22. From the initial state of the two static members, after any
    sequence of [Initialize], [Shutdown], [Get], logging macros and
    [log_message] calls, no macro has dereferenced a null logger, [Get]
    returns a logger, and the next logging macro is safe too. *)
Theorem Logger_never_null (env : Logger.platform) (calls : list logger_call) :
  exists st,
    logger_run env calls Logger.initial = Some st /\
    is_Some (fst (Logger.Get env st)) /\
    (forall l text, is_Some (Logger.LOG l text env st)).
Proof.
  assert (forall st0, logger_ready st0 ->
            exists st, logger_run env calls st0 = Some st /\ logger_ready st) as Hrun.
  { induction calls as [|c rest IH]; intros st0 Hr; simpl; [eauto|].
    destruct (logger_step_ready env c st0 Hr) as (st' & -> & Hr'). by apply IH. }
  destruct (Hrun Logger.initial) as (st & Hst & Hr); [by split|].
  exists st. split; [exact Hst|].
  destruct (Logger_Get_ready env st Hr) as ([lg Hlg] & _).
  split; [by eexists|]. intros l text. unfold Logger.LOG.
  destruct (Logger.Get env st) as [o st']. simpl in Hlg. subst o. by eexists.
Qed.

(** X23. [Logger::Initialize] on a logger not marked initialized always
    ends marked initialized.  Without a user profile the logger writes to
    the debugger only.  With one, it writes to the debugger and to the log
    file under the profile's documents folder, and says so, when the folder
    and the file can be made; when either raises, it falls back to the
    debugger only and logs the failure as an error. *)
Theorem Logger_Initialize_outcome (env : Logger.platform) (st : Logger.state) :
  Logger.s_initialized st = false ->
  let st' := Logger.Initialize env st in
  Logger.s_initialized st' = true /\
  (Logger.USERPROFILE env = None \/ Logger.USERPROFILE env = Some EmptyString ->
   exists lg, Logger.s_logger st' = Some lg /\ Logger.sinks lg = [Logger.msvc_sink]) /\
  (forall userProfile,
     Logger.USERPROFILE env = Some userProfile -> userProfile <> EmptyString ->
     (Logger.create_directories env (Logger.log_directory env userProfile) = Ok tt ->
      Logger.open_log_file env (Logger.log_path env userProfile) = Ok tt ->
      exists lg,
        Logger.s_logger st' = Some lg /\
        Logger.sinks lg
        = [Logger.msvc_sink; Logger.basic_file_sink (Logger.log_path env userProfile)] /\
        Logger.written st'
        = (Logger.written st ++
           [(Logger.sinks lg, Logger.info, "SC4PythonFramework logger initialized");
            (Logger.sinks lg, Logger.info,
             "Logging to file: " +:+ Logger.log_path env userProfile)])%list) /\
     (forall what,
        Logger.create_directories env (Logger.log_directory env userProfile) = Throw what \/
        (Logger.create_directories env (Logger.log_directory env userProfile) = Ok tt /\
         Logger.open_log_file env (Logger.log_path env userProfile) = Throw what) ->
        exists lg,
          Logger.s_logger st' = Some lg /\
          Logger.sinks lg = [Logger.msvc_sink] /\
          Logger.written st'
          = (Logger.written st ++
             [([Logger.msvc_sink], Logger.err,
               "Failed to initialize file logging: " +:+ what)])%list)).
Proof.
  intros Hi. cbv zeta. unfold Logger.Initialize. rewrite Hi. simpl.
  split; [by destruct (Logger.build_sinks env _)|]. split.
  - intros [-> | ->]; simpl; eauto.
  - intros userProfile -> Hne. apply String.eqb_neq in Hne.
    unfold Logger.build_sinks. rewrite Hne. split.
    + intros -> ->. simpl. eexists. split; [reflexivity|]. split; [reflexivity|].
      unfold Logger.log. simpl. by rewrite <- app_assoc.
    + intros what [-> | [-> ->]]; simpl; eexists; by repeat split.
Qed.

(** X24. A second [Logger::Initialize] and a second [Logger::Shutdown]
    change nothing.  [Shutdown] drops the logger, and the next [Get] makes
    one again; nothing already written is lost on the way. *)
Theorem Logger_cycle (env : Logger.platform) (st : Logger.state) :
  Logger.Initialize env (Logger.Initialize env st) = Logger.Initialize env st /\
  Logger.Shutdown (Logger.Shutdown st) = Logger.Shutdown st /\
  Logger.s_logger (Logger.Shutdown st) = None /\
  is_Some (fst (Logger.Get env (Logger.Shutdown st))) /\
  (exists more,
     Logger.written (snd (Logger.Get env (Logger.Shutdown st)))
     = (Logger.written st ++ more)%list).
Proof.
  split; [|split; [|split; [|split]]].
  - destruct (Logger_Initialize_present env st) as [Hi [lg Hs]].
    unfold Logger.Initialize at 1. rewrite Hi, Hs. reflexivity.
  - unfold Logger.Shutdown. by destruct (Logger.s_logger st).
  - unfold Logger.Shutdown. by destruct (Logger.s_logger st).
  - by destruct (Logger_Get_ready env _ (Logger_Shutdown_ready st)) as [Hsome _].
  - unfold Logger.Get, Logger.Shutdown, Logger.Initialize, Logger.log.
    destruct (Logger.s_logger st) as [lg|]; simpl;
      destruct (Logger.build_sinks env _); simpl;
      repeat (match goal with |- context [if ?b then _ else _] => destruct b end);
      rewrite <- ?app_assoc; eauto using app_nil_r.
Qed.

(** X25. [log_message] hands exactly one line, the message itself, to the
    logger's sinks, at the level its number selects: 0 debug, 1 info,
    2 warning, 3 error, 4 critical, and info for any other number.  No
    level is filtered out. *)
Theorem log_message_writes_one_line (env : Logger.platform) (st : Logger.state)
    (message : string) (lvl : Z) :
  logger_ready st ->
  exists lg l,
    fst (Logger.Get env st) = Some lg /\
    Logger.written (Logger.log_message message lvl env st)
    = (Logger.written (snd (Logger.Get env st)) ++ [(Logger.sinks lg, l, message)])%list /\
    (lvl = 0%Z -> l = Logger.debug) /\
    (lvl = 1%Z -> l = Logger.info) /\
    (lvl = 2%Z -> l = Logger.warn) /\
    (lvl = 3%Z -> l = Logger.err) /\
    (lvl = 4%Z -> l = Logger.critical) /\
    ((lvl < 0 \/ 4 < lvl)%Z -> l = Logger.info).
Proof.
  intros Hr. destruct (Logger_Get_ready env st Hr) as ([lg Hlg] & [_ Hlevel] & _).
  assert (fst (Logger.Get env st) = Logger.s_logger (snd (Logger.Get env st))) as Hsame
    by reflexivity.
  unfold Logger.log_message. destruct (Logger.Get env st) as [o st'].
  simpl in *. subst o. symmetry in Hsame.
  pose proof (Hlevel lg Hsame) as Hdebug.
  exists lg. unfold Logger.log. rewrite Hdebug.
  destruct (lvl =? 0)%Z eqn:H0; [|destruct (lvl =? 1)%Z eqn:H1;
    [|destruct (lvl =? 2)%Z eqn:H2; [|destruct (lvl =? 3)%Z eqn:H3;
      [|destruct (lvl =? 4)%Z eqn:H4]]]];
    eexists; (split; [reflexivity|]); (split; [reflexivity|]);
    repeat split; intros; try reflexivity; lia.
Qed.

(** ** The director *)

Section DirectorProps.
Context {python : Python} {host : SC4City}.
Variable order : BucketOrder.

Lemma set_pythonManager_same d m :
  pythonManager d = Some m -> set_pythonManager (Some m) d = d.
Proof. intros Hm. destruct d. simpl in *. by subst. Qed.

(** X26. Before [OnStart] has made the manager, [PostAppInit] returns
    false and does nothing.  When [PostAppInit] after [OnStart] returns
    true, the director holds an initialized manager whose registered names
    are exactly the stems of the plugin files found in the directory, none
    of them with a plugin instance. *)
Theorem director_boot (d : Director) :
  pythonManager d = None ->
  PostAppInit d = (false, d) /\
  (fst (PostAppInit (snd (OnStart order d))) = true ->
   exists m,
     pythonManager (snd (PostAppInit (snd (OnStart order d)))) = Some m /\
     IsPythonInitialized m = true /\
     dom (loadedPlugins m)
     = discovered_names
         (new_PythonManager (process_py d) (process_directory d) (process_listing d)) /\
     without_instances m).
Proof.
  intros Hnone. split; [unfold PostAppInit; by rewrite Hnone|].
  unfold OnStart. rewrite Hnone. unfold PostAppInit. cbn [snd pythonManager].
  set (m0 := new_PythonManager (process_py d) (process_directory d) (process_listing d)).
  pose proof (Initialize_true_flag m0) as Hflag.
  destruct (Initialize_kept m0) as ((_ & Hinv & _ & Hlist) & Hreg).
  destruct (Initialize m0) as [ok m1]. cbn [fst snd] in Hflag, Hinv, Hlist, Hreg.
  destruct ok; cbn [negb]; [|discriminate].
  specialize (Hflag eq_refl).
  destruct (LoadPlugins_from_empty m1 Hflag Hreg) as [_ Hdom].
  pose proof (loaded_through_as_loaded (DiscoverPluginFiles m1) m1
                (as_loaded_empty m1 Hreg)) as Hloaded.
  pose proof (LoadPlugins_state m1) as Hstate. rewrite Hflag in Hstate.
  destruct (loaded_through_kept (DiscoverPluginFiles m1) m1) as (_ & Hflag2 & _).
  destruct (LoadPlugins m1) as [result m2]. cbn [fst snd] in *. intros ->.
  exists m2. split; [reflexivity|]. subst m2.
  split; [unfold IsPythonInitialized; congruence|]. split.
  - rewrite (Hdom eq_refl). unfold discovered_names.
    by rewrite (DiscoverPluginFiles_kept _ _ Hlist).
  - by apply as_loaded_without.
Qed.

(** What of the manager no message changes. *)
Definition manager_core_kept (m m' : PythonManager) : Prop :=
  pythonInitialized m' = pythonInitialized m /\
  interpreter m' = interpreter m /\
  loadedPlugins m' = loadedPlugins m /\
  lastError m' = lastError m /\
  city (cityWrapper m') = city (cityWrapper m).

Lemma interpreter_only_core m m' : interpreter_only m m' -> manager_core_kept m m'.
Proof.
  intros H. apply interpreter_only_members in H as (?&?&?&Hc&?&_).
  unfold manager_core_kept. rewrite Hc. tauto.
Qed.

Lemma OnCityInit_core m : manager_core_kept m (snd (OnCityInit order m)).
Proof.
  unfold OnCityInit. destruct (pythonInitialized m) eqn:Hi; [|by repeat split].
  cbn [negb].
  pose proof (CallAllPlugins_loop_only "on_city_init"
                (enumerate order
                   (loadedPlugins (set_cityWrapper (UpdateCityReference (cityWrapper m)) m)))
                true (set_cityWrapper (UpdateCityReference (cityWrapper m)) m)) as Hstep.
  apply interpreter_only_core in Hstep as (?&?&?&?&?).
  unfold CallAllPlugins. by repeat split.
Qed.

(** X27. [DoMessage] returns false for a null message and true for every
    other one, whatever a cheat's handlers answered or raised.  A message
    that is neither a cheat nor a city event changes nothing, and neither
    does any message before the manager exists.  With a manager, no message
    changes its initialized flag, its interpreter handle, its registry, its
    last error or its city pointer. *)
Theorem DoMessage_effect (d : Director) :
  DoMessage order None d = (false, d) /\
  (forall msg, fst (DoMessage order (Some msg) d) = true) /\
  (forall msg,
     msg_type msg <> kGZMSG_CheatIssued -> msg_type msg <> kMsgCityInit ->
     msg_type msg <> kMsgCityShutdown ->
     DoMessage order (Some msg) d = (true, d)) /\
  (pythonManager d = None -> forall pMessage, snd (DoMessage order pMessage d) = d) /\
  (forall m pMessage,
     pythonManager d = Some m ->
     exists m',
       pythonManager (snd (DoMessage order pMessage d)) = Some m' /\
       manager_core_kept m m').
Proof.
  split; [reflexivity|]. split; [|split; [|split]].
  - intros msg. unfold DoMessage.
    destruct (msg_type msg =? kGZMSG_CheatIssued)%Z; [reflexivity|].
    destruct (msg_type msg =? kMsgCityInit)%Z; [by destruct (pythonManager d)|].
    destruct (msg_type msg =? kMsgCityShutdown)%Z; [by destruct (pythonManager d)|].
    reflexivity.
  - intros msg H1 H2 H3. unfold DoMessage.
    apply Z.eqb_neq in H1, H2, H3. by rewrite H1, H2, H3.
  - intros Hnone [msg|]; [|reflexivity]. unfold DoMessage, ProcessCheat.
    rewrite Hnone. by repeat (destruct (_ =? _)%Z).
  - intros m [msg|] Hm; [|exists m; by repeat split].
    unfold DoMessage, ProcessCheat. rewrite Hm.
    destruct (msg_type msg =? kGZMSG_CheatIssued)%Z.
    { pose proof (HandleCheat_only order (msg_data1 msg)
                    match msg_void2 msg with
                    | Some (Some chars) => chars
                    | _ => EmptyString
                    end m) as Hstep.
      destruct (HandleCheat order _ _ m) as [r m']. simpl in *.
      exists m'. split; [reflexivity|]. by apply interpreter_only_core. }
    destruct (msg_type msg =? kMsgCityInit)%Z.
    { eexists. split; [reflexivity|]. apply OnCityInit_core. }
    destruct (msg_type msg =? kMsgCityShutdown)%Z.
    { eexists. split; [reflexivity|]. apply interpreter_only_core.
      unfold OnCityShutdown. destruct (pythonInitialized m); simpl.
      - apply CallAllPlugins_loop_only.
      - apply interpreter_only_refl. }
    exists m. by repeat split.
Qed.

Lemma enumerate_empty {V} : enumerate order (∅ : gmap string V) = [].
Proof.
  apply Permutation_nil_r. rewrite <- (map_to_list_empty (M:=gmap string)).
  apply enumerate_perm.
Qed.

Lemma Shutdown_unloaded m :
  loadedPlugins m = ∅ ->
  pythonInitialized (Shutdown order m) = false /\
  loadedPlugins (Shutdown order m) = ∅ /\
  invocations (Shutdown order m) = invocations m.
Proof.
  intros Hreg. unfold Shutdown, UnloadPlugins. rewrite Hreg, enumerate_empty.
  destruct (pythonInitialized m) eqn:Hi; cbn [negb UnloadPlugins_loop]; [|done].
  simpl. by destruct (interpreter m).
Qed.

(** X28. After [PreAppShutdown] followed by [PostAppShutdown] the manager
    is not initialized and its registry is empty; [PostAppShutdown] invokes
    no handler beyond those [PreAppShutdown] invoked, so no plugin is shut
    down twice; and every later message leaves the director as it is. *)
Theorem director_shutdown (d : Director) (m : PythonManager) :
  pythonManager d = Some m ->
  let d1 := snd (PreAppShutdown order d) in
  let d2 := snd (PostAppShutdown order d1) in
  exists m1 m2,
    pythonManager d1 = Some m1 /\ pythonManager d2 = Some m2 /\
    loadedPlugins m1 = ∅ /\
    IsPythonInitialized m2 = false /\
    loadedPlugins m2 = ∅ /\
    invocations m2 = invocations m1 /\
    forall pMessage, snd (DoMessage order pMessage d2) = d2.
Proof.
  intros Hm. cbv zeta. unfold PreAppShutdown, PostAppShutdown. rewrite Hm.
  cbn [snd set_pythonManager pythonManager].
  destruct (Shutdown_unloaded (UnloadPlugins order m) eq_refl) as (Hflag & Hreg & Hinv).
  exists (UnloadPlugins order m), (Shutdown order (UnloadPlugins order m)).
  split; [reflexivity|]. split; [reflexivity|]. split; [reflexivity|].
  split; [exact Hflag|]. split; [exact Hreg|]. split; [exact Hinv|].
  set (m2 := Shutdown order (UnloadPlugins order m)) in *. clearbody m2.
  intros [msg|]; [|reflexivity].
  unfold DoMessage, ProcessCheat, HandleCheat, OnCityInit, OnCityShutdown.
  cbn [pythonManager set_pythonManager]. rewrite !Hflag. cbn [negb snd].
  by repeat (destruct (_ =? _)%Z).
Qed.

End DirectorProps.

(** ** Further runs on the scripted interpreter *)

(** Two plugins answer [handle_message], each in its own way. *)
Definition relay (first second : Scripted.behaviour) : Scripted.script :=
  {| Scripted.starts := true;
     Scripted.importable := fun _ => true;
     Scripted.methods := fun inst method =>
       if String.eqb method "handle_message" then
         if String.eqb inst "alpha" then Some first
         else if String.eqb inst "beta" then Some second
         else None
       else None |}.

Lemma HandleMessage_reaches_every_plugin_witness :
  let sc := relay (says false) (Scripted.Returns Scripted.NoneObj) in
  let s := hosting sc ["alpha"; "beta"] in
  let s0 := snd (make_SC4Message 650523461 (Some (1, 2, 3)%Z) s) in
  fst (HandleMessage Scripted.order 650523461 (Some (1, 2, 3)%Z) s) = true /\
  exists later,
    invocations (snd (HandleMessage Scripted.order 650523461 (Some (1, 2, 3)%Z) s))
    = (invocations (@delivered_through (Scripted.python sc) Scripted.city
                      (Scripted.Instance_ "SC4Message")
                      [("alpha", live_entry sc "alpha")] s0)
       ++ ("beta", "handle_message") :: later)%list.
Proof.
  intros sc s s0.
  assert (fst (HandleMessage Scripted.order 650523461 (Some (1, 2, 3)%Z) s) = true)
    as Htrue by (vm_compute; reflexivity).
  split; [exact Htrue|].
  apply (proj2 (@HandleMessage_reaches_every_plugin (Scripted.python sc) Scripted.city
                  Scripted.order s s0 650523461 (Some (1, 2, 3)%Z)
                  (Scripted.Instance_ "SC4Message") eq_refl eq_refl)
           Htrue [("alpha", live_entry sc "alpha")] "beta" (live_entry sc "beta") []
           (Scripted.Instance_ "beta")).
  - vm_compute. reflexivity.
  - reflexivity.
  - reflexivity.
  - unfold absent. vm_compute. discriminate.
Defined.

Lemma HandleMessage_exception_aborts_witness :
  let sc := relay (Scripted.Returns (Scripted.Text "ok")) (says true) in
  let s := hosting sc ["alpha"; "beta"; "gamma"] in
  (enumerate Scripted.order (loadedPlugins s)).*1 = ["gamma"; "alpha"; "beta"] /\
  fst (HandleMessage Scripted.order 650523461 None s) = false /\
  invocations (snd (HandleMessage Scripted.order 650523461 None s))
  = [("alpha", "handle_message")].
Proof.
  intros sc s. split; [vm_compute; reflexivity|].
  apply (@HandleMessage_exception_aborts (Scripted.python sc) Scripted.city
           Scripted.order s (snd (make_SC4Message 650523461 None s)) 650523461 None
           (Scripted.Instance_ "SC4Message")
           [("gamma", live_entry sc "gamma")] [("beta", live_entry sc "beta")]
           "alpha" (live_entry sc "alpha") (Scripted.Instance_ "alpha")).
  - reflexivity.
  - reflexivity.
  - vm_compute. reflexivity.
  - intros [|? [|? ?]] ? ? Heq; [|discriminate|discriminate].
    injection Heq as <- <-. right. right. eexists. split; [reflexivity|].
    left. vm_compute. reflexivity.
  - reflexivity.
  - reflexivity.
  - unfold absent. vm_compute. discriminate.
  - vm_compute. reflexivity.
Defined.


(** Every plugin has a [shutdown] that returns. *)
Definition closers : Scripted.script :=
  {| Scripted.starts := true;
     Scripted.importable := fun _ => true;
     Scripted.methods := fun inst method =>
       if String.eqb method "shutdown" then Some (Scripted.Returns Scripted.NoneObj)
       else None |}.

Lemma UnloadPlugins_shuts_down_each_witness :
  let s := hosting closers ["alpha"; "beta"] in
  loadedPlugins (UnloadPlugins Scripted.order s) = ∅ /\
  exists later,
    invocations (UnloadPlugins Scripted.order s)
    = (invocations (UnloadPlugins_loop [("alpha", live_entry closers "alpha")] s)
       ++ ("beta", "shutdown") :: later)%list.
Proof.
  intros s.
  destruct (@UnloadPlugins_shuts_down_each (Scripted.python closers) Scripted.city
              Scripted.order s) as (Hreg & _ & _ & Hall).
  split; [exact Hreg|].
  apply (Hall [("alpha", live_entry closers "alpha")] "beta" (live_entry closers "beta")
           [] (Scripted.Instance_ "beta")).
  - vm_compute. reflexivity.
  - reflexivity.
  - reflexivity.
  - unfold absent. vm_compute. discriminate.
Defined.

Lemma dispatch_without_instances_witness :
  let s := loaded_through ["C:\SC4\PythonScripts\alpha.py"; "C:\SC4\PythonScripts\beta.py"]
             (started idle_script None) in
  dom (loadedPlugins s) = {["alpha"; "beta"]} /\
  fst (CallAllPlugins Scripted.order "on_city_init" s) = false /\
  snd (CallAllPlugins Scripted.order "on_city_init" s) = s /\
  fst (HandleCheat Scripted.order 27024 "fund" s) = false /\
  invocations (snd (HandleCheat Scripted.order 27024 "fund" s)) = [].
Proof.
  intros s.
  destruct (@dispatch_without_instances (Scripted.python idle_script) Scripted.city
              Scripted.order s) as (Hall & Hcheat & _).
  { apply as_loaded_without, loaded_through_as_loaded, as_loaded_empty. reflexivity. }
  split; [vm_compute; reflexivity|].
  split; [vm_compute; reflexivity|].
  split; [exact (proj1 (Hall "on_city_init"))|].
  exact (Hcheat 27024%Z "fund").
Defined.

Lemma LoadPlugins_again_witness :
  let s := started flaky_script (Some scenario_listing) in
  fst (LoadPlugins s) = true /\
  LoadPlugins (snd (LoadPlugins s)) = (true, snd (LoadPlugins s)).
Proof.
  intros s.
  assert (fst (LoadPlugins s) = true) as Htrue by (vm_compute; reflexivity).
  split; [exact Htrue|].
  exact (@LoadPlugins_again (Scripted.python flaky_script) Scripted.city s Htrue).
Defined.

Lemma ReloadPlugins_no_stale_entries_witness :
  let s := set_loadedPlugins {[ "old" := live_entry idle_script "old" ]}
             (started idle_script (Some scenario_listing)) in
  pythonInitialized s = true /\
  fst (ReloadPlugins Scripted.order s) = true /\
  dom (loadedPlugins (snd (ReloadPlugins Scripted.order s))) = discovered_names s /\
  discovered_names s = {[ "alpha" ]}.
Proof.
  intros s.
  assert (fst (ReloadPlugins Scripted.order s) = true) as Htrue
    by (vm_compute; reflexivity).
  split; [reflexivity|]. split; [exact Htrue|].
  split; [|vm_compute; reflexivity].
  exact (proj2 (proj2 (@ReloadPlugins_no_stale_entries (Scripted.python idle_script)
                         Scripted.city Scripted.order s) eq_refl) Htrue).
Defined.

Lemma GetCityMoney_range_witness :
  GetCityMoney (with_city (host := Scripted.city) (-5, false)%Z new_CityWrapper) = 0%Z /\
  GetCityMoney (with_city (host := Scripted.city) (2 ^ 32 + 7, false)%Z new_CityWrapper)
  = 7%Z.
Proof.
  split.
  - apply (proj1 (proj2 (@GetCityMoney_range Scripted.city
                           (with_city (host := Scripted.city) (-5, false)%Z
                              new_CityWrapper))
                   (-5, false)%Z eq_refl eq_refl)).
    simpl. lia.
  - rewrite (proj2 (proj2 (proj2 (@GetCityMoney_range Scripted.city
                           (with_city (host := Scripted.city) (2 ^ 32 + 7, false)%Z
                              new_CityWrapper))
                   (2 ^ 32 + 7, false)%Z eq_refl eq_refl))).
    + reflexivity.
    + simpl. lia.
Defined.

Lemma AddCityMoney_routes_by_sign_witness :
  AddCityMoney (-30) (with_city (host := Scripted.city) (100, false)%Z new_CityWrapper)
  = (true, with_city (host := Scripted.city) (70, false)%Z new_CityWrapper).
Proof.
  rewrite (@AddCityMoney_routes_by_sign Scripted.city
             (with_city (host := Scripted.city) (100, false)%Z new_CityWrapper)
             (100, false)%Z (-30)%Z eq_refl eq_refl).
  - reflexivity.
  - lia.
Defined.

Lemma SetMayorMode_reaches_mode_witness :
  let w := with_city (host := Scripted.city) (100, false)%Z new_CityWrapper in
  fst (SetMayorMode true w) = true /\
  GetMayorMode (snd (SetMayorMode true w)) = true.
Proof.
  intros w.
  destruct (@SetMayorMode_reaches_mode Scripted.city w (100, false)%Z true)
    as (H1 & H2 & _).
  - intros c'. reflexivity.
  - reflexivity.
  - split; [exact H1 | exact H2].
Defined.

(** The module that holds the message and command classes is missing. *)
Definition no_sc4_types : Scripted.script :=
  {| Scripted.starts := true;
     Scripted.importable := fun n => negb (String.eqb n "sc4_types");
     Scripted.methods := fun inst method =>
       if String.eqb method "handle_cheat" then Some (says true) else None |}.

Lemma events_without_sc4_types_witness :
  let s := hosting no_sc4_types ["alpha"] in
  pythonInitialized s = true /\
  fst (HandleCheat Scripted.order 27024 "fund" s) = false /\
  invocations (snd (HandleCheat Scripted.order 27024 "fund" s)) = [] /\
  fst (HandleMessage Scripted.order 650523461 None s) = false.
Proof.
  intros s.
  destruct (@events_without_sc4_types (Scripted.python no_sc4_types) Scripted.city
              Scripted.order s "ModuleNotFoundError: sc4_types"
              (snd (module_import "sc4_types" (py s))) eq_refl eq_refl)
    as [Hcheat Hmsg].
  split; [reflexivity|].
  rewrite (Hcheat 27024%Z "fund"), (Hmsg 650523461%Z None).
  split; [reflexivity|]. split; reflexivity.
Defined.

(** A Windows process: its profile folder, and whether the folder for the
    log file can be made. *)
Definition windows (profile : option string) (writable : bool) : Logger.platform :=
  {| Logger.USERPROFILE := profile;
     Logger.create_directories :=
       fun _ => if writable then Ok tt else Throw "Access is denied";
     Logger.open_log_file := fun _ => Ok tt;
     Logger.join := fun a b => a +:+ "\" +:+ b |}.

Lemma Logger_Initialize_outcome_witness :
  let st' := Logger.Initialize (windows (Some "C:\Users\mayor") false) Logger.initial in
  Logger.s_initialized st' = true /\
  exists lg,
    Logger.s_logger st' = Some lg /\
    Logger.sinks lg = [Logger.msvc_sink] /\
    Logger.written st'
    = [([Logger.msvc_sink], Logger.err,
        "Failed to initialize file logging: Access is denied")].
Proof.
  intros st'.
  destruct (Logger_Initialize_outcome (windows (Some "C:\Users\mayor") false)
              Logger.initial eq_refl) as (Hi & _ & Hfile).
  split; [exact Hi|].
  apply (proj2 (Hfile "C:\Users\mayor" eq_refl ltac:(discriminate)) "Access is denied").
  left. reflexivity.
Defined.

Lemma log_message_writes_one_line_witness :
  Logger.written
    (Logger.log_message "hello" 7 (windows None true)
       (Logger.Initialize (windows None true) Logger.initial))
  = [([Logger.msvc_sink], Logger.info, "SC4PythonFramework logger initialized");
     ([Logger.msvc_sink], Logger.info, "hello")].
Proof.
  destruct (log_message_writes_one_line (windows None true)
              (Logger.Initialize (windows None true) Logger.initial) "hello" 7%Z)
    as (lg & l & Hlg & Hw & _ & _ & _ & _ & _ & Hother).
  - apply Logger_Initialize_ready. split; [discriminate|discriminate].
  - rewrite Hw, (Hother ltac:(lia)). injection Hlg as <-. reflexivity.
Defined.

(** A process in which nothing has made the manager yet. *)
Definition cold (sc : Scripted.script) (listing : option (list directory_entry))
    : @Director (Scripted.python sc) Scripted.city :=
  @Build_Director (Scripted.python sc) Scripted.city
    None 0 "C:\SC4\PythonScripts" listing 0.

Lemma director_boot_witness :
  let d := cold idle_script (Some scenario_listing) in
  PostAppInit d = (false, d) /\
  fst (PostAppInit (snd (OnStart Scripted.order d))) = true /\
  exists m,
    pythonManager (snd (PostAppInit (snd (OnStart Scripted.order d)))) = Some m /\
    IsPythonInitialized m = true /\
    dom (loadedPlugins m) = {[ "alpha" ]}.
Proof.
  intros d.
  destruct (@director_boot (Scripted.python idle_script) Scripted.city Scripted.order
              d eq_refl) as [Hcold Hboot].
  split; [exact Hcold|].
  assert (fst (PostAppInit (snd (OnStart Scripted.order d))) = true) as Htrue
    by (vm_compute; reflexivity).
  split; [exact Htrue|].
  destruct (Hboot Htrue) as (m & Hm & Hi & Hdom & _).
  exists m. split; [exact Hm|]. split; [exact Hi|].
  rewrite Hdom. vm_compute. reflexivity.
Defined.

Lemma director_shutdown_witness :
  let m := hosting closers ["alpha"; "beta"] in
  let d := set_pythonManager (Some m) (cold closers None) in
  let d1 := snd (PreAppShutdown Scripted.order d) in
  let d2 := snd (PostAppShutdown Scripted.order d1) in
  pythonManager d = Some m /\
  exists m1 m2,
    pythonManager d1 = Some m1 /\ pythonManager d2 = Some m2 /\
    loadedPlugins m1 = ∅ /\
    IsPythonInitialized m2 = false /\
    loadedPlugins m2 = ∅ /\
    invocations m2 = invocations m1 /\
    forall pMessage, snd (DoMessage Scripted.order pMessage d2) = d2.
Proof.
  intros m d d1 d2. split; [reflexivity|].
  exact (@director_shutdown (Scripted.python closers) Scripted.city Scripted.order
           d m eq_refl).
Defined.
